(** * Order submission path of the storefront: client form handler and
      Orders API handler

    A shallow embedding of the order form script (the browser side:
    [validateOrderForm], [buildOrderPayload], [saveOrderToLocalStore],
    [sendOrderToApi], [getFallbackOrdersApiUrl], [getOrdersApiUrlWhenReady],
    [handleSubmit]) and of [api/orders.js] (the serverless handler:
    [parseBody], [getFile], [putFile], [handler]).

    JavaScript strings are sequences of UTF-16 code units, JavaScript values
    are a small inductive type, objects are association lists in insertion
    order.  Code that touches the outside world (DOM, storage, network, the
    [Store] collaborator, GitHub) runs in a state-and-exception monad whose
    state carries the chronological record of the effects performed. *)

From Stdlib Require Import ZArith NArith List String Ascii Bool Lia.
From Stdlib Require Import Decimal DecimalString.
From stdpp Require Import base option list.
Import ListNotations.

Local Open Scope N_scope.

(** ** JavaScript strings *)

Module JS.

(** A code unit of a JavaScript string. *)
Definition jschar := N.
Definition jsstring := list jschar.

(** A string literal of the source, as code units. *)
Definition js (s : string) : jsstring :=
  List.map N_of_ascii (list_ascii_of_string s).
Arguments js : simpl never.

(** [WhiteSpace] and [LineTerminator] of ECMAScript: the characters that
    [String.prototype.trim] removes and that the regular expression class
    [\s] matches (the two sets are the same). *)
Definition isWhiteSpace (c : jschar) : bool :=
  ((9 <=? c) && (c <=? 13))            (* TAB LF VT FF CR *)
  || (c =? 32)                          (* SPACE *)
  || (c =? 160)                         (* NO-BREAK SPACE *)
  || (c =? 5760)                        (* U+1680 *)
  || ((8192 <=? c) && (c <=? 8202))     (* U+2000 .. U+200A *)
  || (c =? 8232) || (c =? 8233)         (* U+2028 U+2029 *)
  || (c =? 8239)                        (* U+202F *)
  || (c =? 8287)                        (* U+205F *)
  || (c =? 12288)                       (* U+3000 *)
  || (c =? 65279).                      (* U+FEFF *)

Fixpoint dropWhile {A} (p : A -> bool) (l : list A) : list A :=
  match l with
  | [] => []
  | x :: l' => if p x then dropWhile p l' else l
  end.

Definition dropWhileEnd {A} (p : A -> bool) (l : list A) : list A :=
  rev (dropWhile p (rev l)).

(** [s.trim()] *)
Definition trim (s : jsstring) : jsstring :=
  dropWhileEnd isWhiteSpace (dropWhile isWhiteSpace s).

Definition isDigit (c : jschar) : bool := (48 <=? c) && (c <=? 57).

(** ASCII case folding, as the [i] flag does for the ASCII letters of the
    patterns below (a code unit at or above 128 never folds to one below). *)
Definition toLowerAscii (c : jschar) : jschar :=
  if (65 <=? c) && (c <=? 90) then c + 32 else c.

Fixpoint startsWithCI (pat s : jsstring) : bool :=
  match pat, s with
  | [], _ => true
  | _ :: _, [] => false
  | p :: pat', c :: s' => (toLowerAscii c =? p) && startsWithCI pat' s'
  end.

(** [/^http:\/\//i.test(s)] *)
Definition re_http (s : jsstring) : bool := startsWithCI (js "http://") s.

(** [/^https?:\/\//i.test(s)] *)
Definition re_https_opt (s : jsstring) : bool :=
  startsWithCI (js "http://") s || startsWithCI (js "https://") s.

(** [s.replace(/\/+$/, '')]: the trailing run of slashes is removed. *)
Definition stripTrailingSlashes (s : jsstring) : jsstring :=
  dropWhileEnd (fun c => c =? 47) s.

(** [s.replace(/^http:\/\//i, 'https://')], used where [re_http s] holds. *)
Definition upgradeToHttps (s : jsstring) : jsstring :=
  if re_http s then js "https://" ++ drop 7 s else s.

(** The character class [[0-9+\s-]] of the phone pattern. *)
Definition phoneChar (c : jschar) : bool :=
  isDigit c || (c =? 43) || isWhiteSpace c || (c =? 45).

(** [/^[0-9+\s-]+$/.test(s)] *)
Definition re_phone (s : jsstring) : bool :=
  match s with
  | [] => false
  | _ => forallb phoneChar s
  end.

(** Truthiness of a string. *)
Definition nonEmpty (s : jsstring) : bool :=
  match s with [] => false | _ => true end.

(** ** Objects as association lists in insertion order *)

Definition jsstring_eqb (a b : jsstring) : bool :=
  bool_decide (a = b).

(** Own-property lookup. *)
Fixpoint assoc_get {V} (k : jsstring) (fs : list (jsstring * V)) : option V :=
  match fs with
  | [] => None
  | (k', v) :: fs' => if jsstring_eqb k k' then Some v else assoc_get k fs'
  end.

(** [o[k] = v]: an existing key keeps its position, a new key goes last. *)
Fixpoint assoc_set {V} (k : jsstring) (v : V) (fs : list (jsstring * V))
  : list (jsstring * V) :=
  match fs with
  | [] => [(k, v)]
  | (k', v') :: fs' =>
      if jsstring_eqb k k' then (k', v) :: fs' else (k', v') :: assoc_set k v fs'
  end.

(** ** JavaScript values *)

#[local] Set Warnings "-register-all".

(** Numbers are carried as integers: the code below only tests them for
    truthiness, compares a length with zero and converts them to strings. *)
Inductive jsval : Type :=
| VUndef
| VNull
| VBool (b : bool)
| VNum (z : Z)
| VStr (s : jsstring)
| VArr (elems : list jsval)
| VObj (fields : list (jsstring * jsval)).

Definition truthy (v : jsval) : bool :=
  match v with
  | VUndef | VNull => false
  | VBool b => b
  | VNum z => negb (z =? 0)%Z
  | VStr s => nonEmpty s
  | VArr _ | VObj _ => true
  end.

(** [a || b] *)
Definition or_else (a b : jsval) : jsval := if truthy a then a else b.

(** [v[k]] for the property names the code reads.  [None] is the
    [TypeError] of reading a property of [undefined] or [null]. *)
Definition get_prop (k : jsstring) (v : jsval) : option jsval :=
  match v with
  | VUndef | VNull => None
  | VObj fs => Some (default VUndef (assoc_get k fs))
  | VArr l =>
      Some (if jsstring_eqb k (js "length") then VNum (Z.of_nat (length l)) else VUndef)
  | VStr s =>
      Some (if jsstring_eqb k (js "length") then VNum (Z.of_nat (length s)) else VUndef)
  | VBool _ | VNum _ => Some VUndef
  end.

(** The decimal digits of an integer, with a sign when negative. *)
Definition decimal (z : Z) : jsstring := js (NilZero.string_of_int (Z.to_int z)).

(** [Number::toString] on an integer: its decimal digits below [10^21] in
    magnitude; from there on the exponent form, which [big] stands for (it
    depends on the binary representation of the number). *)
Definition numberToString (big : Z -> jsstring) (z : Z) : jsstring :=
  if (Z.abs z <? 10 ^ 21)%Z then decimal z else big z.

(** The object has an own property [k]. *)
Definition hasOwn {V} (k : jsstring) (fs : list (jsstring * V)) : bool :=
  match assoc_get k fs with Some _ => true | None => false end.

Definition listIsEmpty {A} (l : list A) : bool :=
  match l with [] => true | _ => false end.

(** The string a value is converted to, by [String(v)], by ['...' + v]
    and by a DOM attribute or method that takes a string; [None] is the
    [TypeError] of a value that cannot be converted.  An object of this
    value type holds no function, so that an own property [toString]
    hides [Object.prototype.toString] behind something that cannot be
    called, and neither order of [valueOf] and [toString] gives a
    primitive.  An array converts its elements in turn. *)
Fixpoint toString (big : Z -> jsstring) (v : jsval) : option jsstring :=
  match v with
  | VUndef => Some (js "undefined")
  | VNull => Some (js "null")
  | VBool true => Some (js "true")
  | VBool false => Some (js "false")
  | VNum z => Some (numberToString big z)
  | VStr s => Some s
  | VArr l =>
      (fix join (l : list jsval) : option jsstring :=
         match l with
         | [] => Some []
         | x :: l' =>
             match (match x with
                    | VUndef | VNull => Some []
                    | _ => toString big x
                    end), join l' with
             | Some a, Some b =>
                 Some (a ++ (if listIsEmpty l' then [] else js "," ++ b))
             | _, _ => None
             end
         end) l
  | VObj fs =>
      if hasOwn (js "toString") fs then None else Some (js "[object Object]")
  end.

End JS.
Import JS.

(** ** Outcomes and the state-and-exception monad *)

(** How a call or a promise ends: a value, an exception (a rejection) with
    its message, or never (a promise that does not settle). *)
Inductive Res (A : Type) : Type :=
| Ok (a : A)
| Throw (msg : jsstring)
| Pending.
Arguments Ok {A} a.
Arguments Throw {A} msg.
Arguments Pending {A}.

Definition M (S A : Type) : Type := S -> Res A * S.

Definition ret {S A} (a : A) : M S A := fun s => (Ok a, s).

Definition throw {S A} (msg : jsstring) : M S A := fun s => (Throw msg, s).

Definition bind {S A B} (m : M S A) (k : A -> M S B) : M S B :=
  fun s =>
    match m s with
    | (Ok a, s') => k a s'
    | (Throw e, s') => (Throw e, s')
    | (Pending, s') => (Pending, s')
    end.

(** [try { m } catch (e) { h e }], and [p.catch(h)] on a promise. *)
Definition try_catch {S A} (m : M S A) (h : jsstring -> M S A) : M S A :=
  fun s =>
    match m s with
    | (Throw e, s') => h e s'
    | r => r
    end.

Definition modify {S} (f : S -> S) : M S unit := fun s => (Ok tt, f s).

Definition gets {S A} (f : S -> A) : M S A := fun s => (Ok (f s), s).

(** An outcome decided outside the monad. *)
Definition lift {S A} (r : Res A) : M S A := fun s => (r, s).

Declare Scope js_scope.
Delimit Scope js_scope with jsm.
Notation "x <- m ;; k" := (bind m (fun x => k))
  (at level 100, m at level 99, right associativity) : js_scope.
Notation "m ;; k" := (bind m (fun _ => k))
  (at level 100, right associativity) : js_scope.

Local Open Scope js_scope.

(** * The Orders API handler ([api/orders.js]) *)

Module Server.

Definition GITHUB_API : jsstring := js "https://api.github.com".
Definition STORE_DATA_PATH : jsstring := js "data/store-data.json".

(** The part of [req] the handler reads.  A header or an environment
    variable is a string or [undefined]. *)
Record Request : Type := mkRequest {
  req_method : jsstring;
  hdr_origin : option jsstring;
  hdr_referer : option jsstring;
  hdr_user_agent : option jsstring;
  hdr_content_type : option jsstring;
  req_body : jsval
}.

(** What [fetch] to the GitHub contents API can do. *)
Inductive FetchResult : Type :=
| FetchRejects (msg : jsstring)
| FetchHangs
| HttpResponse (status : Z) (text : jsstring).

Inductive GitHubCall : Type :=
| GET (url token : jsstring)
| PUT (url token body : jsstring).

(** The deployment, the platform functions the handler calls, and the
    remote store, which answers a request knowing the requests made before
    it (most recent first). *)
Record Env : Type := mkEnv {
  GITHUB_TOKEN : option jsstring;
  GITHUB_OWNER : option jsstring;
  GITHUB_REPO : option jsstring;
  GITHUB_BRANCH : option jsstring;
  Date_now : Z;
  (** [Number::toString] from [10^21] on *)
  Number_big : Z -> jsstring;
  (** [new URL(s).origin]; [None] when the constructor throws. *)
  URL_origin : jsstring -> option jsstring;
  (** [JSON.parse(s)]; [None] when it throws. *)
  JSON_parse : jsstring -> option jsval;
  (** [JSON.stringify(v)] and [JSON.stringify(v, null, 2)]. *)
  JSON_stringify : jsval -> jsstring;
  JSON_stringify_indent2 : jsval -> jsstring;
  encodeURIComponent : jsstring -> jsstring;
  (** [Buffer.from(v, 'base64').toString('utf8')]; [None] when it throws. *)
  base64_decode : jsval -> option jsstring;
  (** [Buffer.from(s, 'utf8').toString('base64')]. *)
  base64_encode : jsstring -> jsstring;
  github : list GitHubCall -> GitHubCall -> FetchResult
}.

(** What the handler sends with [res.json(v)] or [res.end()]. *)
Inductive Payload : Type :=
| JsonBody (v : jsval)
| EmptyBody.

(** The response object [res], the requests made to GitHub and the console
    lines written, most recent first. *)
Record State : Type := mkState {
  res_headers : list (jsstring * jsstring);
  res_statusCode : Z;
  res_sent : list Payload;
  github_calls : list GitHubCall;
  console : list string
}.

Definition init : State :=
  {| res_headers := []; res_statusCode := 200; res_sent := [];
     github_calls := []; console := [] |}.

Definition setHeader (k v : jsstring) : M State unit :=
  modify (fun s => {| res_headers := assoc_set k v (res_headers s);
                      res_statusCode := res_statusCode s;
                      res_sent := res_sent s;
                      github_calls := github_calls s;
                      console := console s |}).

Definition status (code : Z) : M State unit :=
  modify (fun s => {| res_headers := res_headers s;
                      res_statusCode := code;
                      res_sent := res_sent s;
                      github_calls := github_calls s;
                      console := console s |}).

Definition send (p : Payload) : M State unit :=
  modify (fun s => {| res_headers := res_headers s;
                      res_statusCode := res_statusCode s;
                      res_sent := p :: res_sent s;
                      github_calls := github_calls s;
                      console := console s |}).

Definition json (v : jsval) : M State unit := send (JsonBody v).

Definition console_write (line : string) : M State unit :=
  modify (fun s => {| res_headers := res_headers s;
                      res_statusCode := res_statusCode s;
                      res_sent := res_sent s;
                      github_calls := github_calls s;
                      console := line :: console s |}).

(** [fetch(url, ...)] against GitHub: the call is recorded and the store
    answers. *)
Definition fetch (env : Env) (c : GitHubCall) : M State FetchResult :=
  fun s =>
    (Ok (github env (github_calls s) c),
     {| res_headers := res_headers s;
        res_statusCode := res_statusCode s;
        res_sent := res_sent s;
        github_calls := c :: github_calls s;
        console := console s |}).

(** [res.ok] *)
Definition ok (status : Z) : bool := ((200 <=? status) && (status <=? 299))%Z.

Definition truthyStr (o : option jsstring) : bool :=
  match o with Some s => nonEmpty s | None => false end.

(** [corsHeaders(origin)] *)
Definition corsHeaders (origin : jsstring) : list (jsstring * jsstring) :=
  let o := if nonEmpty origin then origin else js "*" in
  [ (js "Access-Control-Allow-Origin", o);
    (js "Access-Control-Allow-Methods", js "GET, POST, OPTIONS");
    (js "Access-Control-Allow-Headers", js "Content-Type, Accept");
    (js "Access-Control-Max-Age", js "86400") ].

(** [setCors(res, origin)] *)
Definition setCors (origin : jsstring) : M State unit :=
  fold_right (fun kv k => setHeader (fst kv) (snd kv) ;; k) (ret tt)
             (corsHeaders origin).

Definition contentsUrl (env : Env) (owner repo path : jsstring) : jsstring :=
  GITHUB_API ++ js "/repos/" ++ encodeURIComponent env owner ++ js "/"
    ++ encodeURIComponent env repo ++ js "/contents/"
    ++ encodeURIComponent env path.

(** What awaiting a [fetch] gives. *)
Definition await_fetch (env : Env) (c : GitHubCall) : M State (Z * jsstring) :=
  r <- fetch env c ;;
  match r with
  | FetchRejects msg => throw msg
  | FetchHangs => lift Pending
  | HttpResponse st text => ret (st, text)
  end.

(** [res.json()] *)
Definition response_json (env : Env) (text : jsstring) : M State jsval :=
  match JSON_parse env text with
  | Some v => ret v
  | None => throw (js "Unexpected token in JSON")
  end.

(** [getFile(owner, repo, path, branch, token)] *)
Definition getFile (env : Env) (owner repo path branch token : jsstring)
  : M State jsval :=
  let url := contentsUrl env owner repo path ++ js "?ref="
               ++ encodeURIComponent env branch in
  r <- await_fetch env (GET url token) ;;
  let '(st, text) := r in
  if negb (ok st)
  then throw (js "GitHub GET failed: " ++ numberToString (Number_big env) st ++ js " " ++ text)
  else response_json env text.

(** The body object [putFile] builds: [sha] is added only when truthy. *)
Definition putBody (env : Env) (content : jsstring) (sha : jsval)
    (branch : jsstring) (message : jsstring) : jsval :=
  let body :=
    [ (js "message",
       VStr (if nonEmpty message then message else js "Add order via Orders API"));
      (js "content", VStr (base64_encode env content));
      (js "branch", VStr branch) ] in
  VObj (if truthy sha then assoc_set (js "sha") sha body else body).

(** [putFile(owner, repo, path, content, sha, branch, token, message)] *)
Definition putFile (env : Env) (owner repo path content : jsstring)
    (sha : jsval) (branch token message : jsstring) : M State jsval :=
  let url := contentsUrl env owner repo path in
  let body := putBody env content sha branch message in
  r <- await_fetch env (PUT url token (JSON_stringify env body)) ;;
  let '(st, text) := r in
  if negb (ok st)
  then throw (js "GitHub PUT failed: " ++ numberToString (Number_big env) st ++ js " " ++ text)
  else response_json env text.

(** [parseBody(req)] *)
Definition parseBody (env : Env) (req : Request) : Res jsval :=
  match req_body req with
  | VUndef | VNull => Ok VNull
  | VObj fs => Ok (VObj fs)
  | VStr raw =>
      if negb (nonEmpty (trim raw)) then Ok (VObj [])
      else match JSON_parse env raw with
           | Some v => Ok v
           | None => Throw (js "Invalid JSON body")
           end
  | VArr _ | VBool _ | VNum _ => Throw (js "Unsupported body type")
  end.

(** [typeof v === 'object'] *)
Definition typeofObject (v : jsval) : bool :=
  match v with
  | VNull | VArr _ | VObj _ => true
  | _ => false
  end.

(** [v.k] where the handler has already checked that [v] is an object. *)
Definition field (k : jsstring) (v : jsval) : jsval :=
  default VUndef (get_prop k v).

(** [order.k = v].  The handler assigns only after validation, which lets
    nothing but a plain object through. *)
Definition set_field (k : jsstring) (v : jsval) (order : jsval) : jsval :=
  match order with
  | VObj fs => VObj (assoc_set k v fs)
  | _ => order
  end.

(** Lines 132-133: [order.id = order.id || 'ord-' + Date.now()] and
    [order.status = order.status || 'pending']. *)
Definition assignIdentity (env : Env) (order : jsval) : jsval :=
  let order1 :=
    set_field (js "id")
      (or_else (field (js "id") order)
         (VStr (js "ord-" ++ numberToString (Number_big env) (Date_now env))))
      order in
  set_field (js "status")
    (or_else (field (js "status") order1) (VStr (js "pending")))
    order1.

(** Lines 140-142: the document that [JSON.stringify(data, null, 2)] then
    serialises.  Reading [data.orders] throws on [null]; the module is
    strict, so assigning [data.orders] throws on a primitive; on an array
    the assignment creates a property that serialisation does not print. *)
Definition priorOrders (fs : list (jsstring * jsval)) : list jsval :=
  match assoc_get (js "orders") fs with
  | Some (VArr l) => l
  | _ => []
  end.

Definition prependOrder (order data : jsval) : Res jsval :=
  match data with
  | VUndef | VNull => Throw (js "Cannot read properties of null")
  | VBool _ | VNum _ | VStr _ => Throw (js "Cannot create property 'orders'")
  | VArr l => Ok (VArr l)
  | VObj fs =>
      Ok (VObj (assoc_set (js "orders") (VArr (order :: priorOrders fs)) fs))
  end.

Definition errorBody (msg : string) : jsval :=
  VObj [ (js "error", VStr (js msg)); (js "success", VBool false) ].

(** ['Add order ' + order.id], the last argument of line 143; [None] when
    the conversion of [order.id] throws. *)
Definition commitMessage (env : Env) (order : jsval) : option jsstring :=
  match toString (Number_big env) (field (js "id") order) with
  | Some id => Some (js "Add order " ++ id)
  | None => None
  end.

(** The [try] block of lines 136-146.  The arguments of [putFile] are
    evaluated before the call: when the commit message cannot be built the
    block ends there, after the read and before any write. *)
Definition saveOrder (env : Env) (origin owner repo branch token : jsstring)
    (order : jsval) : M State unit :=
  file <- getFile env owner repo STORE_DATA_PATH branch token ;;
  fcontent <- match get_prop (js "content") file with
              | Some c => ret c
              | None => throw (js "Cannot read properties of null")
              end ;;
  content <- match base64_decode env fcontent with
             | Some s => ret s
             | None => throw (js "The first argument must be of type string")
             end ;;
  data <- match JSON_parse env content with
          | Some d => ret d
          | None => throw (js "Unexpected token in JSON")
          end ;;
  data' <- lift (prependOrder order data) ;;
  let newContent := JSON_stringify_indent2 env data' in
  message <- match commitMessage env order with
             | Some m => ret m
             | None => throw (js "Cannot convert object to primitive value")
             end ;;
  putFile env owner repo STORE_DATA_PATH newContent (field (js "sha") file)
          branch token message ;;
  setCors origin ;;
  status 200 ;;
  json (VObj [ (js "success", VBool true); (js "ok", VBool true);
               (js "id", field (js "id") order) ]) ;;
  console_write "[api/orders] Order saved".

(** The body of the 500 answer of lines 147-151. *)
Definition saveErrorBody (detail : jsstring) : jsval :=
  VObj [ (js "error", VStr (js "Failed to save order"));
         (js "detail", VStr detail); (js "success", VBool false) ].

(** The [catch] block of lines 147-151. *)
Definition saveFailed (origin : jsstring) (msg : jsstring) : M State unit :=
  console_write "[api/orders] Error saving order" ;;
  setCors origin ;; status 500 ;;
  json (saveErrorBody msg).

(** Line 79: the origin echoed in the CORS headers.  [new URL(referer)]
    is evaluated only when there is no [Origin] header, and throws on a
    string that is not an absolute URL. *)
Definition requestOrigin (env : Env) (req : Request) : Res jsstring :=
  if truthyStr (hdr_origin req) then Ok (default [] (hdr_origin req))
  else if truthyStr (hdr_referer req) then
    match URL_origin env (default [] (hdr_referer req)) with
    | Some o => Ok o
    | None => Throw (js "Invalid URL")
    end
  else Ok (js "*").

(** Line 99: [(process.env.GITHUB_BRANCH || 'main').trim() || 'main']. *)
Definition branchOf (env : Env) : jsstring :=
  let b := trim (if truthyStr (GITHUB_BRANCH env)
                 then default [] (GITHUB_BRANCH env) else js "main") in
  if nonEmpty b then b else js "main".

(** Line 101: all three required secrets are present. *)
Definition configured (env : Env) : bool :=
  truthyStr (GITHUB_TOKEN env) && truthyStr (GITHUB_OWNER env)
    && truthyStr (GITHUB_REPO env).

(** [handler(req, res)] *)
Definition handler (env : Env) (req : Request) : M State unit :=
  origin <- lift (requestOrigin env req) ;;
  if jsstring_eqb (req_method req) (js "OPTIONS") then
    setCors origin ;; status 204 ;; send EmptyBody
  else if negb (jsstring_eqb (req_method req) (js "POST")) then
    setCors origin ;; status 405 ;; json (errorBody "Method not allowed")
  else
    console_write "[api/orders] POST request" ;;
    let token := default [] (GITHUB_TOKEN env) in
    let owner := default [] (GITHUB_OWNER env) in
    let repo := default [] (GITHUB_REPO env) in
    let branch := branchOf env in
    if negb (configured env) then
      console_write "[api/orders] Missing env: GITHUB_TOKEN, GITHUB_OWNER, or GITHUB_REPO" ;;
      setCors origin ;; status 500 ;;
      json (errorBody "Orders API not configured (missing env)")
    else
      parsed <- try_catch (o <- lift (parseBody env req) ;; ret (Some o))
                  (fun _ =>
                     console_write "[api/orders] Body parse error" ;;
                     setCors origin ;; status 400 ;;
                     json (errorBody "Invalid JSON body") ;;
                     ret None) ;;
      match parsed with
      | None => ret tt
      | Some order =>
          if negb (truthy order) || negb (typeofObject order) then
            console_write "[api/orders] Empty or non-object body" ;;
            setCors origin ;; status 400 ;;
            json (errorBody "Request body must be a JSON object")
          else if negb (truthy (field (js "fullName") order))
                  && negb (truthy (field (js "phone") order)) then
            console_write "[api/orders] Validation failed: missing fullName and phone" ;;
            setCors origin ;; status 400 ;;
            json (errorBody "Order must include fullName and phone")
          else
            let order' := assignIdentity env order in
            console_write "[api/orders] Order accepted" ;;
            try_catch
              (saveOrder env origin owner repo branch token order')
              (saveFailed origin)
      end.

(** ** Vocabulary for the statements about the handler *)

(** The request passes every check of lines 79-130: the origin that was
    computed and the order that [parseBody] returned. *)
Definition acceptedOrder (env : Env) (req : Request) : option (jsstring * jsval) :=
  if jsstring_eqb (req_method req) (js "POST") && configured env then
    match requestOrigin env req, parseBody env req with
    | Ok origin, Ok order =>
        if truthy order && typeofObject order
           && (truthy (field (js "fullName") order)
               || truthy (field (js "phone") order))
        then Some (origin, order)
        else None
    | _, _ => None
    end
  else None.

(** The read request of [getFile] as the handler issues it. *)
Definition readCall (env : Env) : GitHubCall :=
  GET (contentsUrl env (default [] (GITHUB_OWNER env))
         (default [] (GITHUB_REPO env)) STORE_DATA_PATH
         ++ js "?ref=" ++ encodeURIComponent env (branchOf env))
      (default [] (GITHUB_TOKEN env)).

(** What a successful read gives the handler: the parsed answer [file] of
    the store and the document [data] decoded from [file.content]. *)
Definition readDocument (env : Env) (before : list GitHubCall)
  : option (jsval * jsval) :=
  match github env before (readCall env) with
  | HttpResponse st text =>
      if ok st then
        match JSON_parse env text with
        | Some file =>
            match get_prop (js "content") file with
            | Some c =>
                match base64_decode env c with
                | Some content =>
                    match JSON_parse env content with
                    | Some data => Some (file, data)
                    | None => None
                    end
                | None => None
                end
            | None => None
            end
        | None => None
        end
      else None
  | _ => None
  end.

(** The body object of the write request for the updated document
    [data'], after a read that answered [file].  The handler gets as far
    as this request only with a commit message, that of [commitMessage]. *)
Definition writeBody (env : Env) (file data' order : jsval) : jsval :=
  putBody env (JSON_stringify_indent2 env data') (field (js "sha") file)
    (branchOf env) (default [] (commitMessage env order)).

(** The write request of [putFile] as the handler issues it. *)
Definition writeCall (env : Env) (file data' order : jsval) : GitHubCall :=
  PUT (contentsUrl env (default [] (GITHUB_OWNER env))
         (default [] (GITHUB_REPO env)) STORE_DATA_PATH)
      (default [] (GITHUB_TOKEN env))
      (JSON_stringify env (writeBody env file data' order)).

(** The store refuses the write: the request fails or the status is not
    2xx (a stale [sha] is answered 409). *)
Definition writeRefused (r : FetchResult) : bool :=
  match r with
  | FetchRejects _ => true
  | FetchHangs => false
  | HttpResponse st _ => negb (ok st)
  end.

End Server.

(** * The order form script (browser side) *)

Module Client.

(** The payload [buildOrderPayload] returns. *)
Record Order : Type := mkOrder {
  fullName : jsval;
  phone : jsval;
  city : jsval;
  notes : jsval;
  items : jsval;
  total : jsval;
  date : jsstring
}.

(** What the script does to the outside world. *)
Inductive Effect : Type :=
| PreventDefault
| ConsoleLog (line : string)
| ConsoleError (line : string)
| Alert (msg : jsstring)
| SetLocation (href : jsstring)
| ClearCartAfterOrder
| GetCartTotal
| StoreGetOrdersApiUrl
| StoreReady
| StoreRefreshFromRemote
| StoreAddOrder (o : Order)
| FetchPOST (url body : jsstring)
| ResponseText.

(** The effects performed so far, most recent first.  A collaborator
    answers a call knowing them. *)
Definition History : Type := list Effect.

(** The [order-form] element.  [field_k] is the [value] of the first
    element that matches [[name="k"]] ([None]: no such element, or one
    without a [value]), which is what [validateOrderForm] reads.
    [entry_k] is [new FormData(form).get('k')], which is what
    [buildOrderPayload] reads: the first entry of the form's submission
    under that name, [null] when there is none (the control is disabled,
    or is not one that is submitted).  The two need not agree. *)
Record Form : Type := mkForm {
  field_fullName : option jsstring;
  field_phone : option jsstring;
  field_city : option jsstring;
  entry_fullName : jsval;
  entry_phone : jsval;
  entry_city : jsval;
  entry_notes : jsval;
  data_orders_api_url : option jsstring
}.

(** The global [Store] of [store.js]; each member may be missing. *)
Record StoreObj : Type := mkStore {
  (** the value returned; [None] when the call throws *)
  Store_getOrdersApiUrl : option (History -> option jsval);
  (** how the [ready] thenable settles *)
  Store_ready : option (History -> Res unit);
  (** how the promise of [refreshFromRemote()] settles *)
  Store_refreshFromRemote : option (History -> Res unit);
  (** [true] when [addOrder(order)] returns, [false] when it throws *)
  Store_addOrder : option (History -> Order -> bool)
}.

(** What [fetch(url, ...)] can do; [text] is how [r.text()] settles. *)
Inductive FetchResult : Type :=
| FetchRejects (msg : jsstring)
| FetchHangs
| Response (status : Z) (statusText : jsstring) (text : Res jsstring).

(** The page and its collaborators, each of which may fail: storage,
    [JSON.parse], [JSON.stringify], [getCartTotal], the [Store], [fetch],
    the localisation function [t] and [clearCartAfterOrder].  The
    functions of the browser itself ([alert], the DOM) return. *)
Record Env : Type := mkEnv {
  order_form : option Form;
  (** [content] of [<meta name="orders-api-url">] *)
  meta_orders_api_url : option jsstring;
  (** the localisation function [t], when defined: what [t(key)] returns,
      [None] when the call throws *)
  t : option (jsstring -> option jsval);
  (** [Number::toString] from [10^21] on *)
  Number_big : Z -> jsstring;
  location_protocol : jsstring;
  (** [false] when [sessionStorage] access throws *)
  sessionStorage_available : bool;
  JSON_parse : jsstring -> option jsval;
  JSON_stringify : Order -> option jsstring;
  (** [window.getCartTotal], when defined; [None] when the call throws *)
  getCartTotal : option (History -> option jsval);
  (** [window.clearCartAfterOrder], when truthy: [true] when the call
      returns, [false] when it throws *)
  clearCartAfterOrder : option (History -> bool);
  Date_toISOString : History -> jsstring;
  Store : option StoreObj;
  fetch : History -> jsstring -> jsstring -> FetchResult
}.

(** The [submit-order-btn] element. *)
Record Button : Type := mkButton {
  disabled : bool;
  textContent : jsstring
}.

Record State : Type := mkState {
  submitInProgress : bool;
  submitBtn : option Button;
  (** the [checkoutCart] slot of [sessionStorage] *)
  checkoutCart : option jsstring;
  history : History
}.

(** The state once the effect [e] has happened. *)
Definition record (e : Effect) (s : State) : State :=
  {| submitInProgress := submitInProgress s;
     submitBtn := submitBtn s;
     checkoutCart := checkoutCart s;
     history := e :: history s |}.

Definition emit (e : Effect) : M State unit := modify (record e).

Definition set_submitInProgress (b : bool) : M State unit :=
  modify (fun s => {| submitInProgress := b;
                      submitBtn := submitBtn s;
                      checkoutCart := checkoutCart s;
                      history := history s |}).

(** [submitBtn.disabled = d] *)
Definition set_disabled (d : bool) : M State unit :=
  modify (fun s => {| submitInProgress := submitInProgress s;
                      submitBtn :=
                        match submitBtn s with
                        | Some b => Some {| disabled := d;
                                            textContent := textContent b |}
                        | None => None
                        end;
                      checkoutCart := checkoutCart s;
                      history := history s |}).

(** [submitBtn.textContent = txt] *)
Definition set_textContent (txt : jsstring) : M State unit :=
  modify (fun s => {| submitInProgress := submitInProgress s;
                      submitBtn :=
                        match submitBtn s with
                        | Some b => Some {| disabled := disabled b;
                                            textContent := txt |}
                        | None => None
                        end;
                      checkoutCart := checkoutCart s;
                      history := history s |}).

(** [if (submitBtn) { submitBtn.disabled = d; submitBtn.textContent = txt }] *)
Definition set_button (d : bool) (txt : jsstring) : M State unit :=
  modify (fun s => {| submitInProgress := submitInProgress s;
                      submitBtn :=
                        match submitBtn s with
                        | Some _ => Some {| disabled := d; textContent := txt |}
                        | None => None
                        end;
                      checkoutCart := checkoutCart s;
                      history := history s |}).

(** [try { sessionStorage.removeItem('checkoutCart') } catch (e) {}] *)
Definition removeCheckoutCart (env : Env) : M State unit :=
  modify (fun s => {| submitInProgress := submitInProgress s;
                      submitBtn := submitBtn s;
                      checkoutCart :=
                        if sessionStorage_available env then None
                        else checkoutCart s;
                      history := history s |}).

(** A call to a collaborator: the call is recorded, and answered from the
    effects that preceded it. *)
Definition call {A} (e : Effect) (answer : History -> A) : M State A :=
  h <- gets history ;;
  emit e ;;
  ret (answer h).

Definition log (line : string) : M State unit := emit (ConsoleLog line).
Definition logError (line : string) : M State unit := emit (ConsoleError line).
Definition alert (msg : jsstring) : M State unit := emit (Alert msg).

(** [(typeof t !== 'undefined' && t(key)) ? t(key) : dflt]; it throws when
    [t(key)] does. *)
Definition localizedValue (env : Env) (key dflt : string) : Res jsval :=
  match t env with
  | Some f =>
      match f (js key) with
      | Some v => Ok (if truthy v then v else VStr (js dflt))
      | None => Throw (js "t failed")
      end
  | None => Ok (VStr (js dflt))
  end.

(** The string that [alert(v)] shows and that [el.textContent = v] sets;
    it throws when [v] cannot be converted. *)
Definition domString (env : Env) (v : jsval) : Res jsstring :=
  match toString (Number_big env) v with
  | Some text => Ok text
  | None => Throw (js "Cannot convert object to primitive value")
  end.

(** The localised text, as a string. *)
Definition localized (env : Env) (key dflt : string) : Res jsstring :=
  match localizedValue env key dflt with
  | Ok v => domString env v
  | Throw e => Throw e
  | Pending => Pending
  end.

(** The localised text once it has been computed. *)
Definition localize (env : Env) (key dflt : string) : jsstring :=
  match localized env key dflt with
  | Ok text => text
  | _ => js dflt
  end.

(** Truthiness of a value that is a string, [null] or [undefined]. *)
Definition truthyUrl (u : option jsstring) : bool :=
  match u with Some s => nonEmpty s | None => false end.

(** [v ? v.trim() : ''] *)
Definition trimmedValue (v : option jsstring) : jsstring :=
  match v with
  | Some s => if nonEmpty s then trim s else []
  | None => []
  end.

(** [cartRaw] after
    [try { cartRaw = sessionStorage.getItem('checkoutCart') || '[]' } catch (e) {}]. *)
Definition readCartRaw (env : Env) (s : State) : jsstring :=
  if sessionStorage_available env then
    match checkoutCart s with
    | Some raw => if nonEmpty raw then raw else js "[]"
    | None => js "[]"
    end
  else [].

(** [items] after [try { items = JSON.parse(cartRaw) } catch (e) {}]. *)
Definition parseCart (env : Env) (cartRaw : jsstring) : jsval :=
  match JSON_parse env cartRaw with
  | Some v => v
  | None => VArr []
  end.

(** [!items || items.length === 0] *)
Definition cartIsEmpty (items : jsval) : bool :=
  negb (truthy items)
  || match get_prop (js "length") items with
     | Some (VNum 0) => true
     | _ => false
     end.

Definition msgName : jsstring := js "Please enter your full name".
Definition msgPhone : jsstring := js "Please enter your phone number".
Definition msgPhoneInvalid : jsstring := js "Please enter a valid phone number".
Definition msgCity : jsstring := js "Please enter your city".
Definition msgCart : jsstring :=
  js "Your cart is empty. Please add products before checkout.".

(** [validateOrderForm()] *)
Definition validateOrderForm (env : Env) : M State bool :=
  match order_form env with
  | None => ret false
  | Some form =>
      let fullName := trimmedValue (field_fullName form) in
      let phone := trimmedValue (field_phone form) in
      let city := trimmedValue (field_city form) in
      if negb (nonEmpty fullName) then alert msgName ;; ret false
      else if negb (nonEmpty phone) then alert msgPhone ;; ret false
      else if negb (re_phone phone) then alert msgPhoneInvalid ;; ret false
      else if negb (nonEmpty city) then alert msgCity ;; ret false
      else
        cartRaw <- gets (readCartRaw env) ;;
        let items := parseCart env cartRaw in
        if cartIsEmpty items then alert msgCart ;; ret false
        else ret true
  end.

(** [buildOrderPayload()] *)
Definition buildOrderPayload (env : Env) : M State Order :=
  let formData := order_form env in
  (if sessionStorage_available env then ret tt
   else log "sessionStorage get failed") ;;
  cartRaw <- gets (readCartRaw env) ;;
  (match JSON_parse env cartRaw with
   | Some _ => ret tt
   | None => log "parse checkoutCart failed"
   end) ;;
  let items := parseCart env cartRaw in
  total <- match getCartTotal env with
           | None => ret (VNum 0)
           | Some f =>
               r <- call GetCartTotal f ;;
               match r with
               | Some v => ret (or_else v (VNum 0))
               | None => throw (js "getCartTotal failed")
               end
           end ;;
  date <- gets (fun s => Date_toISOString env (history s)) ;;
  ret {| fullName := match formData with
                     | Some f => entry_fullName f
                     | None => VStr []
                     end;
         phone := match formData with
                  | Some f => entry_phone f
                  | None => VStr []
                  end;
         city := match formData with
                 | Some f => entry_city f
                 | None => VStr []
                 end;
         notes := match formData with
                  | Some f => or_else (entry_notes f) (VStr [])
                  | None => VStr []
                  end;
         items := items;
         total := total;
         date := date |}.

(** [saveOrderToLocalStore(orderData)] *)
Definition saveOrderToLocalStore (env : Env) (orderData : Order) : M State bool :=
  match Store env with
  | Some store =>
      match Store_addOrder store with
      | Some addOrder =>
          returned <- call (StoreAddOrder orderData) (fun h => addOrder h orderData) ;;
          if returned : bool
          then log "Order saved to localStorage (Store.addOrder)" ;; ret true
          else logError "Store.addOrder failed" ;; ret false
      | None => log "Store not available (store.js not loaded?)" ;; ret false
      end
  | None => log "Store not available (store.js not loaded?)" ;; ret false
  end.

(** [finishOrderSuccess()] *)
Definition finishOrderSuccess (env : Env) : M State unit :=
  (match clearCartAfterOrder env with
   | Some f =>
       returned <- call ClearCartAfterOrder f ;;
       if returned : bool then ret tt
       else throw (js "clearCartAfterOrder failed")
   | None => ret tt
   end) ;;
  removeCheckoutCart env ;;
  msg <- lift (localized env "orderSuccess"
                 "Order submitted successfully! We will contact you soon.") ;;
  alert msg ;;
  emit (SetLocation (js "./")).

(** [finishOrderFailure(msg)] *)
Definition finishOrderFailure (env : Env) (msg : jsval) : M State unit :=
  submitBtn <- gets submitBtn ;;
  (match submitBtn with
   | Some _ =>
       set_disabled false ;;
       label <- lift (localized env "confirmOrder" "Confirm Order") ;;
       set_textContent label
   | None => ret tt
   end) ;;
  text <- lift (domString env
                  (or_else msg
                     (VStr (js "Unable to submit order. Please try again or contact us.")))) ;;
  alert text.

(** [r.ok] *)
Definition ok (status : Z) : bool := ((200 <=? status) && (status <=? 299))%Z.

(** The [then] callback of [sendOrderToApi], lines 169-187. *)
Definition onResponse (env : Env) (status : Z) (text : Res jsstring) : M State bool :=
  log "Response:" ;;
  body <- call ResponseText (fun _ => text) ;;
  body <- lift body ;;
  (if nonEmpty body
   then match JSON_parse env body with
        | Some _ => log "Response body:"
        | None => log "Response body (raw):"
        end
   else log "Response body:") ;;
  if negb (ok status)
  then logError "Orders API error" ;; ret false
  else log "Orders API success" ;; ret true.

(** [sendOrderToApi(apiUrl, orderData)]; [apiUrl] is a string or missing. *)
Definition sendOrderToApi (env : Env) (apiUrl : option jsstring) (orderData : Order)
  : M State bool :=
  let url := stripTrailingSlashes (default [] apiUrl) in
  if negb (nonEmpty url) || negb (re_https_opt url) then
    log "sendOrderToApi: no valid API URL" ;; ret false
  else
    url <- (if jsstring_eqb (location_protocol env) (js "https:") && re_http url
            then log "sendOrderToApi: upgraded to HTTPS" ;; ret (upgradeToHttps url)
            else ret url) ;;
    match JSON_stringify env orderData with
    | None => logError "JSON.stringify(orderData) failed" ;; ret false
    | Some bodyString =>
        log "Request: POST" ;;
        log "Request body (keys):" ;;
        try_catch
          (r <- call (FetchPOST url bodyString) (fun h => fetch env h url bodyString) ;;
           match r with
           | FetchRejects msg => throw msg
           | FetchHangs => lift Pending
           | Response status _ text => onResponse env status text
           end)
          (fun _ =>
             logError "Orders API request failed (network/CORS/other)" ;; ret false)
    end.

(** [getFallbackOrdersApiUrl()]; a missing or empty attribute is the empty
    string here, which the final test rejects like [null]. *)
Definition getFallbackOrdersApiUrl (env : Env) : option jsstring :=
  let raw :=
    match meta_orders_api_url env with
    | Some c => if nonEmpty c then trim c else []
    | None => []
    end in
  let raw :=
    if negb (nonEmpty raw) then
      match order_form env with
      | Some form =>
          match data_orders_api_url form with
          | Some a => if nonEmpty a then trim a else raw
          | None => raw
          end
      | None => raw
      end
    else raw in
  if nonEmpty raw && re_https_opt raw then Some raw else None.

(** [(v || '').trim()] followed by the test of line 219, for the value [v]
    the getter returned ([None]: the getter threw).  A truthy value that is
    not a string has no [trim]. *)
Definition usableUrl (v : option jsval) : Res (option jsstring) :=
  match v with
  | None => Throw (js "Store.getOrdersApiUrl failed")
  | Some v =>
      match or_else v (VStr []) with
      | VStr s =>
          let url := trim s in
          Ok (if nonEmpty url && re_https_opt url then Some url else None)
      | _ => Throw (js "trim is not a function")
      end
  end.

(** [tryGet] of [getOrdersApiUrlWhenReady]. *)
Definition tryGet (getter : History -> option jsval) : M State (option jsstring) :=
  r <- call StoreGetOrdersApiUrl getter ;;
  lift (usableUrl r).

(** [getOrdersApiUrlWhenReady()] *)
Definition getOrdersApiUrlWhenReady (env : Env) : M State (option jsstring) :=
  match Store env with
  | None => ret (getFallbackOrdersApiUrl env)
  | Some store =>
      match Store_getOrdersApiUrl store with
      | None => ret (getFallbackOrdersApiUrl env)
      | Some getter =>
          (match Store_ready store with
           | Some ready => r <- call StoreReady ready ;; lift r
           | None => ret tt
           end) ;;
          url <- tryGet getter ;;
          match url with
          | Some u => ret (Some u)
          | None =>
              match Store_refreshFromRemote store with
              | Some refresh =>
                  r <- call StoreRefreshFromRemote refresh ;;
                  lift r ;;
                  again <- tryGet getter ;;
                  match again with
                  | Some u => ret (Some u)
                  | None => ret (getFallbackOrdersApiUrl env)
                  end
              | None => ret (getFallbackOrdersApiUrl env)
              end
          end
      end
  end.

(** What the promise chain of one submission closes over. *)
Record Attempt : Type := mkAttempt {
  orderData : Order;
  hasSubmitBtn : bool;
  originalText : jsstring
}.

(** [handleSubmit(event)] up to its [return]: the synchronous part.  It
    returns the attempt whose promise chain it has started, if any. *)
Definition handleSubmit (env : Env) : M State (option Attempt) :=
  emit PreventDefault ;;
  inProgress <- gets submitInProgress ;;
  if inProgress : bool then
    log "Submit ignored (already in progress)" ;; ret None
  else
    valid <- validateOrderForm env ;;
    if negb valid then ret None
    else
      built <- try_catch (o <- buildOrderPayload env ;; ret (Some o))
                 (fun _ =>
                    logError "buildOrderPayload failed" ;;
                    alert (js "Unable to build order. Please try again.") ;;
                    ret None) ;;
      match built with
      | None => ret None
      | Some orderData =>
          log "Submitting order" ;;
          btn <- gets submitBtn ;;
          let originalText :=
            match btn with
            | Some b => textContent b
            | None => js "Confirm Order"
            end in
          (match btn with
           | Some _ =>
               set_disabled true ;;
               label <- lift (localized env "submitting" "Submitting...") ;;
               set_textContent label
           | None => ret tt
           end) ;;
          set_submitInProgress true ;;
          ret (Some {| orderData := orderData;
                       hasSubmitBtn := bool_decide (is_Some btn);
                       originalText := originalText |})
      end.

(** [done(saved)] *)
Definition done (env : Env) (a : Attempt) (saved : bool) : M State unit :=
  set_submitInProgress false ;;
  (if hasSubmitBtn a then set_button false (originalText a) else ret tt) ;;
  if saved then finishOrderSuccess env
  else
    msg <- lift (localizedValue env "orderSaveError"
                   "Order could not be saved. Please try again or contact us directly.") ;;
    finishOrderFailure env msg.

(** The promise chain of [handleSubmit], lines 279-305. *)
Definition submitChain (env : Env) (a : Attempt) : M State unit :=
  try_catch
    (apiUrl <- getOrdersApiUrlWhenReady env ;;
     if truthyUrl apiUrl then
       log "Orders API URL resolved (after Store.ready):" ;;
       apiOk <- sendOrderToApi env apiUrl (orderData a) ;;
       if apiOk : bool then done env a true
       else
         saved <- saveOrderToLocalStore env (orderData a) ;;
         done env a saved
     else
       log "No Orders API URL configured; saving to localStorage only" ;;
       try_catch
         (saved <- saveOrderToLocalStore env (orderData a) ;;
          done env a saved)
         (fun _ => logError "Save order failed" ;; done env a false))
    (fun _ =>
       logError "Submit flow error" ;;
       saved <- saveOrderToLocalStore env (orderData a) ;;
       done env a saved).

(** ** Vocabulary for the statements about the script *)

(** The URL passes the test of line 140. *)
Definition validApiUrl (apiUrl : option jsstring) : bool :=
  let url := stripTrailingSlashes (default [] apiUrl) in
  nonEmpty url && re_https_opt url.

(** Line 145: the request is upgraded to HTTPS. *)
Definition upgrades (env : Env) (apiUrl : option jsstring) : bool :=
  jsstring_eqb (location_protocol env) (js "https:")
  && re_http (stripTrailingSlashes (default [] apiUrl)).

(** The URL that [sendOrderToApi] passes to [fetch]. *)
Definition requestUrl (env : Env) (apiUrl : option jsstring) : jsstring :=
  let url := stripTrailingSlashes (default [] apiUrl) in
  if upgrades env apiUrl then upgradeToHttps url else url.

(** The state in which [sendOrderToApi] calls [fetch]. *)
Definition requestState (env : Env) (apiUrl : option jsstring) (s : State) : State :=
  record (ConsoleLog "Request body (keys):")
    (record (ConsoleLog "Request: POST")
       (if upgrades env apiUrl
        then record (ConsoleLog "sendOrderToApi: upgraded to HTTPS") s
        else s)).

(** The number of effects of a history that satisfy [p]. *)
Definition count (p : Effect -> bool) (h : History) : nat :=
  length (List.filter p h).

Definition isAlert (e : Effect) : bool :=
  match e with Alert _ => true | _ => false end.

Definition isFetch (e : Effect) : bool :=
  match e with FetchPOST _ _ => true | _ => false end.

Definition isRefresh (e : Effect) : bool :=
  match e with StoreRefreshFromRemote => true | _ => false end.


Definition isAddOrder (e : Effect) : bool :=
  match e with StoreAddOrder _ => true | _ => false end.

(** The console line with which each call of [saveOrderToLocalStore]
    ends: one per call, on each of its three paths. *)
Definition isFallbackAttempt (e : Effect) : bool :=
  match e with
  | ConsoleLog line =>
      String.eqb line "Order saved to localStorage (Store.addOrder)"
      || String.eqb line "Store not available (store.js not loaded?)"
  | ConsoleError line => String.eqb line "Store.addOrder failed"
  | _ => false
  end.

(** How an attempt ended, read off the effects of [done]:
    [finishOrderSuccess] ends with the acknowledgement and the navigation
    to the landing page, [finishOrderFailure] with its message. *)
Inductive Outcome : Type := Success | Failed.

Definition outcome (h : History) : option Outcome :=
  match h with
  | SetLocation _ :: Alert _ :: _ => Some Success
  | Alert _ :: _ => Some Failed
  | _ => None
  end.

(** The localisation function and [clearCartAfterOrder] return whenever
    they are called, and what [t] returns can be shown as text. *)
Definition collaboratorsReturn (env : Env) : Prop :=
  (forall f key, t env = Some f ->
     exists v, f key = Some v /\ toString (Number_big env) v <> None)
  /\ (forall f h, clearCartAfterOrder env = Some f -> f h = true).

Definition isNavigation (e : Effect) : bool :=
  match e with SetLocation _ => true | _ => false end.

Definition isCartReset (e : Effect) : bool :=
  match e with ClearCartAfterOrder => true | _ => false end.

(** How waiting for [Store.ready] ends ([Promise.resolve()] when the store
    has no such thenable), and the state once it has been waited for. *)
Definition readiness (store : StoreObj) (s : State) : Res unit :=
  match Store_ready store with
  | Some ready => ready (history s)
  | None => Ok tt
  end.

Definition readyWaited (store : StoreObj) (s : State) : State :=
  match Store_ready store with
  | Some _ => record StoreReady s
  | None => s
  end.

(** Between [s] and [s'] the guard, the button and the cart slot were left
    alone, nothing was alerted and the local store was not tried. *)
Definition quiet (s s' : State) : Prop :=
  submitInProgress s' = submitInProgress s
  /\ submitBtn s' = submitBtn s
  /\ checkoutCart s' = checkoutCart s
  /\ count isAlert (history s') = count isAlert (history s)
  /\ count isFallbackAttempt (history s') = count isFallbackAttempt (history s)
  /\ count isAddOrder (history s') = count isAddOrder (history s).

(** [saveOrderToLocalStore] followed by [done]: how every path of the
    chain that falls back ends. *)
Definition fallbackAndDone (env : Env) (a : Attempt) : M State unit :=
  saved <- saveOrderToLocalStore env (orderData a) ;;
  done env a saved.

(** The [catch] of lines 301-305. *)
Definition onFlowError (env : Env) (a : Attempt) : M State unit :=
  logError "Submit flow error" ;;
  fallbackAndDone env a.

(** The [catch] of lines 296-299. *)
Definition onSaveError (env : Env) (a : Attempt) : M State unit :=
  logError "Save order failed" ;;
  done env a false.

(** A chain that ran from [s] has settled in [s'] with [r]: the guard is
    clear, and the page has shown one notification more when the chain is
    fulfilled and none when it is rejected. *)
Definition settled (s : State) (r : Res unit) (s' : State) : Prop :=
  submitInProgress s' = false
  /\ ((r = Ok tt
       /\ count isAlert (history s') = S (count isAlert (history s))
       /\ exists o, outcome (history s') = Some o)
      \/ ((exists msg, r = Throw msg)
          /\ count isAlert (history s') = count isAlert (history s))).

(** The state in which [handleSubmit] returns when an attempt is in
    flight. *)
Definition ignored (s : State) : State :=
  record (ConsoleLog "Submit ignored (already in progress)")
    (record PreventDefault s).

Definition logNoUrl : Effect :=
  ConsoleLog "No Orders API URL configured; saving to localStorage only".

Definition logResolved : Effect :=
  ConsoleLog "Orders API URL resolved (after Store.ready):".

(** ** The page as a transition system *)

(** The page between two events: the state of the script and the attempts
    whose promise chain has not settled.  A chain is run in one step, when
    it settles (fulfilled, or rejected with nobody to catch it) or when it
    has reached a promise that never will (the attempt is then marked
    [true]); the submit events that arrive while it is in flight are the
    [step_submit] steps before that one.  A submit event whose handler
    throws leaves the page as the handler left it. *)
Record Page : Type := mkPage {
  script : State;
  inFlight : list (Attempt * bool)
}.

Inductive step (env : Env) : Page -> Page -> Prop :=
| step_submit p o s' :
    handleSubmit env (script p) = (Ok o, s') ->
    step env p
      {| script := s';
         inFlight := match o with
                     | Some a => (a, false) :: inFlight p
                     | None => inFlight p
                     end |}
| step_submit_throws p msg s' :
    handleSubmit env (script p) = (Throw msg, s') ->
    step env p {| script := s'; inFlight := inFlight p |}
| step_settle p before a after s' :
    inFlight p = before ++ (a, false) :: after ->
    submitChain env a (script p) = (Ok tt, s') ->
    step env p {| script := s'; inFlight := before ++ after |}
| step_reject p before a after msg s' :
    inFlight p = before ++ (a, false) :: after ->
    submitChain env a (script p) = (Throw msg, s') ->
    step env p {| script := s'; inFlight := before ++ after |}
| step_stall p before a after s' :
    inFlight p = before ++ (a, false) :: after ->
    submitChain env a (script p) = (Pending, s') ->
    step env p {| script := s'; inFlight := before ++ (a, true) :: after |}.

(** The pages that can be reached from a freshly loaded script. *)
Inductive reachable (env : Env) : Page -> Prop :=
| reachable_init s :
    submitInProgress s = false ->
    reachable env {| script := s; inFlight := [] |}
| reachable_step p p' :
    reachable env p -> step env p p' -> reachable env p'.

End Client.

(** * Concrete pages, deployments and requests

    Test doubles for the platform functions and the collaborators, used
    to run the definitions above on explicit inputs. *)

Module Demo.

(** A printer standing for [JSON.stringify]: strings are put between
    apostrophes and not escaped. *)
Fixpoint printJson (v : jsval) : jsstring :=
  match v with
  | VUndef | VNull => js "null"
  | VBool true => js "true"
  | VBool false => js "false"
  | VNum z => decimal z
  | VStr s => js "'" ++ s ++ js "'"
  | VArr l =>
      js "["
      ++ (fix items (l : list jsval) : jsstring :=
            match l with
            | [] => []
            | x :: l' =>
                printJson x ++ (if listIsEmpty l' then [] else js "," ++ items l')
            end) l
      ++ js "]"
  | VObj fs =>
      js "{"
      ++ (fix members (fs : list (jsstring * jsval)) : jsstring :=
            match fs with
            | [] => []
            | (k, x) :: fs' =>
                k ++ js ":" ++ printJson x
                  ++ (if listIsEmpty fs' then [] else js "," ++ members fs')
            end) fs
      ++ js "}"
  end.

(** A parser standing for [JSON.parse]: it knows the texts listed. *)
Definition parseTable (table : list (jsstring * jsval)) (text : jsstring)
  : option jsval :=
  assoc_get text table.

(** ** The server side *)

Definition oldOrder : jsval :=
  VObj [ (js "fullName", VStr (js "Badr")); (js "id", VStr (js "ord-1"));
         (js "status", VStr (js "shipped")) ].

(** The shared document before the request, and the store's answer to the
    read, whose [content] stands for the encoded document. *)
Definition document : jsval :=
  VObj [ (js "products", VArr []); (js "orders", VArr [oldOrder]) ].

Definition file : jsval :=
  VObj [ (js "content", VStr (js "DOCUMENT")); (js "sha", VStr (js "3f2a9c")) ].

(** A deployment whose store answers every read with [file] and every
    write with the status [putStatus]. *)
Definition serverEnv (putStatus : Z) : Server.Env :=
  {| Server.GITHUB_TOKEN := Some (js "ghp_demo");
     Server.GITHUB_OWNER := Some (js "shop");
     Server.GITHUB_REPO := Some (js "store");
     Server.GITHUB_BRANCH := None;
     Server.Date_now := 1700000000000;
     Server.Number_big := fun _ => js "1e+21";
     Server.URL_origin := fun s => if re_https_opt s then Some s else None;
     Server.JSON_parse :=
       parseTable [ (js "FILE", file); (js "DOCUMENT", document);
                    (js "{}", VObj []) ];
     Server.JSON_stringify := printJson;
     Server.JSON_stringify_indent2 := printJson;
     Server.encodeURIComponent := fun s => s;
     Server.base64_decode := fun v => match v with VStr s => Some s | _ => None end;
     Server.base64_encode := fun s => s;
     Server.github := fun _ c =>
       match c with
       | Server.GET _ _ => Server.HttpResponse 200 (js "FILE")
       | Server.PUT _ _ _ => Server.HttpResponse putStatus (js "{}")
       end |}.

Definition shopOrigin : jsstring := js "https://shop.example".

Definition post (origin referer : option jsstring) (body : jsval) : Server.Request :=
  {| Server.req_method := js "POST";
     Server.hdr_origin := origin;
     Server.hdr_referer := referer;
     Server.hdr_user_agent := Some (js "Mozilla/5.0");
     Server.hdr_content_type := Some (js "application/json");
     Server.req_body := body |}.

Definition amalOrder : jsval :=
  VObj [ (js "fullName", VStr (js "Amal"));
         (js "phone", VStr (js "+212 612345678"));
         (js "city", VStr (js "Casablanca")) ].

Definition orderRequest : Server.Request := post (Some shopOrigin) None amalOrder.

(** The order [orderRequest] is stored as. *)
Definition amalStored : jsval :=
  VObj [ (js "fullName", VStr (js "Amal"));
         (js "phone", VStr (js "+212 612345678"));
         (js "city", VStr (js "Casablanca"));
         (js "id", VStr (js "ord-1700000000000"));
         (js "status", VStr (js "pending")) ].

Definition documentAfter (stored : jsval) : jsval :=
  VObj [ (js "products", VArr []); (js "orders", VArr [stored; oldOrder]) ].

(** A client that supplies the id [0] and the status [false]. *)
Definition zeroIdOrder : jsval :=
  VObj [ (js "fullName", VStr (js "Amal")); (js "id", VNum 0);
         (js "status", VBool false) ].

Definition zeroIdRequest : Server.Request := post (Some shopOrigin) None zeroIdOrder.

Definition zeroIdStored : jsval :=
  VObj [ (js "fullName", VStr (js "Amal"));
         (js "id", VStr (js "ord-1700000000000"));
         (js "status", VStr (js "pending")) ].

(** A client that supplies as id an object with a property [toString],
    which cannot be converted to a string. *)
Definition oddId : jsval := VObj [ (js "toString", VNum 1) ].

Definition oddIdOrder : jsval :=
  VObj [ (js "fullName", VStr (js "Amal")); (js "id", oddId) ].

Definition oddIdRequest : Server.Request := post (Some shopOrigin) None oddIdOrder.

(** A POST without an [Origin] header whose [Referer] is not a URL, and
    whose body has neither [fullName] nor [phone]. *)
Definition badRefererRequest : Server.Request :=
  post None (Some (js "not a url")) (VObj [ (js "city", VStr (js "Rabat")) ]).

(** The same deployment without its secrets. *)
Definition unconfiguredEnv : Server.Env :=
  {| Server.GITHUB_TOKEN := None;
     Server.GITHUB_OWNER := None;
     Server.GITHUB_REPO := None;
     Server.GITHUB_BRANCH := None;
     Server.Date_now := 1700000000000;
     Server.Number_big := fun _ => js "1e+21";
     Server.URL_origin := Server.URL_origin (serverEnv 200);
     Server.JSON_parse := Server.JSON_parse (serverEnv 200);
     Server.JSON_stringify := printJson;
     Server.JSON_stringify_indent2 := printJson;
     Server.encodeURIComponent := fun s => s;
     Server.base64_decode := Server.base64_decode (serverEnv 200);
     Server.base64_encode := fun s => s;
     Server.github := Server.github (serverEnv 200) |}.

(** ** The browser side *)

Definition form (phone : string) : Client.Form :=
  {| Client.field_fullName := Some (js "Amal");
     Client.field_phone := Some (js phone);
     Client.field_city := Some (js "Casablanca");
     Client.entry_fullName := VStr (js "Amal");
     Client.entry_phone := VStr (js phone);
     Client.entry_city := VStr (js "Casablanca");
     Client.entry_notes := VStr [];
     Client.data_orders_api_url := None |}.

Definition cart : jsval :=
  VArr [ VObj [ (js "name", VStr (js "Kaftan")); (js "size", VStr (js "M"));
                (js "color", VStr (js "blue")); (js "quantity", VNum 2);
                (js "price", VNum 120) ] ].

(** A page with the given phone value, fallback URL, [Store] and network. *)
Definition clientEnv (phone : string) (meta : option jsstring)
    (store : option Client.StoreObj) (answer : Client.FetchResult)
    (total : option jsval) : Client.Env :=
  {| Client.order_form := Some (form phone);
     Client.meta_orders_api_url := meta;
     Client.t := None;
     Client.Number_big := fun _ => js "1e+21";
     Client.location_protocol := js "https:";
     Client.sessionStorage_available := true;
     Client.JSON_parse := parseTable [ (js "CART", cart); (js "[]", VArr []) ];
     Client.JSON_stringify := fun _ => Some (js "ORDER");
     Client.getCartTotal := Some (fun _ => total);
     Client.clearCartAfterOrder := Some (fun _ => true);
     Client.Date_toISOString := fun _ => js "2024-05-01T10:00:00.000Z";
     Client.Store := store;
     Client.fetch := fun _ _ _ => answer |}.

(** The freshly loaded order page with a cart of one line. *)
Definition idle : Client.State :=
  {| Client.submitInProgress := false;
     Client.submitBtn :=
       Some {| Client.disabled := false; Client.textContent := js "Confirm Order" |};
     Client.checkoutCart := Some (js "CART");
     Client.history := [] |}.

Definition apiUrl : jsstring := js "http://api.example/orders".

(** A store whose configuration holds no URL until it has been refreshed,
    and whose [addOrder] returns [saves] (it throws when [false]). *)
Definition lateStore (saves : bool) : Client.StoreObj :=
  {| Client.Store_getOrdersApiUrl :=
       Some (fun h =>
               if existsb Client.isRefresh h then Some (VStr apiUrl)
               else Some (VStr []));
     Client.Store_ready := Some (fun _ => Ok tt);
     Client.Store_refreshFromRemote := Some (fun _ => Ok tt);
     Client.Store_addOrder := Some (fun _ _ => saves) |}.

(** A store whose configuration stays empty. *)
Definition emptyStore (saves : bool) : Client.StoreObj :=
  {| Client.Store_getOrdersApiUrl := Some (fun _ => Some (VStr []));
     Client.Store_ready := Some (fun _ => Ok tt);
     Client.Store_refreshFromRemote := Some (fun _ => Ok tt);
     Client.Store_addOrder := Some (fun _ _ => saves) |}.

(** A store whose configuration is empty and whose refresh rejects. *)
Definition rejectingStore : Client.StoreObj :=
  {| Client.Store_getOrdersApiUrl := Some (fun _ => Some (VStr []));
     Client.Store_ready := None;
     Client.Store_refreshFromRemote := Some (fun _ => Throw (js "Failed to fetch"));
     Client.Store_addOrder := Some (fun _ _ => true) |}.

Definition serverError : Client.FetchResult :=
  Client.Response 500 (js "Internal Server Error") (Ok (js "{}")).

Definition created : Client.FetchResult :=
  Client.Response 201 (js "Created") (Ok (js "not json")).

Definition validPhone : string := "+212 612345678".

(** The page of scenario B: endpoint configured after a refresh, answering
    500; local store working. *)
Definition pageB : Client.Env :=
  clientEnv validPhone None (Some (lateStore true)) serverError (Some (VNum 240)).

(** The order the page builds and the attempt [handleSubmit] starts. *)
Definition builtOrder : Client.Order :=
  {| Client.fullName := VStr (js "Amal");
     Client.phone := VStr (js validPhone);
     Client.city := VStr (js "Casablanca");
     Client.notes := VStr [];
     Client.items := cart;
     Client.total := VNum 240;
     Client.date := js "2024-05-01T10:00:00.000Z" |}.

Definition attempt : Client.Attempt :=
  {| Client.orderData := builtOrder;
     Client.hasSubmitBtn := true;
     Client.originalText := js "Confirm Order" |}.

(** The page of scenario A, whose endpoint answers 201 with a body that
    is not JSON. *)
Definition pageA : Client.Env :=
  clientEnv validPhone None (Some (lateStore true)) created (Some (VNum 240)).

(** A page whose phone field holds a letter. *)
Definition badPhone : string := "06 12-34x5".

Definition badPhonePage : Client.Env :=
  clientEnv badPhone None (Some (lateStore true)) created (Some (VNum 240)).

(** A page whose cart total cannot be computed. *)
Definition brokenTotalPage : Client.Env :=
  clientEnv validPhone None (Some (lateStore true)) created None.

(** A page whose store rejects the refresh, with a fallback URL declared
    in its [meta] element. *)
Definition rejectingPage : Client.Env :=
  clientEnv validPhone (Some apiUrl) (Some rejectingStore) created
    (Some (VNum 240)).

(** The page [env] with another [clearCartAfterOrder]. *)
Definition withReset (reset : option (Client.History -> bool)) (env : Client.Env)
  : Client.Env :=
  {| Client.order_form := Client.order_form env;
     Client.meta_orders_api_url := Client.meta_orders_api_url env;
     Client.t := Client.t env;
     Client.Number_big := Client.Number_big env;
     Client.location_protocol := Client.location_protocol env;
     Client.sessionStorage_available := Client.sessionStorage_available env;
     Client.JSON_parse := Client.JSON_parse env;
     Client.JSON_stringify := Client.JSON_stringify env;
     Client.getCartTotal := Client.getCartTotal env;
     Client.clearCartAfterOrder := reset;
     Client.Date_toISOString := Client.Date_toISOString env;
     Client.Store := Client.Store env;
     Client.fetch := Client.fetch env |}.

(** The pages of scenarios A and B on which [clearCartAfterOrder] throws
    (the cart script cannot write to its storage, say). *)
Definition brokenResetA : Client.Env := withReset (Some (fun _ => false)) pageA.

Definition brokenResetB : Client.Env := withReset (Some (fun _ => false)) pageB.

(** A page with no endpoint configured anywhere, a working local store
    and a [clearCartAfterOrder] that throws. *)
Definition brokenResetLocal : Client.Env :=
  withReset (Some (fun _ => false))
    (clientEnv validPhone None (Some (emptyStore true)) created (Some (VNum 240))).



(** The state in which [handleSubmit] leaves the page of scenario B, and
    the states of its chain once the URL is resolved and once the
    submitter has returned. *)
Definition submitted : Client.State := snd (Client.handleSubmit pageB idle).

Definition resolved : Client.State :=
  snd (Client.getOrdersApiUrlWhenReady pageB submitted).

Definition refused : Client.State :=
  snd (Client.sendOrderToApi pageB (Some apiUrl) builtOrder
         (Client.record Client.logResolved resolved)).

(** Where the chains of the attempt end on the pages whose
    [clearCartAfterOrder] throws, and on the page whose refresh rejects. *)
Definition endBrokenA : Client.State :=
  snd (Client.submitChain brokenResetA attempt submitted).

Definition endBrokenB : Client.State :=
  snd (Client.submitChain brokenResetB attempt submitted).

Definition endBrokenLocal : Client.State :=
  snd (Client.submitChain brokenResetLocal attempt submitted).

Definition endRejecting : Client.State :=
  snd (Client.submitChain rejectingPage attempt submitted).

End Demo.

(** * Vocabulary for further statements about the handler *)

Module Responses.
Import Server.

(** Every header of [corsHeaders(origin)] is set on the response. *)
Definition hasCors (origin : jsstring) (headers : list (jsstring * jsstring)) : Prop :=
  Forall (fun kv => assoc_get (fst kv) headers = Some (snd kv)) (corsHeaders origin).

(** The requests of a list that are writes. *)
Definition isWrite (c : GitHubCall) : bool :=
  match c with PUT _ _ _ => true | GET _ _ => false end.

(** The handler answers 400 with the message [msg], without a call to
    GitHub. *)
Definition rejected400 (env : Env) (req : Request) (s : State) (msg : string)
  : Prop :=
  exists s', handler env req s = (Ok tt, s')
    /\ res_statusCode s' = 400%Z
    /\ res_sent s' = JsonBody (errorBody msg) :: res_sent s
    /\ github_calls s' = github_calls s.

End Responses.

(** * Further requests and deployments *)

Module Samples.
Import Server.

Definition request (method : string) (origin : option jsstring) (body : jsval)
  : Request :=
  {| req_method := js method;
     hdr_origin := origin;
     hdr_referer := None;
     hdr_user_agent := None;
     hdr_content_type := Some (js "application/json");
     req_body := body |}.

Definition preflight : Request := request "OPTIONS" (Some Demo.shopOrigin) VUndef.

Definition deleteRequest : Request := request "DELETE" None VUndef.

Definition blankBodyRequest : Request :=
  request "POST" (Some Demo.shopOrigin) (VStr (js "  ")).

Definition arrayBodyRequest : Request :=
  request "POST" (Some Demo.shopOrigin) (VArr [Demo.amalOrder]).

Definition garbageBodyRequest : Request :=
  request "POST" (Some Demo.shopOrigin) (VStr (js "{fullName")).

Definition noBodyRequest : Request := request "POST" (Some Demo.shopOrigin) VUndef.

(** A deployment whose shared document is a JSON array. *)
Definition arrayDocumentEnv : Env :=
  {| GITHUB_TOKEN := Some (js "ghp_demo");
     GITHUB_OWNER := Some (js "shop");
     GITHUB_REPO := Some (js "store");
     GITHUB_BRANCH := Some (js " release ");
     Date_now := 1700000000000;
     Number_big := Number_big (Demo.serverEnv 200);
     URL_origin := URL_origin (Demo.serverEnv 200);
     JSON_parse :=
       Demo.parseTable [ (js "FILE", Demo.file);
                         (js "DOCUMENT", VArr [Demo.oldOrder]);
                         (js "{}", VObj []) ];
     JSON_stringify := Demo.printJson;
     JSON_stringify_indent2 := Demo.printJson;
     encodeURIComponent := fun s => s;
     base64_decode := base64_decode (Demo.serverEnv 200);
     base64_encode := fun s => s;
     github := github (Demo.serverEnv 200) |}.

(** A deployment whose store answers the read with 404. *)
Definition missingFileEnv : Env :=
  {| GITHUB_TOKEN := Some (js "ghp_demo");
     GITHUB_OWNER := Some (js "shop");
     GITHUB_REPO := Some (js "store");
     GITHUB_BRANCH := None;
     Date_now := 1700000000000;
     Number_big := Number_big (Demo.serverEnv 200);
     URL_origin := URL_origin (Demo.serverEnv 200);
     JSON_parse := JSON_parse (Demo.serverEnv 200);
     JSON_stringify := Demo.printJson;
     JSON_stringify_indent2 := Demo.printJson;
     encodeURIComponent := fun s => s;
     base64_decode := base64_decode (Demo.serverEnv 200);
     base64_encode := fun s => s;
     github := fun _ _ => HttpResponse 404 (js "Not Found") |}.

End Samples.

(** * Vocabulary for further statements about the script *)

Module Observations.
Import Client.

(** Between [s] and [s'] the guard, the button and the cart slot were left
    alone, and the page neither alerted, navigated nor reset the cart. *)
Definition untouched (s s' : State) : Prop :=
  submitInProgress s' = submitInProgress s
  /\ submitBtn s' = submitBtn s
  /\ checkoutCart s' = checkoutCart s
  /\ count isAlert (history s') = count isAlert (history s)
  /\ count isNavigation (history s') = count isNavigation (history s)
  /\ count isCartReset (history s') = count isCartReset (history s).

(** The button once it has been given back to the user with the label
    [txt]. *)
Definition enabled (txt : jsstring) (b : option Button) : option Button :=
  match b with
  | Some _ => Some {| disabled := false; textContent := txt |}
  | None => None
  end.

End Observations.

(** * The rest of the order form script: checkout and page load *)

Module Checkout.
Import Client.

(** The page of [Client.Env] with what [proceedToCheckout] and the
    [DOMContentLoaded] listener use besides. *)
Record Env : Type := mkEnv {
  page : Client.Env;
  (** [window.getCartData], when defined: the value it returns *)
  getCartData : option (History -> jsval);
  (** [JSON.stringify(cartItems)]; [None] when it throws *)
  stringifyCart : jsval -> option jsstring;
  (** the path or the address of the page contains [order.html] *)
  isOrderPage : bool
}.

(** [sessionStorage.setItem('checkoutCart', raw)], on a storage that can
    be reached: the write is taken. *)
Definition set_checkoutCart (raw : jsstring) : M State unit :=
  modify (fun s => {| submitInProgress := submitInProgress s;
                      submitBtn := submitBtn s;
                      checkoutCart := Some raw;
                      history := history s |}).

(** [window.proceedToCheckout()] *)
Definition proceedToCheckout (env : Env) : M State unit :=
  cartItems <- match getCartData env with
               | Some f => gets (fun s => f (history s))
               | None => ret VUndef
               end ;;
  if cartIsEmpty cartItems then alert (js "Your cart is empty")
  else
    (match (if sessionStorage_available (page env)
            then stringifyCart env cartItems else None) with
     | Some raw => set_checkoutCart raw
     | None => log "sessionStorage set failed"
     end) ;;
    emit (SetLocation (js "./order.html")).

(** [window.submitOrder()]: [handleSubmit] with an event of its own. *)
Definition submitOrder (env : Env) : M State (option Attempt) :=
  handleSubmit (page env).

(** The [submit] listener that the [DOMContentLoaded] listener puts on the
    form. *)
Definition submitListener (env : Env) : M State (option Attempt) :=
  emit PreventDefault ;; handleSubmit (page env).

(** The [DOMContentLoaded] listener, lines 320-345.  Registering
    [submitListener] has no effect of its own.  The result is the cart it
    passes to [renderOrderSummary], when it gets there. *)
Definition onDOMContentLoaded (env : Env) : M State (option jsval) :=
  if negb (isOrderPage env) then ret None
  else
    cartRaw <- gets (readCartRaw (page env)) ;;
    let cartItems := parseCart (page env) cartRaw in
    match get_prop (js "length") cartItems with
    | None => throw (js "Cannot read properties of null (reading 'length')")
    | Some (VNum 0) =>
        alert (js "Your cart is empty. Redirecting to products...") ;;
        emit (SetLocation (js "./products.html")) ;;
        ret None
    | Some _ => ret (Some cartItems)
    end.

End Checkout.

(** * Further pages *)

Module Pages.
Import Client Checkout.

(** The page [env] with another form. *)
Definition withForm (form : Form) (env : Client.Env) : Client.Env :=
  {| order_form := Some form;
     meta_orders_api_url := meta_orders_api_url env;
     t := t env;
     Number_big := Number_big env;
     location_protocol := location_protocol env;
     sessionStorage_available := sessionStorage_available env;
     JSON_parse := JSON_parse env;
     JSON_stringify := JSON_stringify env;
     getCartTotal := getCartTotal env;
     clearCartAfterOrder := clearCartAfterOrder env;
     Date_toISOString := Date_toISOString env;
     Store := Store env;
     fetch := fetch env |}.

(** A form whose name holds two spaces. *)
Definition blankNameForm : Form :=
  {| field_fullName := Some (js "  ");
     field_phone := Some (js Demo.validPhone);
     field_city := Some (js "Casablanca");
     entry_fullName := VStr (js "  ");
     entry_phone := VStr (js Demo.validPhone);
     entry_city := VStr (js "Casablanca");
     entry_notes := VNull;
     data_orders_api_url := None |}.

(** A form without a city control, which declares an endpoint. *)
Definition noCityForm : Form :=
  {| field_fullName := Some (js "Amal");
     field_phone := Some (js Demo.validPhone);
     field_city := None;
     entry_fullName := VStr (js "Amal");
     entry_phone := VStr (js Demo.validPhone);
     entry_city := VNull;
     entry_notes := VNull;
     data_orders_api_url := Some (js " https://api.example/orders ") |}.

Definition blankNamePage : Client.Env := withForm blankNameForm Demo.pageA.

(** A form whose city control is filled in and disabled: it has a value
    and no entry. *)
Definition disabledCityForm : Form :=
  {| field_fullName := Some (js "Amal");
     field_phone := Some (js Demo.validPhone);
     field_city := Some (js "Casablanca");
     entry_fullName := VStr (js "Amal");
     entry_phone := VStr (js Demo.validPhone);
     entry_city := VNull;
     entry_notes := VNull;
     data_orders_api_url := None |}.

Definition disabledCityPage : Client.Env := withForm disabledCityForm Demo.pageA.

(** The attempt that [handleSubmit] starts on that page. *)
Definition disabledCityAttempt : Attempt :=
  {| orderData :=
       {| fullName := VStr (js "Amal");
          phone := VStr (js Demo.validPhone);
          city := VNull;
          notes := VStr [];
          items := Demo.cart;
          total := VNum 240;
          date := js "2024-05-01T10:00:00.000Z" |};
     hasSubmitBtn := true;
     originalText := js "Confirm Order" |}.

(** A page without [store.js], whose [meta] element holds something that
    is not a URL while its form declares one. *)
Definition maskedPage : Client.Env :=
  withForm noCityForm
    (Demo.clientEnv Demo.validPhone (Some (js " orders ")) None Demo.created None).

(** The same page with a blank [meta] element. *)
Definition declaredPage : Client.Env :=
  withForm noCityForm
    (Demo.clientEnv Demo.validPhone (Some (js "  ")) None Demo.created None).

(** The page of scenario A in a browser that blocks [sessionStorage]. *)
Definition blockedStoragePage : Client.Env :=
  {| order_form := Some (Demo.form Demo.validPhone);
     meta_orders_api_url := None;
     t := None;
     Number_big := Number_big Demo.pageA;
     location_protocol := js "https:";
     sessionStorage_available := false;
     JSON_parse := JSON_parse Demo.pageA;
     JSON_stringify := JSON_stringify Demo.pageA;
     getCartTotal := getCartTotal Demo.pageA;
     clearCartAfterOrder := clearCartAfterOrder Demo.pageA;
     Date_toISOString := Date_toISOString Demo.pageA;
     Store := Store Demo.pageA;
     fetch := fetch Demo.pageA |}.

(** A page that loads neither [store.js] nor the script that defines
    [getCartTotal]. *)
Definition plainPage : Client.Env :=
  {| order_form := Some (Demo.form Demo.validPhone);
     meta_orders_api_url := None;
     t := None;
     Number_big := Number_big Demo.pageA;
     location_protocol := js "http:";
     sessionStorage_available := true;
     JSON_parse := JSON_parse Demo.pageA;
     JSON_stringify := JSON_stringify Demo.pageA;
     getCartTotal := None;
     clearCartAfterOrder := None;
     Date_toISOString := Date_toISOString Demo.pageA;
     Store := None;
     fetch := fetch Demo.pageA |}.

(** The page of scenario B with a local store that throws. *)
Definition failingPage : Client.Env :=
  Demo.clientEnv Demo.validPhone None (Some (Demo.lateStore false))
    Demo.serverError (Some (VNum 240)).

(** A store whose configuration holds the URL from the start. *)
Definition readyStore : StoreObj :=
  {| Store_getOrdersApiUrl := Some (fun _ => Some (VStr Demo.apiUrl));
     Store_ready := Some (fun _ => Ok tt);
     Store_refreshFromRemote := Some (fun _ => Throw (js "Failed to fetch"));
     Store_addOrder := None |}.

Definition readyPage : Client.Env :=
  Demo.clientEnv Demo.validPhone None (Some readyStore) Demo.created
    (Some (VNum 240)).

(** The products page with [cart] in the cart, and with nothing in it. *)
Definition shop (cart : jsval) (orderPage : bool) : Checkout.Env :=
  {| page := Demo.pageA;
     getCartData := Some (fun _ => cart);
     stringifyCart := fun _ => Some (js "CART");
     isOrderPage := orderPage |}.

(** A browser session in which nothing has been stored yet. *)
Definition fresh : State :=
  {| submitInProgress := false;
     submitBtn :=
       Some {| disabled := false; textContent := js "Confirm Order" |};
     checkoutCart := None;
     history := [] |}.

End Pages.

(** * Facts about the association lists and the values *)

Module JSFacts.

Lemma jsstring_eqb_eq (a b : jsstring) : jsstring_eqb a b = true <-> a = b.
Proof. unfold jsstring_eqb. apply bool_decide_eq_true. Qed.

Lemma jsstring_eqb_refl (a : jsstring) : jsstring_eqb a a = true.
Proof. apply jsstring_eqb_eq. reflexivity. Qed.

Lemma jsstring_eqb_neq (a b : jsstring) : a <> b -> jsstring_eqb a b = false.
Proof. intros H. unfold jsstring_eqb. apply bool_decide_eq_false. exact H. Qed.

Section Assoc.
Context {V : Type}.
Implicit Types (k : jsstring) (v : V) (fs : list (jsstring * V)).

Lemma assoc_get_set_same k v fs : assoc_get k (assoc_set k v fs) = Some v.
Proof.
  induction fs as [|[k' v'] fs IH]; simpl.
  - now rewrite jsstring_eqb_refl.
  - destruct (jsstring_eqb k k') eqn:E; simpl; rewrite E; auto.
Qed.

Lemma assoc_get_set_other k k' v fs :
  k <> k' -> assoc_get k' (assoc_set k v fs) = assoc_get k' fs.
Proof.
  intros Hne. induction fs as [|[k0 v0] fs IH]; simpl.
  - rewrite jsstring_eqb_neq; auto.
  - destruct (jsstring_eqb k k0) eqn:E; simpl.
    + apply jsstring_eqb_eq in E. subst k0.
      rewrite !jsstring_eqb_neq; auto.
    + destruct (jsstring_eqb k' k0); auto.
Qed.
End Assoc.

End JSFacts.

Module ServerProofs.
Import JSFacts Server.

(** Evaluates the comparisons of string literals in the goal. *)
Ltac js_literals :=
  repeat match goal with
    | |- context [jsstring_eqb (js ?a) (js ?b)] =>
        let v := eval vm_compute in (jsstring_eqb (js a) (js b)) in
        change (jsstring_eqb (js a) (js b)) with v
    end.

(** Runs the monadic code in the goal and the hypotheses. *)
Ltac run :=
  unfold saveFailed, json, send, status, console_write, setCors, setHeader,
    modify, lift, bind, ret, throw, try_catch in *;
  cbn -[js app decimal numberToString toString commitMessage] in *.

Lemma accepted_inv env req origin order :
  acceptedOrder env req = Some (origin, order) ->
  req_method req = js "POST" /\ configured env = true /\
  requestOrigin env req = Ok origin /\ parseBody env req = Ok order /\
  exists fs, order = VObj fs /\
    (truthy (field (js "fullName") order) || truthy (field (js "phone") order)) = true.
Proof.
  unfold acceptedOrder. intros H.
  destruct (jsstring_eqb (req_method req) (js "POST")) eqn:Em; [|discriminate].
  destruct (configured env) eqn:Ec; [|discriminate]. simpl in H.
  destruct (requestOrigin env req) as [o| |] eqn:Eo; try discriminate.
  destruct (parseBody env req) as [v| |] eqn:Ep; try discriminate.
  destruct (truthy v) eqn:Et; [|discriminate].
  destruct (typeofObject v) eqn:Ety; [|discriminate]. simpl in H.
  destruct (_ || _) eqn:Ef in H; [|discriminate].
  inversion H; subst. apply jsstring_eqb_eq in Em.
  repeat split; auto.
  destruct order; try discriminate. eauto.
Qed.

(** An accepted request runs the read-modify-write on the order with its
    identity assigned. *)
Lemma handler_accepted env req origin order s :
  acceptedOrder env req = Some (origin, order) ->
  handler env req s =
    (console_write "[api/orders] POST request" ;;
     console_write "[api/orders] Order accepted" ;;
     try_catch
       (saveOrder env origin (default [] (GITHUB_OWNER env))
          (default [] (GITHUB_REPO env)) (branchOf env)
          (default [] (GITHUB_TOKEN env)) (assignIdentity env order))
       (saveFailed origin)) s.
Proof.
  intros H. apply accepted_inv in H.
  destruct H as (Hm & Hc & Ho & Hp & fs & -> & Hf).
  unfold handler. rewrite Hm, Ho, Hp, Hc. js_literals.
  unfold lift, bind, try_catch, ret at 1 2. cbn -[saveOrder assignIdentity].
  unfold field in Hf. cbn in Hf. unfold field. cbn -[saveOrder assignIdentity].
  rewrite <- negb_orb, Hf. reflexivity.
Qed.

(** What the handler does for an accepted order, by what the read gives:
    no document (the answer is 500, or never comes when the read hangs), a
    document that cannot take the order (500), an order whose id cannot be
    put in the commit message (500, nothing written), or a document
    [data'] that is written back right after the read, answered 500 when
    the store refuses the write and 200 when it accepts it. *)
Lemma handler_read_modify_write env req origin order s r s' :
  acceptedOrder env req = Some (origin, order) ->
  handler env req s = (r, s') ->
  let order' := assignIdentity env order in
  let failed :=
    github_calls s' = readCall env :: github_calls s /\
    r = Ok tt /\ res_statusCode s' = 500%Z /\
    exists detail, res_sent s' = JsonBody (saveErrorBody detail) :: res_sent s in
  match readDocument env (github_calls s) with
  | Some (file, data) =>
      match prependOrder order' data with
      | Ok data' =>
          match commitMessage env order' with
          | Some _ =>
              let w := writeCall env file data' order' in
              github_calls s' = w :: readCall env :: github_calls s /\
              (writeRefused (github env (readCall env :: github_calls s) w) = true ->
               r = Ok tt /\ res_statusCode s' = 500%Z /\
               exists detail,
                 res_sent s' = JsonBody (saveErrorBody detail) :: res_sent s) /\
              (forall st text v,
                 github env (readCall env :: github_calls s) w = HttpResponse st text ->
                 ok st = true -> JSON_parse env text = Some v ->
                 r = Ok tt /\ res_statusCode s' = 200%Z /\
                 res_sent s' =
                   JsonBody (VObj [ (js "success", VBool true); (js "ok", VBool true);
                                    (js "id", field (js "id") order') ]) :: res_sent s)
          | None => failed
          end
      | Throw _ => failed
      | Pending => False
      end
  | None =>
      github_calls s' = readCall env :: github_calls s /\
      (r = Pending \/ r = Ok tt /\ res_statusCode s' = 500%Z)
  end.
Proof.
  intros Hacc Hrun order' failed. subst failed.
  rewrite (handler_accepted _ _ _ _ _ Hacc) in Hrun.
  fold order' in Hrun. clearbody order'. clear Hacc.
  unfold readDocument, writeCall, writeRefused, writeBody, readCall.
  unfold saveOrder, putFile, getFile, response_json, await_fetch, fetch in Hrun.
  run.
  repeat (case_match; run; simplify_eq);
    repeat split; intros; simplify_eq; eauto;
    repeat match goal with
      | H : github _ _ _ = _, H' : context [github _ _ _] |- _ =>
          rewrite H in H'; cbn in H'
      end;
    try discriminate;
    try match goal with
      | H : prependOrder _ ?d = Pending |- _ => destruct d; discriminate
      end;
    try match goal with
      | H : negb ?b = true, H' : ?b = true |- _ => rewrite H' in H; discriminate
      end; try congruence.
  all: try (unfold saveErrorBody; eauto).
Qed.

Lemma putBody_sha env content sha branch message :
  get_prop (js "sha") (putBody env content sha branch message)
  = Some (if truthy sha then sha else VUndef).
Proof.
  unfold putBody. destruct (truthy sha); reflexivity.
Qed.

Lemma putBody_content env content sha branch message :
  get_prop (js "content") (putBody env content sha branch message)
  = Some (VStr (base64_encode env content)).
Proof.
  unfold putBody. destruct (truthy sha); reflexivity.
Qed.

Lemma putBody_message env content sha branch message :
  nonEmpty message = true ->
  get_prop (js "message") (putBody env content sha branch message)
  = Some (VStr message).
Proof.
  unfold putBody. intros ->. destruct (truthy sha); reflexivity.
Qed.

Lemma commitMessage_nonEmpty env order message :
  commitMessage env order = Some message -> nonEmpty message = true.
Proof.
  unfold commitMessage. destruct (toString _ _); [|discriminate].
  now intros [= <-].
Qed.

(** C4. For an accepted order whose document was read and can take the
    order, the handler issues the write right after the read, and the
    body of the write carries as [sha] the [sha] of the answer to that
    read (when the answer has one); when the store refuses the write
    (a failed request or a status outside 2xx, as for a stale [sha]) the
    handler answers 500 with the failure body.  The write is issued
    exactly when the commit message ['Add order ' + order.id] can be
    built; when it cannot, nothing is written and the answer is 500 with
    the failure body as well. *)
Theorem write_carries_read_token env req origin order s r s' :
  acceptedOrder env req = Some (origin, order) ->
  handler env req s = (r, s') ->
  forall file data data',
    readDocument env (github_calls s) = Some (file, data) ->
    prependOrder (assignIdentity env order) data = Ok data' ->
    let order' := assignIdentity env order in
    let w := writeCall env file data' order' in
    let failed :=
      r = Ok tt /\ res_statusCode s' = 500%Z /\
      (exists detail, res_sent s' = JsonBody (saveErrorBody detail) :: res_sent s) in
    (forall message,
       commitMessage env order' = Some message ->
       github_calls s' = w :: readCall env :: github_calls s
       /\ get_prop (js "sha") (writeBody env file data' order')
          = Some (if truthy (field (js "sha") file)
                  then field (js "sha") file else VUndef)
       /\ get_prop (js "message") (writeBody env file data' order')
          = Some (VStr message)
       /\ (writeRefused (github env (readCall env :: github_calls s) w) = true ->
           failed))
    /\ (commitMessage env order' = None ->
        github_calls s' = readCall env :: github_calls s /\ failed).
Proof.
  intros Hacc Hrun file data data' Hread Hprep order' w failed. subst failed.
  pose proof (handler_read_modify_write _ _ _ _ _ _ _ Hacc Hrun) as H.
  cbv zeta in H. rewrite Hread, Hprep in H. fold order' in H. split.
  - intros message Hm. rewrite Hm in H.
    destruct H as (Hcalls & Hrefused & _).
    split; [exact Hcalls|]. split; [apply putBody_sha|].
    split; [|exact Hrefused].
    unfold writeBody. rewrite Hm. apply putBody_message.
    eapply commitMessage_nonEmpty, Hm.
  - intros Hm. rewrite Hm in H. tauto.
Qed.

Section Prepend.
Variables (order : jsval) (fs : list (jsstring * jsval)).

Lemma prependOrder_object :
  prependOrder order (VObj fs)
  = Ok (VObj (assoc_set (js "orders") (VArr (order :: priorOrders fs)) fs)).
Proof. reflexivity. Qed.

Lemma priorOrders_none :
  (forall l, assoc_get (js "orders") fs <> Some (VArr l)) -> priorOrders fs = [].
Proof.
  unfold priorOrders. intros H.
  destruct (assoc_get (js "orders") fs) as [[]|]; try reflexivity.
  exfalso. eapply H. reflexivity.
Qed.

Lemma priorOrders_array l :
  assoc_get (js "orders") fs = Some (VArr l) -> priorOrders fs = l.
Proof. unfold priorOrders. now intros ->. Qed.
End Prepend.

(** For an accepted order whose commit message can be built and a fetched
    document that is an object, the handler writes the document with the
    new order put before the prior ones. *)
Lemma handler_writes_prepended env req origin order s r s' file fs message :
  acceptedOrder env req = Some (origin, order) ->
  handler env req s = (r, s') ->
  readDocument env (github_calls s) = Some (file, VObj fs) ->
  commitMessage env (assignIdentity env order) = Some message ->
  let newOrder := assignIdentity env order in
  let data' := VObj (assoc_set (js "orders") (VArr (newOrder :: priorOrders fs)) fs) in
  github_calls s' = writeCall env file data' newOrder :: readCall env :: github_calls s
  /\ get_prop (js "orders") data' = Some (VArr (newOrder :: priorOrders fs)).
Proof.
  intros Hacc Hrun Hread Hm newOrder data'.
  pose proof (handler_read_modify_write _ _ _ _ _ _ _ Hacc Hrun) as H.
  cbv zeta in H. rewrite Hread, prependOrder_object, Hm in H.
  destruct H as (Hcalls & _).
  split; [exact Hcalls|]. subst data'. simpl. now rewrite assoc_get_set_same.
Qed.

(** Newest first, for a fetched document that is an object: the document
    written back has as [orders] the new order followed by the prior
    orders, where a missing or non-array [orders] counts as no prior
    orders: then [orders] is [[newOrder]]; a prior array of length N gives
    length N+1, the new order at index 0 and the prior order of index i at
    index i+1.  The other fields of the document are kept. *)
Lemma orders_newest_first env req origin order s r s' :
  acceptedOrder env req = Some (origin, order) ->
  handler env req s = (r, s') ->
  forall file fs message,
    readDocument env (github_calls s) = Some (file, VObj fs) ->
    commitMessage env (assignIdentity env order) = Some message ->
    let newOrder := assignIdentity env order in
    exists data' written,
      github_calls s' = writeCall env file data' newOrder :: readCall env :: github_calls s
      /\ get_prop (js "content") (writeBody env file data' newOrder)
         = Some (VStr (base64_encode env (JSON_stringify_indent2 env data')))
      /\ get_prop (js "orders") data' = Some (VArr written)
      /\ written = newOrder :: priorOrders fs
      /\ (forall k, k <> js "orders" -> get_prop k data' = get_prop k (VObj fs))
      /\ ((forall l, assoc_get (js "orders") fs <> Some (VArr l)) ->
          written = [newOrder])
      /\ (forall l, assoc_get (js "orders") fs = Some (VArr l) ->
          length written = S (length l)
          /\ written !! 0%nat = Some newOrder
          /\ forall i : nat, written !! S i = l !! i).
Proof.
  intros Hacc Hrun file fs message Hread Hm newOrder.
  destruct (handler_writes_prepended _ _ _ _ _ _ _ _ _ _ Hacc Hrun Hread Hm)
    as (Hcalls & Horders).
  eexists _, (newOrder :: priorOrders fs).
  split; [exact Hcalls|]. split; [apply putBody_content|].
  split; [exact Horders|]. split; [reflexivity|].
  split; [|split].
  - intros k Hk. simpl. rewrite assoc_get_set_other; auto.
  - intros Hnone. now rewrite priorOrders_none.
  - intros l Hl. rewrite (priorOrders_array _ _ Hl). simpl. auto.
Qed.

(** C5. With a shared document that is a JSON array, which has no
    [orders] field, the accepted order is not prepended to anything: the
    handler writes the array back as it read it, without the order, and
    answers 200 with [success] and the id of the order.  With a document
    that is an object without [orders], the same request is written as
    the only order. *)
Theorem array_document_loses_order :
  acceptedOrder Samples.arrayDocumentEnv Demo.orderRequest
    = Some (Demo.shopOrigin, Demo.amalOrder)
  /\ readDocument Samples.arrayDocumentEnv [] = Some (Demo.file, VArr [Demo.oldOrder])
  /\ get_prop (js "orders") (VArr [Demo.oldOrder]) = Some VUndef
  /\ handler Samples.arrayDocumentEnv Demo.orderRequest init
     = (Ok tt, snd (handler Samples.arrayDocumentEnv Demo.orderRequest init))
  /\ github_calls (snd (handler Samples.arrayDocumentEnv Demo.orderRequest init))
     = [ PUT (contentsUrl Samples.arrayDocumentEnv (js "shop") (js "store")
                STORE_DATA_PATH)
             (js "ghp_demo")
             (Demo.printJson
                (VObj [ (js "message", VStr (js "Add order ord-1700000000000"));
                        (js "content",
                         VStr (Demo.printJson (VArr [Demo.oldOrder])));
                        (js "branch", VStr (js "release"));
                        (js "sha", VStr (js "3f2a9c")) ]));
         readCall Samples.arrayDocumentEnv ]
  /\ res_statusCode (snd (handler Samples.arrayDocumentEnv Demo.orderRequest init))
     = 200%Z
  /\ res_sent (snd (handler Samples.arrayDocumentEnv Demo.orderRequest init))
     = [ JsonBody (VObj [ (js "success", VBool true); (js "ok", VBool true);
                          (js "id", VStr (js "ord-1700000000000")) ]) ]
  /\ prependOrder Demo.amalStored (VObj [ (js "products", VArr []) ])
     = Ok (VObj [ (js "products", VArr []); (js "orders", VArr [Demo.amalStored]) ]).
Proof. repeat apply conj; vm_compute; reflexivity. Qed.

Lemma field_set_same k v fs : field k (set_field k v (VObj fs)) = v.
Proof. unfold field. simpl. now rewrite assoc_get_set_same. Qed.

Lemma field_set_other k k' v fs :
  k <> k' -> field k' (set_field k v (VObj fs)) = field k' (VObj fs).
Proof. intros H. unfold field. simpl. now rewrite assoc_get_set_other. Qed.

Lemma js_id_status : js "id" <> js "status".
Proof. discriminate. Qed.

(** What lines 132-133 do to an object. *)
Lemma assignIdentity_object env fs :
  exists fs', assignIdentity env (VObj fs) = VObj fs'
    /\ field (js "id") (VObj fs')
       = or_else (field (js "id") (VObj fs))
           (VStr (js "ord-" ++ numberToString (Number_big env) (Date_now env)))
    /\ field (js "status") (VObj fs')
       = or_else (field (js "status") (VObj fs)) (VStr (js "pending"))
    /\ forall k, k <> js "id" -> k <> js "status" ->
         field k (VObj fs') = field k (VObj fs).
Proof.
  set (idv := or_else (field (js "id") (VObj fs))
                (VStr (js "ord-" ++ numberToString (Number_big env) (Date_now env)))).
  set (stv := or_else (field (js "status") (VObj (assoc_set (js "id") idv fs)))
                (VStr (js "pending"))).
  exists (assoc_set (js "status") stv (assoc_set (js "id") idv fs)).
  assert (Hst : field (js "status") (VObj (assoc_set (js "id") idv fs))
                = field (js "status") (VObj fs)).
  { unfold field. simpl. rewrite assoc_get_set_other; auto using js_id_status. }
  split; [reflexivity|]. unfold field in *. simpl in *.
  split; [|split].
  - rewrite assoc_get_set_other by (apply not_eq_sym, js_id_status).
    now rewrite assoc_get_set_same.
  - rewrite assoc_get_set_same. simpl. unfold stv. now rewrite Hst.
  - intros k Hid Hk. rewrite !assoc_get_set_other by auto. reflexivity.
Qed.

(** C10 (amended). For an accepted order that the handler writes (the
    shared document is an object and the commit message can be built),
    the object written at the head of [orders] is the client's object with
    every field other than [id] and [status] unchanged; [id] is the
    client's when that is truthy and ['ord-' + Date.now()] otherwise,
    [status] is the client's when that is truthy and ['pending']
    otherwise. *)
Theorem stored_order_frame env req origin order s r s' :
  acceptedOrder env req = Some (origin, order) ->
  handler env req s = (r, s') ->
  forall file fs message,
    readDocument env (github_calls s) = Some (file, VObj fs) ->
    commitMessage env (assignIdentity env order) = Some message ->
    exists data' stored rest,
      github_calls s' = writeCall env file data' stored :: readCall env :: github_calls s
      /\ get_prop (js "orders") data' = Some (VArr (stored :: rest))
      /\ (forall k, k <> js "id" -> k <> js "status" -> field k stored = field k order)
      /\ field (js "id") stored
         = (if truthy (field (js "id") order) then field (js "id") order
            else VStr (js "ord-" ++ numberToString (Number_big env) (Date_now env)))
      /\ field (js "status") stored
         = (if truthy (field (js "status") order) then field (js "status") order
            else VStr (js "pending")).
Proof.
  intros Hacc Hrun file fs message Hread Hm.
  destruct (handler_writes_prepended _ _ _ _ _ _ _ _ _ _ Hacc Hrun Hread Hm)
    as (Hcalls & Horders).
  destruct (accepted_inv _ _ _ _ Hacc) as (_ & _ & _ & _ & ofs & -> & _).
  destruct (assignIdentity_object env ofs) as (fs' & Heq & Hid & Hst & Hframe).
  eexists _, (assignIdentity env (VObj ofs)), (priorOrders fs).
  split; [exact Hcalls|]. split; [exact Horders|].
  rewrite Heq. split; [exact Hframe|]. split; [exact Hid | exact Hst].
Qed.

(** With an origin to echo, the configuration check comes first: without
    the secrets a POST is answered 500 whatever its body, and with them a
    body object with neither [fullName] nor [phone] is answered 400; in
    both cases GitHub is not called. *)
Lemma configuration_check_first env req origin s :
  req_method req = js "POST" ->
  requestOrigin env req = Ok origin ->
  (configured env = false ->
   exists s', handler env req s = (Ok tt, s')
     /\ res_statusCode s' = 500%Z
     /\ res_sent s'
        = JsonBody (errorBody "Orders API not configured (missing env)") :: res_sent s
     /\ github_calls s' = github_calls s)
  /\ (forall fs,
        configured env = true ->
        parseBody env req = Ok (VObj fs) ->
        truthy (field (js "fullName") (VObj fs)) = false ->
        truthy (field (js "phone") (VObj fs)) = false ->
        exists s', handler env req s = (Ok tt, s')
          /\ res_statusCode s' = 400%Z
          /\ res_sent s'
             = JsonBody (errorBody "Order must include fullName and phone") :: res_sent s
          /\ github_calls s' = github_calls s).
Proof.
  intros Hm Ho. split.
  - intros Hc. unfold handler. rewrite Hm, Ho, Hc. js_literals. run.
    eexists. split; [reflexivity|]. cbn. auto.
  - intros fs Hc Hp Hn Hph. unfold handler. rewrite Hm, Ho, Hc, Hp. js_literals.
    unfold field in *. run. rewrite Hn, Hph. run.
    eexists. split; [reflexivity|]. cbn. auto.
Qed.

(** C9. A POST without an [Origin] header and with a [Referer] that is
    not a URL makes line 79 throw: the handler ends with that exception
    before the configuration check and before the body is parsed, having
    set no status and sent nothing, both for a configured deployment and a
    body with neither [fullName] nor [phone] (where 400 is due) and for a
    deployment without secrets (where 500 is due). *)
Theorem malformed_referer_escapes :
  handler (Demo.serverEnv 200) Demo.badRefererRequest init
    = (Throw (js "Invalid URL"), init)
  /\ handler Demo.unconfiguredEnv Demo.badRefererRequest init
    = (Throw (js "Invalid URL"), init)
  /\ configured (Demo.serverEnv 200) = true
  /\ parseBody (Demo.serverEnv 200) Demo.badRefererRequest
    = Ok (VObj [ (js "city", VStr (js "Rabat")) ])
  /\ configured Demo.unconfiguredEnv = false
  /\ res_sent init = [].
Proof. repeat split; vm_compute; reflexivity. Qed.

(** C10, as stated, fails: the client supplied the id [0] and the status
    [false], and the order is stored with the id ['ord-1700000000000'] and
    the status ['pending'].  And a client-supplied id that is truthy but
    cannot be converted to a string is not stored at all: the order is
    accepted, the document is read, nothing is written and the answer is
    500. *)
Lemma falsy_identity_replaced :
  acceptedOrder (Demo.serverEnv 200) Demo.zeroIdRequest
    = Some (Demo.shopOrigin, Demo.zeroIdOrder)
  /\ assoc_get (js "id") [ (js "fullName", VStr (js "Amal")); (js "id", VNum 0);
                           (js "status", VBool false) ] = Some (VNum 0)
  /\ github_calls (snd (handler (Demo.serverEnv 200) Demo.zeroIdRequest init))
     = [ writeCall (Demo.serverEnv 200) Demo.file
           (Demo.documentAfter Demo.zeroIdStored) Demo.zeroIdStored;
         readCall (Demo.serverEnv 200) ]
  /\ field (js "id") Demo.zeroIdStored = VStr (js "ord-1700000000000")
  /\ field (js "id") Demo.zeroIdStored <> field (js "id") Demo.zeroIdOrder
  /\ field (js "status") Demo.zeroIdStored <> field (js "status") Demo.zeroIdOrder
  /\ acceptedOrder (Demo.serverEnv 200) Demo.oddIdRequest
     = Some (Demo.shopOrigin, Demo.oddIdOrder)
  /\ truthy (field (js "id") Demo.oddIdOrder) = true
  /\ github_calls (snd (handler (Demo.serverEnv 200) Demo.oddIdRequest init))
     = [ readCall (Demo.serverEnv 200) ]
  /\ res_statusCode (snd (handler (Demo.serverEnv 200) Demo.oddIdRequest init))
     = 500%Z.
Proof.
  repeat apply conj; try (vm_compute; reflexivity); vm_compute; discriminate.
Qed.

(** ** The theorems at concrete requests *)

Lemma write_carries_read_token_witness :
  acceptedOrder (Demo.serverEnv 409) Demo.orderRequest
    = Some (Demo.shopOrigin, Demo.amalOrder)
  /\ readDocument (Demo.serverEnv 409) [] = Some (Demo.file, Demo.document)
  /\ github_calls (snd (handler (Demo.serverEnv 409) Demo.orderRequest init))
     = [ writeCall (Demo.serverEnv 409) Demo.file
           (Demo.documentAfter Demo.amalStored) Demo.amalStored;
         readCall (Demo.serverEnv 409) ]
  /\ get_prop (js "sha")
       (writeBody (Demo.serverEnv 409) Demo.file
          (Demo.documentAfter Demo.amalStored) Demo.amalStored)
     = Some (VStr (js "3f2a9c"))
  /\ res_statusCode (snd (handler (Demo.serverEnv 409) Demo.orderRequest init))
     = 500%Z
  /\ commitMessage (Demo.serverEnv 200)
       (assignIdentity (Demo.serverEnv 200) Demo.oddIdOrder) = None
  /\ github_calls (snd (handler (Demo.serverEnv 200) Demo.oddIdRequest init))
     = [ readCall (Demo.serverEnv 200) ]
  /\ res_statusCode (snd (handler (Demo.serverEnv 200) Demo.oddIdRequest init))
     = 500%Z.
Proof.
  assert (Hacc : acceptedOrder (Demo.serverEnv 409) Demo.orderRequest
                 = Some (Demo.shopOrigin, Demo.amalOrder)) by reflexivity.
  assert (Hread : readDocument (Demo.serverEnv 409) (github_calls init)
                  = Some (Demo.file, Demo.document)) by reflexivity.
  assert (Hprep : prependOrder (assignIdentity (Demo.serverEnv 409) Demo.amalOrder)
                    Demo.document
                  = Ok (Demo.documentAfter Demo.amalStored)) by reflexivity.
  destruct (write_carries_read_token (Demo.serverEnv 409) Demo.orderRequest
              Demo.shopOrigin Demo.amalOrder init _ _ Hacc
              (surjective_pairing _) _ _ _ Hread Hprep)
    as (Hwrite & _).
  destruct (Hwrite (js "Add order ord-1700000000000") eq_refl)
    as (Hcalls & Hsha & _ & Hrefused).
  destruct (Hrefused eq_refl) as (_ & Hstatus & _).
  destruct (write_carries_read_token (Demo.serverEnv 200) Demo.oddIdRequest
              Demo.shopOrigin Demo.oddIdOrder init _ _ eq_refl
              (surjective_pairing _) Demo.file Demo.document _ eq_refl eq_refl)
    as (_ & Hnone).
  destruct (Hnone eq_refl) as (Hread' & _ & Hstatus' & _).
  repeat split; assumption.
Defined.

Lemma orders_newest_first_witness :
  acceptedOrder (Demo.serverEnv 200) Demo.orderRequest
    = Some (Demo.shopOrigin, Demo.amalOrder)
  /\ readDocument (Demo.serverEnv 200) [] = Some (Demo.file, Demo.document)
  /\ exists data' written,
       github_calls (snd (handler (Demo.serverEnv 200) Demo.orderRequest init))
       = [ writeCall (Demo.serverEnv 200) Demo.file data' Demo.amalStored;
           readCall (Demo.serverEnv 200) ]
       /\ get_prop (js "orders") data' = Some (VArr written)
       /\ written = [Demo.amalStored; Demo.oldOrder].
Proof.
  assert (Hacc : acceptedOrder (Demo.serverEnv 200) Demo.orderRequest
                 = Some (Demo.shopOrigin, Demo.amalOrder)) by reflexivity.
  assert (Hread : readDocument (Demo.serverEnv 200) (github_calls init)
                  = Some (Demo.file,
                          VObj [ (js "products", VArr []);
                                 (js "orders", VArr [Demo.oldOrder]) ]))
    by reflexivity.
  destruct (orders_newest_first (Demo.serverEnv 200) Demo.orderRequest
              Demo.shopOrigin Demo.amalOrder init _ _ Hacc
              (surjective_pairing _) _ _ (js "Add order ord-1700000000000")
              Hread eq_refl)
    as (data' & written & Hcalls & _ & Horders & Hwritten & _).
  split; [exact Hacc|]. split; [exact Hread|].
  exists data', written. repeat split; assumption.
Defined.

Lemma stored_order_frame_witness :
  acceptedOrder (Demo.serverEnv 200) Demo.zeroIdRequest
    = Some (Demo.shopOrigin, Demo.zeroIdOrder)
  /\ readDocument (Demo.serverEnv 200) [] = Some (Demo.file, Demo.document)
  /\ exists data' stored rest,
       github_calls (snd (handler (Demo.serverEnv 200) Demo.zeroIdRequest init))
       = [ writeCall (Demo.serverEnv 200) Demo.file data' stored;
           readCall (Demo.serverEnv 200) ]
       /\ get_prop (js "orders") data' = Some (VArr (stored :: rest))
       /\ field (js "fullName") stored = VStr (js "Amal")
       /\ field (js "id") stored = VStr (js "ord-1700000000000")
       /\ field (js "status") stored = VStr (js "pending").
Proof.
  assert (Hacc : acceptedOrder (Demo.serverEnv 200) Demo.zeroIdRequest
                 = Some (Demo.shopOrigin, Demo.zeroIdOrder)) by reflexivity.
  assert (Hread : readDocument (Demo.serverEnv 200) (github_calls init)
                  = Some (Demo.file,
                          VObj [ (js "products", VArr []);
                                 (js "orders", VArr [Demo.oldOrder]) ]))
    by reflexivity.
  destruct (stored_order_frame (Demo.serverEnv 200) Demo.zeroIdRequest
              Demo.shopOrigin Demo.zeroIdOrder init _ _ Hacc
              (surjective_pairing _) _ _ (js "Add order ord-1700000000000")
              Hread eq_refl)
    as (data' & stored & rest & Hcalls & Horders & Hframe & Hid & Hst).
  split; [exact Hacc|]. split; [exact Hread|].
  exists data', stored, rest.
  split; [exact Hcalls|]. split; [exact Horders|].
  split; [apply (Hframe (js "fullName")); discriminate|].
  split; [exact Hid | exact Hst].
Defined.

End ServerProofs.

(** * Facts about trimming *)

Module JSMore.

Section Dropping.
Context {A : Type} (p : A -> bool).

Lemma dropWhile_all l : forallb p l = true -> dropWhile p l = [].
Proof.
  induction l as [|x l IH]; simpl; [reflexivity|].
  intros H. apply andb_true_iff in H as [Hx Hl]. rewrite Hx. auto.
Qed.

Lemma dropWhile_head l x l' : dropWhile p l = x :: l' -> p x = false.
Proof.
  induction l as [|y l IH]; simpl; [discriminate|].
  destruct (p y) eqn:E; [exact IH|]. now intros [= <- _].
Qed.

Lemma dropWhile_split l :
  exists pre, l = pre ++ dropWhile p l /\ forallb p pre = true.
Proof.
  induction l as [|y l (pre & Hl & Hpre)]; simpl.
  - exists []. auto.
  - destruct (p y) eqn:E.
    + exists (y :: pre). simpl. rewrite E, Hpre. split; [now f_equal|reflexivity].
    + exists []. auto.
Qed.

Lemma dropWhileEnd_all l : forallb p l = true -> dropWhileEnd p l = [].
Proof.
  intros H. unfold dropWhileEnd. rewrite dropWhile_all; [reflexivity|].
  rewrite forallb_forall in *. intros x Hx. apply H. now apply in_rev.
Qed.

Lemma dropWhileEnd_split l :
  exists suf, l = dropWhileEnd p l ++ suf /\ forallb p suf = true.
Proof.
  unfold dropWhileEnd. destruct (dropWhile_split (rev l)) as (pre & Hl & Hpre).
  exists (rev pre). split.
  - rewrite <- rev_app_distr, <- Hl. now rewrite rev_involutive.
  - rewrite forallb_forall in *. intros x Hx. apply Hpre. now apply in_rev.
Qed.

Lemma dropWhileEnd_last l pre x : dropWhileEnd p l = pre ++ [x] -> p x = false.
Proof.
  unfold dropWhileEnd. intros H.
  apply (f_equal (@rev A)) in H. rewrite rev_involutive, rev_app_distr in H.
  simpl in H. now apply dropWhile_head in H.
Qed.

Lemma dropWhileEnd_head l x l' :
  (forall y l0, l = y :: l0 -> p y = false) ->
  dropWhileEnd p l = x :: l' -> p x = false.
Proof.
  intros Hhead H. destruct (dropWhileEnd_split l) as (suf & Hl & _).
  rewrite H in Hl. simpl in Hl. eapply Hhead. exact Hl.
Qed.
End Dropping.

Lemma trim_blank s : forallb isWhiteSpace s = true -> trim s = [].
Proof.
  intros H. unfold trim. now rewrite dropWhile_all.
Qed.

(** A trimmed string neither starts nor ends with whitespace. *)
Lemma trim_first s x l : trim s = x :: l -> isWhiteSpace x = false.
Proof.
  unfold trim. apply dropWhileEnd_head.
  intros y l0 H. now apply dropWhile_head in H.
Qed.

Lemma trim_last s l x : trim s = l ++ [x] -> isWhiteSpace x = false.
Proof. unfold trim. apply dropWhileEnd_last. Qed.

End JSMore.

Module ClientProofs.
Import JSFacts JSMore Client.
Local Open Scope nat_scope.

(** ** Trimming and the phone pattern *)

Section DropWhile.
Context {A : Type} (p : A -> bool).

Lemma dropWhile_keeps x l : In x l -> p x = false -> In x (dropWhile p l).
Proof.
  induction l as [|y l IH]; simpl; [tauto|].
  intros [->|Hin] Hx.
  - rewrite Hx. now left.
  - destruct (p y); [auto|]. now right.
Qed.

Lemma dropWhileEnd_keeps x l : In x l -> p x = false -> In x (dropWhileEnd p l).
Proof.
  intros Hin Hx. unfold dropWhileEnd.
  apply in_rev. rewrite rev_involutive.
  apply dropWhile_keeps; [|exact Hx]. now apply in_rev in Hin.
Qed.
End DropWhile.

Lemma trim_keeps c s : In c s -> isWhiteSpace c = false -> In c (trim s).
Proof.
  intros Hin Hc. unfold trim.
  apply dropWhileEnd_keeps; [|exact Hc]. now apply dropWhile_keeps.
Qed.

Lemma phoneChar_whitespace c : phoneChar c = false -> isWhiteSpace c = false.
Proof.
  unfold phoneChar. intros H.
  apply orb_false_iff in H as [H _]. now apply orb_false_iff in H as [_ H].
Qed.

Lemma re_phone_rejects c s : In c s -> phoneChar c = false -> re_phone s = false.
Proof.
  intros Hin Hc. unfold re_phone. destruct s as [|x s]; [reflexivity|].
  apply not_true_is_false. intros Hall.
  rewrite forallb_forall in Hall. specialize (Hall c Hin). congruence.
Qed.

(** A phone value with a character outside the class keeps it through
    [trim], so the trimmed value is not empty and fails the pattern. *)
Lemma bad_phone_trimmed c p :
  In c p -> phoneChar c = false ->
  nonEmpty (trimmedValue (Some p)) = true /\ re_phone (trimmedValue (Some p)) = false.
Proof.
  intros Hin Hc. unfold trimmedValue.
  assert (Hne : nonEmpty p = true) by (destruct p; [destruct Hin | reflexivity]).
  rewrite Hne.
  pose proof (trim_keeps c p Hin (phoneChar_whitespace c Hc)) as Hk.
  split; [destruct (trim p); [destruct Hk | reflexivity]|].
  eapply re_phone_rejects; eauto.
Qed.

Ltac run :=
  unfold alert, log, logError, call, emit, gets, modify, lift, bind, ret, throw,
    try_catch in *;
  cbn -[js app decimal numberToString toString] in *.

(** ** Validation *)

Section Validation.
Variables (env : Env) (form : Form) (s : State).
Hypothesis Hform : order_form env = Some form.

Let name := trimmedValue (field_fullName form).
Let phone := trimmedValue (field_phone form).
Let city := trimmedValue (field_city form).
Let cart := parseCart env (readCartRaw env s).

Lemma validate_name :
  nonEmpty name = false ->
  validateOrderForm env s = (Ok false, record (Alert msgName) s).
Proof. unfold validateOrderForm. rewrite Hform. fold name. now intros ->. Qed.

Lemma validate_phone_missing :
  nonEmpty name = true -> nonEmpty phone = false ->
  validateOrderForm env s = (Ok false, record (Alert msgPhone) s).
Proof.
  unfold validateOrderForm. rewrite Hform. fold name phone. now intros -> ->.
Qed.

Lemma validate_phone_invalid :
  nonEmpty name = true -> nonEmpty phone = true -> re_phone phone = false ->
  validateOrderForm env s = (Ok false, record (Alert msgPhoneInvalid) s).
Proof.
  unfold validateOrderForm. rewrite Hform. fold name phone. now intros -> -> ->.
Qed.

Lemma validate_city :
  nonEmpty name = true -> nonEmpty phone = true -> re_phone phone = true ->
  nonEmpty city = false ->
  validateOrderForm env s = (Ok false, record (Alert msgCity) s).
Proof.
  unfold validateOrderForm. rewrite Hform. fold name phone city.
  now intros -> -> -> ->.
Qed.

Lemma validate_cart :
  nonEmpty name = true -> nonEmpty phone = true -> re_phone phone = true ->
  nonEmpty city = true -> cartIsEmpty cart = true ->
  validateOrderForm env s = (Ok false, record (Alert msgCart) s).
Proof.
  unfold validateOrderForm. rewrite Hform. fold name phone city.
  intros -> -> -> -> Hc. run. fold cart. now rewrite Hc.
Qed.

Lemma validate_pass :
  nonEmpty name = true -> nonEmpty phone = true -> re_phone phone = true ->
  nonEmpty city = true -> cartIsEmpty cart = false ->
  validateOrderForm env s = (Ok true, s).
Proof.
  unfold validateOrderForm. rewrite Hform. fold name phone city.
  intros -> -> -> -> Hc. run. fold cart. now rewrite Hc.
Qed.
End Validation.


(** [handleSubmit] when validation rejects: nothing after the rejection. *)
Lemma handleSubmit_rejected env s m :
  submitInProgress s = false ->
  validateOrderForm env (record PreventDefault s)
    = (Ok false, record (Alert m) (record PreventDefault s)) ->
  handleSubmit env s = (Ok None, record (Alert m) (record PreventDefault s)).
Proof.
  intros Hs Hv. unfold handleSubmit.
  unfold bind at 1. unfold emit, modify at 1. unfold bind at 1.
  unfold gets at 1. cbn [submitInProgress record]. rewrite Hs.
  unfold bind at 1. rewrite Hv. reflexivity.
Qed.

(** C6. The checks run in the order name, phone (present, then pattern),
    city, cart; the first one that fails decides the result, which is a
    rejection with that check's single alert, whatever the later fields
    hold; when all pass nothing is alerted.  A phone value with a
    character outside digits, [+], whitespace and [-] is rejected, and
    [handleSubmit] then returns without an attempt: no payload is built
    and no promise chain (the only code that calls [fetch]) is started. *)
Theorem validation_short_circuits env form s :
  order_form env = Some form ->
  let name := trimmedValue (field_fullName form) in
  let phone := trimmedValue (field_phone form) in
  let city := trimmedValue (field_city form) in
  let cart := parseCart env (readCartRaw env s) in
  let rejected m := (Ok false, record (Alert m) s) in
  (nonEmpty name = false -> validateOrderForm env s = rejected msgName)
  /\ (nonEmpty name = true -> nonEmpty phone = false ->
      validateOrderForm env s = rejected msgPhone)
  /\ (nonEmpty name = true -> nonEmpty phone = true -> re_phone phone = false ->
      validateOrderForm env s = rejected msgPhoneInvalid)
  /\ (nonEmpty name = true -> nonEmpty phone = true -> re_phone phone = true ->
      nonEmpty city = false ->
      validateOrderForm env s = rejected msgCity)
  /\ (nonEmpty name = true -> nonEmpty phone = true -> re_phone phone = true ->
      nonEmpty city = true -> cartIsEmpty cart = true ->
      validateOrderForm env s = rejected msgCart)
  /\ (nonEmpty name = true -> nonEmpty phone = true -> re_phone phone = true ->
      nonEmpty city = true -> cartIsEmpty cart = false ->
      validateOrderForm env s = (Ok true, s))
  /\ (validateOrderForm env s = (Ok true, s)
      \/ exists m, validateOrderForm env s = rejected m)
  /\ (forall p c,
        field_phone form = Some p -> In c p -> phoneChar c = false ->
        exists m,
          validateOrderForm env s = rejected m
          /\ (submitInProgress s = false ->
              handleSubmit env s
              = (Ok None, record (Alert m) (record PreventDefault s)))).
Proof.
  intros Hform name phone city cart rejected.
  pose proof (validate_name env form s Hform) as H1.
  pose proof (validate_phone_missing env form s Hform) as H2.
  pose proof (validate_phone_invalid env form s Hform) as H3.
  pose proof (validate_city env form s Hform) as H4.
  pose proof (validate_cart env form s Hform) as H5.
  pose proof (validate_pass env form s Hform) as H6.
  cbv zeta in *. fold name phone city cart in H1, H2, H3, H4, H5, H6.
  repeat (split; [assumption|]).
  split.
  - destruct (nonEmpty name) eqn:En; [|right; eauto].
    destruct (nonEmpty phone) eqn:Ep; [|right; eauto].
    destruct (re_phone phone) eqn:Er; [|right; eauto].
    destruct (nonEmpty city) eqn:Ec; [|right; eauto].
    destruct (cartIsEmpty cart) eqn:Ek; [right; eauto|left; eauto].
  - intros p c Hp Hin Hc.
    assert (Hbad : nonEmpty phone = true /\ re_phone phone = false).
    { unfold phone. rewrite Hp. eapply bad_phone_trimmed; eauto. }
    destruct Hbad as [Hne Hre].
    destruct (nonEmpty name) eqn:En.
    + exists msgPhoneInvalid. split; [auto|]. intros Hg.
      apply handleSubmit_rejected; auto.
      now apply validate_phone_invalid with (form := form).
    + exists msgName. split; [auto|]. intros Hg.
      apply handleSubmit_rejected; auto.
      now apply validate_name with (form := form).
Qed.


(** ** The submitter *)

Lemma ok_range st : ok st = true <-> (200 <= st <= 299)%Z.
Proof. unfold ok. rewrite andb_true_iff, !Z.leb_le. tauto. Qed.

Lemma ok_out_of_range st : ~ (200 <= st <= 299)%Z -> ok st = false.
Proof. intros H. apply not_true_is_false. now rewrite ok_range. Qed.

(** C2. [sendOrderToApi] never rejects.  It resolves to [true] exactly
    when the URL passes the test of line 140, the order serialises, and
    [fetch] answers with a response whose status is in [200,299] and
    whose body can be read; it resolves to [false] for a missing or
    invalid URL, a serialisation failure, a rejected [fetch], a body that
    cannot be read and a status outside [200,299]; with a readable body
    the result is [r.ok], whatever the body is. *)
Theorem submitter_classifies env apiUrl order s r s' :
  sendOrderToApi env apiUrl order s = (r, s') ->
  let answer body :=
    fetch env (history (requestState env apiUrl s)) (requestUrl env apiUrl) body in
  (forall msg, r <> Throw msg)
  /\ (r = Ok true <->
      validApiUrl apiUrl = true /\
      exists body st stxt text,
        JSON_stringify env order = Some body /\
        answer body = Response st stxt (Ok text) /\ (200 <= st <= 299)%Z)
  /\ (validApiUrl apiUrl = false -> r = Ok false)
  /\ (JSON_stringify env order = None -> r = Ok false)
  /\ (forall body msg,
        JSON_stringify env order = Some body ->
        answer body = FetchRejects msg -> r = Ok false)
  /\ (forall body st stxt msg,
        JSON_stringify env order = Some body ->
        answer body = Response st stxt (Throw msg) -> r = Ok false)
  /\ (forall body st stxt text,
        JSON_stringify env order = Some body ->
        answer body = Response st stxt (Ok text) ->
        ~ (200 <= st <= 299)%Z -> r = Ok false)
  /\ (forall body st stxt text,
        validApiUrl apiUrl = true ->
        JSON_stringify env order = Some body ->
        answer body = Response st stxt (Ok text) -> r = Ok (ok st)).
Proof.
  intros Hrun answer. subst answer. cbv beta.
  unfold sendOrderToApi, validApiUrl, requestState, requestUrl, upgrades, onResponse in *.
  set (url := stripTrailingSlashes (default [] apiUrl)) in *.
  destruct (nonEmpty url) eqn:Hne, (re_https_opt url) eqn:Hre;
    cbn [negb orb andb] in *.
  2-4: run; simplify_eq; repeat split; intros; try discriminate; auto;
       destruct H as [? _]; discriminate.
  destruct (jsstring_eqb (location_protocol env) (js "https:") && re_http url);
    run;
    (destruct (JSON_stringify env order) as [body|];
     [|run; simplify_eq; repeat split; intros; try discriminate; auto;
       destruct H as [_ (? & ? & ? & ? & ? & _)]; discriminate]);
    run;
    (destruct (fetch env _ _ body) as [msg| |st stxt [text|msg|]] eqn:Hf;
     run; repeat case_match; run; simplify_eq;
     repeat split; intros; simplify_eq; try discriminate; auto;
     try match goal with
       | H : negb (ok ?st) = true |- _ => apply negb_true_iff in H
       | H : negb (ok ?st) = false |- _ => apply negb_false_iff in H
       end;
     try match goal with
       | H : _ /\ (exists _, _) |- _ =>
           destruct H as [_ (? & ? & ? & ? & ? & ? & ?)]; simplify_eq
       end;
     repeat match goal with
       | H : fetch ?e ?h ?u ?b = _, H' : fetch ?e ?h ?u ?b = _ |- _ =>
           rewrite H in H'; simplify_eq
       end;
     try match goal with
       | H : (200 <= _ <= 299)%Z |- _ => apply ok_range in H
       end;
     try match goal with
       | H : ~ (200 <= _ <= 299)%Z |- _ => apply ok_out_of_range in H
       end;
     try congruence;
     try (do 4 eexists; split; [reflexivity|]; split; [eassumption|];
          now apply ok_range)).
Qed.


(** ** The endpoint resolver *)

Lemma fallback_is_http env u :
  getFallbackOrdersApiUrl env = Some u -> nonEmpty u = true /\ re_https_opt u = true.
Proof.
  unfold getFallbackOrdersApiUrl.
  match goal with |- (if ?c then _ else _) = _ -> _ => destruct c eqn:E end;
    [|discriminate].
  intros [= <-]. now apply andb_true_iff in E.
Qed.

Lemma usableUrl_is_http v u :
  usableUrl v = Ok (Some u) -> nonEmpty u = true /\ re_https_opt u = true.
Proof.
  unfold usableUrl. destruct v as [v|]; [|discriminate].
  destruct (or_else v (VStr [])); try discriminate.
  match goal with |- Ok (if ?c then _ else _) = _ -> _ => destruct c eqn:E end;
    [|discriminate].
  intros [= <-]. now apply andb_true_iff in E.
Qed.

Ltac resolver_cases Hrun :=
  unfold getOrdersApiUrlWhenReady, tryGet, readiness, readyWaited in *;
  repeat (case_match; simplify_eq); run; simplify_eq;
  repeat (case_match; simplify_eq; run; simplify_eq).



(** A URL the resolver settles with has passed the test of line 219 or of
    line 204.  When every operation of the configuration
    source completes normally, the resolver settles with a URL or with
    none.  It has no handler of its own for a failure of the source: when
    the readiness thenable rejects, when the getter throws or returns a
    truthy value that is not a string, or when the refresh it triggers
    rejects, its promise rejects with that error. *)
Lemma resolver_relays_source_errors env s r s' :
  getOrdersApiUrlWhenReady env s = (r, s') ->
  (forall u, r = Ok (Some u) -> nonEmpty u = true /\ re_https_opt u = true)
  /\ ((forall store, Store env = Some store ->
         (forall ready h, Store_ready store = Some ready -> ready h = Ok tt)
         /\ (forall getter h, Store_getOrdersApiUrl store = Some getter ->
               exists o, usableUrl (getter h) = Ok o)
         /\ (forall refresh h, Store_refreshFromRemote store = Some refresh ->
               refresh h = Ok tt)) ->
      exists o, r = Ok o)
  /\ (forall store getter msg,
        Store env = Some store ->
        Store_getOrdersApiUrl store = Some getter ->
        (readiness store s = Throw msg
         \/ (readiness store s = Ok tt
             /\ usableUrl (getter (history (readyWaited store s))) = Throw msg)
         \/ (exists refresh,
               Store_refreshFromRemote store = Some refresh
               /\ readiness store s = Ok tt
               /\ usableUrl (getter (history (readyWaited store s))) = Ok None
               /\ refresh (history (record StoreGetOrdersApiUrl (readyWaited store s)))
                  = Throw msg)) ->
        r = Throw msg).
Proof.
  intros Hrun. split; [|split].
  - intros u ->. resolver_cases Hrun;
      try match goal with
        | H : usableUrl _ = Ok (Some _) |- _ => now apply usableUrl_is_http in H
        | H : getFallbackOrdersApiUrl _ = Some _ |- _ => now apply fallback_is_http in H
        end.
  - intros Hwell.
    unfold getOrdersApiUrlWhenReady, tryGet in Hrun.
    destruct (Store env) as [store|] eqn:HS; [|run; simplify_eq; eauto].
    destruct (Hwell store eq_refl) as (Hready & Hget & Hrefresh).
    destruct (Store_getOrdersApiUrl store) as [getter|]; [|run; simplify_eq; eauto].
    destruct (Store_ready store) as [ready|]; run.
    all: try rewrite (Hready _ _ eq_refl) in Hrun; run.
    all: match type of Hrun with
         | context [usableUrl (_ ?h)] =>
             destruct (Hget _ h eq_refl) as [[u|] Hu]; rewrite Hu in Hrun; run
         end; simplify_eq; eauto.
    all: destruct (Store_refreshFromRemote store) as [refresh|];
           [|run; simplify_eq; eauto].
    all: run; rewrite (Hrefresh _ _ eq_refl) in Hrun; run.
    all: match type of Hrun with
         | context [usableUrl (_ ?h)] =>
             destruct (Hget _ h eq_refl) as [[u'|] Hu']; rewrite Hu' in Hrun; run
         end; simplify_eq; eauto.
  - intros store getter msg HS Hg Hcase.
    unfold getOrdersApiUrlWhenReady, tryGet, readiness, readyWaited in *.
    rewrite HS, Hg in Hrun.
    destruct (Store_ready store) as [ready|]; run;
      destruct Hcase as [Hr | [[Hr Hu] | (refresh & HR & Hr & Hu & Hf)]];
      try discriminate;
      try (rewrite Hr in Hrun; run);
      try (rewrite Hu in Hrun; run);
      try (rewrite HR in Hrun; run; rewrite Hf in Hrun; run);
      congruence.
Qed.

(** ** The parts of the promise chain *)

Lemma quiet_refl s : quiet s s.
Proof. unfold quiet. tauto. Qed.

Lemma quiet_trans s1 s2 s3 : quiet s1 s2 -> quiet s2 s3 -> quiet s1 s3.
Proof. unfold quiet. intuition congruence. Qed.

Ltac quiet_leaf := unfold quiet, count; cbn; tauto.

Lemma resolver_quiet env s r s' :
  getOrdersApiUrlWhenReady env s = (r, s') -> quiet s s'.
Proof. intros Hrun. resolver_cases Hrun; quiet_leaf. Qed.

Lemma submitter_quiet env apiUrl order s r s' :
  sendOrderToApi env apiUrl order s = (r, s') ->
  quiet s s' /\ forall msg, r <> Throw msg.
Proof.
  intros Hrun. unfold sendOrderToApi, onResponse in Hrun.
  repeat (case_match; simplify_eq); run; simplify_eq;
    repeat (case_match; simplify_eq; run; simplify_eq);
    (split; [quiet_leaf | discriminate]).
Qed.

Lemma save_spec env order s :
  exists saved s',
    saveOrderToLocalStore env order s = (Ok saved, s')
    /\ submitInProgress s' = submitInProgress s
    /\ submitBtn s' = submitBtn s
    /\ count isAlert (history s') = count isAlert (history s)
    /\ count isFallbackAttempt (history s') = S (count isFallbackAttempt (history s))
    /\ count isAddOrder (history s') <= S (count isAddOrder (history s)).
Proof.
  unfold saveOrderToLocalStore.
  destruct (Store env) as [store|]; [destruct (Store_addOrder store) as [add|]|];
    run; [destruct (add (history s) order)|..]; run;
    do 2 eexists; (split; [reflexivity|]); unfold count; cbn; repeat split; lia.
Qed.

(** What [done] does, whether it returns or throws: the guard is clear,
    the local store is not touched, and the one alert is shown exactly
    when it returns. *)
Lemma done_spec env a saved s r s' :
  done env a saved s = (r, s') ->
  submitInProgress s' = false
  /\ count isFallbackAttempt (history s') = count isFallbackAttempt (history s)
  /\ count isAddOrder (history s') = count isAddOrder (history s)
  /\ count isFetch (history s') = count isFetch (history s)
  /\ ((r = Ok tt
       /\ count isAlert (history s') = S (count isAlert (history s))
       /\ outcome (history s') = Some (if saved then Success else Failed))
      \/ ((exists msg, r = Throw msg)
          /\ count isAlert (history s') = count isAlert (history s))).
Proof.
  unfold done, finishOrderSuccess, finishOrderFailure, localized, localizedValue,
    domString, set_submitInProgress, set_button, set_disabled, set_textContent,
    removeCheckoutCart.
  intros Hrun. destruct saved; run;
    repeat (case_match; run; simplify_eq);
    unfold count; cbn; repeat split; eauto.
Qed.

Lemma localizedValue_returns env key dflt :
  collaboratorsReturn env ->
  exists v, localizedValue env key dflt = Ok v
            /\ toString (Number_big env) v <> None.
Proof.
  intros [Ht _]. unfold localizedValue.
  destruct (t env) as [f|] eqn:E; [|eexists; split; [reflexivity|discriminate]].
  destruct (Ht f (js key) eq_refl) as (v & -> & Hv).
  destruct (truthy v); eexists; (split; [reflexivity|]); [exact Hv|discriminate].
Qed.

Lemma localized_returns env key dflt :
  collaboratorsReturn env ->
  localized env key dflt = Ok (localize env key dflt).
Proof.
  intros Hc. unfold localize, localized, domString.
  destruct (localizedValue_returns env key dflt Hc) as (v & -> & Hv).
  destruct (toString (Number_big env) v); [reflexivity|congruence].
Qed.

(** With collaborators that return, [done] returns. *)
Lemma done_returns env a saved s :
  collaboratorsReturn env -> exists s', done env a saved s = (Ok tt, s').
Proof.
  intros Hc.
  destruct (localizedValue_returns env "orderSaveError"
              "Order could not be saved. Please try again or contact us directly."
              Hc) as (v & Hv & Hshow).
  assert (Hd : exists text,
            domString env
              (or_else v
                 (VStr (js "Unable to submit order. Please try again or contact us.")))
            = Ok text).
  { unfold domString, or_else. destruct (truthy v); [|eauto].
    destruct (toString (Number_big env) v); [eauto|congruence]. }
  destruct Hd as (text & Hd).
  unfold done, finishOrderSuccess, finishOrderFailure.
  rewrite !(localized_returns _ _ _ Hc), Hv.
  destruct Hc as [_ Hreset].
  unfold set_submitInProgress, set_button, set_disabled, set_textContent,
    removeCheckoutCart.
  destruct saved, (hasSubmitBtn a); run;
    destruct (submitBtn s) as [b|]; run;
    try rewrite Hd; run; eauto;
    try (destruct (clearCartAfterOrder env) as [f|]; run;
         try rewrite (Hreset f _ eq_refl); run); eauto.
Qed.

(** [saveOrderToLocalStore] then [done] never waits: it ends as a settled
    chain does, after one more call of [saveOrderToLocalStore]. *)
Lemma fallback_spec env a s r s' :
  fallbackAndDone env a s = (r, s') ->
  settled s r s'
  /\ count isFallbackAttempt (history s') = S (count isFallbackAttempt (history s))
  /\ count isAddOrder (history s') <= S (count isAddOrder (history s))
  /\ exists saved s1,
       saveOrderToLocalStore env (orderData a) s = (Ok saved, s1)
       /\ done env a saved s1 = (r, s')
       /\ (r = Ok tt -> outcome (history s') = Some (if saved then Success else Failed)).
Proof.
  unfold fallbackAndDone, bind. intros Hrun.
  destruct (save_spec env (orderData a) s) as (saved & s1 & Hs & _ & _ & Ha & Hf & Ho).
  rewrite Hs in Hrun.
  destruct (done_spec _ _ _ _ _ _ Hrun) as (Hg & Hf' & Ho' & _ & Hend).
  split.
  { split; [exact Hg|].
    destruct Hend as [(-> & Ha' & Hout) | (Hthrow & Ha')];
      [left | right]; repeat split; eauto; lia. }
  split; [lia|]. split; [lia|].
  exists saved, s1. split; [exact Hs|]. split; [exact Hrun|].
  intros ->. destruct Hend as [(_ & _ & Hout) | ((msg & [=]) & _)]. exact Hout.
Qed.

Lemma settled_after s0 s r s' :
  count isAlert (history s) = count isAlert (history s0) ->
  settled s r s' -> settled s0 r s'.
Proof.
  unfold settled. intros Ha (Hg & Hend). split; [exact Hg|].
  rewrite <- Ha. exact Hend.
Qed.

(** The [catch] of lines 301-305, from a state [s0] since which nothing
    was alerted. *)
Lemma onFlowError_spec env a s r s' :
  onFlowError env a s = (r, s') ->
  settled s r s'
  /\ count isFallbackAttempt (history s') = S (count isFallbackAttempt (history s)).
Proof.
  unfold onFlowError. unfold bind at 1, logError, emit, modify. intros Hrun.
  apply fallback_spec in Hrun as (Hs & Hf & _).
  split; [|exact Hf]. eapply settled_after; [|exact Hs]. reflexivity.
Qed.

Lemma onSaveError_spec env a s r s' :
  onSaveError env a s = (r, s') ->
  settled s r s'
  /\ count isFallbackAttempt (history s') = count isFallbackAttempt (history s)
  /\ (r = Ok tt -> outcome (history s') = Some Failed).
Proof.
  unfold onSaveError. unfold bind at 1, logError, emit, modify. intros Hrun.
  destruct (done_spec _ _ _ _ _ _ Hrun) as (Hg & Hf & _ & _ & Hend).
  split; [|split; [exact Hf|]].
  - split; [exact Hg|].
    destruct Hend as [(-> & Ha' & Hout) | (Hthrow & Ha')];
      [left | right]; repeat split; eauto.
  - intros ->. destruct Hend as [(_ & _ & Hout) | ((msg & [=]) & _)]. exact Hout.
Qed.

Lemma settled_not_pending s s' : ~ settled s Pending s'.
Proof. intros (_ & [([=] & _) | ((msg & [=]) & _)]). Qed.

Lemma quiet_alerts s s' :
  quiet s s' -> count isAlert (history s') = count isAlert (history s).
Proof. now intros (_ & _ & _ & H & _). Qed.

Lemma flowError_after env a s0 s r s' :
  count isAlert (history s) = count isAlert (history s0) ->
  onFlowError env a s = (r, s') -> settled s0 r s'.
Proof.
  intros Ha Hrun. apply onFlowError_spec in Hrun as (Hs & _).
  eapply settled_after; eauto.
Qed.

(** ** The promise chain *)

Lemma quiet_log_after line s :
  isFallbackAttempt (ConsoleLog line) = false ->
  quiet s (record (ConsoleLog line) s).
Proof.
  intros E. unfold quiet, count. cbn -[isFallbackAttempt]. rewrite E. tauto.
Qed.

Lemma quiet_record_log line s s' :
  isFallbackAttempt (ConsoleLog line) = false ->
  quiet (record (ConsoleLog line) s) s' -> quiet s s'.
Proof.
  intros E. apply quiet_trans. now apply quiet_log_after.
Qed.

(** How the chain continues from the state [s2] in which the submitter
    has returned [apiOk], or in which the resolver has yielded no URL. *)
Lemma chain_after_submitter env a s u s1 apiOk s2 :
  getOrdersApiUrlWhenReady env s = (Ok u, s1) ->
  truthyUrl u = true ->
  sendOrderToApi env u (orderData a) (record logResolved s1) = (Ok apiOk, s2) ->
  submitChain env a s
  = try_catch (if apiOk then done env a true else fallbackAndDone env a)
      (fun _ => onFlowError env a) s2.
Proof.
  intros Hres Hu Hsend. unfold submitChain.
  unfold try_catch at 1. unfold bind at 1. rewrite Hres, Hu.
  unfold bind at 1, log, emit, modify. unfold bind at 1.
  unfold logResolved in Hsend. rewrite Hsend.
  unfold try_catch. destruct apiOk; reflexivity.
Qed.

Lemma chain_without_url env a s u s1 :
  getOrdersApiUrlWhenReady env s = (Ok u, s1) ->
  truthyUrl u = false ->
  submitChain env a s
  = try_catch (try_catch (fallbackAndDone env a) (fun _ => onSaveError env a))
      (fun _ => onFlowError env a) (record logNoUrl s1).
Proof.
  intros Hres Hu. unfold submitChain.
  unfold try_catch at 1. unfold bind at 1. rewrite Hres, Hu.
  unfold bind at 1, log, emit, modify. reflexivity.
Qed.

Lemma chain_after_rejection env a s msg s1 :
  getOrdersApiUrlWhenReady env s = (Throw msg, s1) ->
  submitChain env a s = onFlowError env a s1.
Proof.
  intros Hres. unfold submitChain.
  unfold try_catch at 1. unfold bind at 1. now rewrite Hres.
Qed.

(** The chain either never settles, leaving the guard and the alerts as
    they were, or settles with the guard clear: fulfilled after exactly
    one notification, or rejected after none. *)
Lemma submitChain_spec env a s r s' :
  submitChain env a s = (r, s') ->
  (r = Pending /\ quiet s s') \/ settled s r s'.
Proof.
  destruct (getOrdersApiUrlWhenReady env s) as [[u|msg|] s1] eqn:Hres;
    pose proof (resolver_quiet _ _ _ _ Hres) as Hq1.
  - destruct (truthyUrl u) eqn:Hu.
    + destruct (sendOrderToApi env u (orderData a) (record logResolved s1))
        as [[apiOk|msg|] s2] eqn:Hsend.
      * rewrite (chain_after_submitter _ _ _ _ _ _ _ Hres Hu Hsend).
        apply submitter_quiet in Hsend as [Hq2 _].
        apply (quiet_record_log _ s1) in Hq2; [|reflexivity].
        pose proof (quiet_alerts _ _ (quiet_trans _ _ _ Hq1 Hq2)) as Ha2.
        unfold try_catch. intros Hrun. right. destruct apiOk.
        -- destruct (done env a true s2) as [[[]|msg|] s3] eqn:Hd;
             destruct (done_spec _ _ _ _ _ _ Hd) as (Hg & _ & _ & _ & Hend).
           ++ injection Hrun as <- <-.
              destruct Hend as [(_ & Ha3 & Hout) | ((? & [=]) & _)].
              split; [exact Hg|]. left. repeat split; eauto; lia.
           ++ destruct Hend as [([=] & _) | (_ & Ha3)].
              eapply flowError_after; [|exact Hrun]. lia.
           ++ destruct Hend as [([=] & _) | ((? & [=]) & _)].
        -- destruct (fallbackAndDone env a s2) as [[[]|msg|] s3] eqn:Hf;
             destruct (fallback_spec _ _ _ _ _ Hf) as (Hs & _).
           ++ injection Hrun as <- <-. eapply settled_after; eauto.
           ++ destruct Hs as (_ & [([=] & _) | (_ & Ha3)]).
              eapply flowError_after; [|exact Hrun]. lia.
           ++ now apply settled_not_pending in Hs.
      * apply submitter_quiet in Hsend as [_ Hnothrow].
        exfalso. eapply Hnothrow. reflexivity.
      * unfold submitChain. unfold try_catch at 1. unfold bind at 1.
        rewrite Hres, Hu. unfold bind at 1, log, emit, modify. unfold bind at 1.
        unfold logResolved in Hsend. rewrite Hsend.
        apply submitter_quiet in Hsend as [Hq2 _].
        apply (quiet_record_log _ s1) in Hq2; [|reflexivity].
        intros [= <- <-]. left. split; [reflexivity|].
        eapply quiet_trans; eauto.
    + rewrite (chain_without_url _ _ _ _ _ Hres Hu).
      assert (Ha1 : count isAlert (history (record logNoUrl s1))
                    = count isAlert (history s)).
      { rewrite <- (quiet_alerts _ _ Hq1). reflexivity. }
      unfold try_catch. intros Hrun. right.
      destruct (fallbackAndDone env a (record logNoUrl s1)) as [[[]|msg|] s3] eqn:Hf;
        destruct (fallback_spec _ _ _ _ _ Hf) as (Hs & _).
      * injection Hrun as <- <-. eapply settled_after; eauto.
      * destruct Hs as (_ & [([=] & _) | (_ & Ha3)]).
        destruct (onSaveError env a s3) as [[[]|msg'|] s4] eqn:He;
          destruct (onSaveError_spec _ _ _ _ _ He) as (Hs' & _).
        -- injection Hrun as <- <-. eapply settled_after; [|exact Hs']. lia.
        -- destruct Hs' as (_ & [([=] & _) | (_ & Ha4)]).
           eapply flowError_after; [|exact Hrun]. lia.
        -- now apply settled_not_pending in Hs'.
      * now apply settled_not_pending in Hs.
  - rewrite (chain_after_rejection _ _ _ _ _ Hres). intros Hrun. right.
    eapply flowError_after; [|exact Hrun]. apply (quiet_alerts _ _ Hq1).
  - unfold submitChain. unfold try_catch at 1. unfold bind at 1. rewrite Hres.
    intros [= <- <-]. left. auto.
Qed.

(** With collaborators that return, a chain that settles is fulfilled. *)
Lemma submitChain_fulfilled env a s r s' :
  collaboratorsReturn env ->
  submitChain env a s = (r, s') -> forall msg, r <> Throw msg.
Proof.
  intros Hc Hrun msg ->.
  assert (Hflow : forall s0 m s1, onFlowError env a s0 <> (Throw m, s1)).
  { intros s0 m s1. unfold onFlowError, fallbackAndDone.
    unfold bind at 1, logError, emit, modify. unfold bind.
    destruct (save_spec env (orderData a) (record (ConsoleError "Submit flow error") s0))
      as (saved & s2 & -> & _).
    destruct (done_returns env a saved s2 Hc) as (s3 & ->). discriminate. }
  assert (Hfall : forall s0 m s1, fallbackAndDone env a s0 <> (Throw m, s1)).
  { intros s0 m s1. unfold fallbackAndDone, bind.
    destruct (save_spec env (orderData a) s0) as (saved & s2 & -> & _).
    destruct (done_returns env a saved s2 Hc) as (s3 & ->). discriminate. }
  destruct (getOrdersApiUrlWhenReady env s) as [[u|m|] s1] eqn:Hres.
  - destruct (truthyUrl u) eqn:Hu.
    + destruct (sendOrderToApi env u (orderData a) (record logResolved s1))
        as [[apiOk|m|] s2] eqn:Hsend.
      * rewrite (chain_after_submitter _ _ _ _ _ _ _ Hres Hu Hsend) in Hrun.
        unfold try_catch in Hrun. destruct apiOk.
        -- destruct (done_returns env a true s2 Hc) as (s3 & Hd).
           rewrite Hd in Hrun. discriminate.
        -- destruct (fallbackAndDone env a s2) as [[[]|m|] s3] eqn:Hf;
             try discriminate. eapply Hfall; eauto.
      * apply submitter_quiet in Hsend as [_ Hnothrow]. eapply Hnothrow. reflexivity.
      * unfold submitChain in Hrun. unfold try_catch at 1 in Hrun.
        unfold bind at 1 in Hrun. rewrite Hres, Hu in Hrun.
        unfold bind at 1, log, emit, modify in Hrun. unfold bind at 1 in Hrun.
        unfold logResolved in Hsend. rewrite Hsend in Hrun. discriminate.
    + rewrite (chain_without_url _ _ _ _ _ Hres Hu) in Hrun.
      unfold try_catch in Hrun.
      destruct (fallbackAndDone env a (record logNoUrl s1)) as [[[]|m|] s3] eqn:Hf;
        try discriminate. eapply Hfall; eauto.
  - rewrite (chain_after_rejection _ _ _ _ _ Hres) in Hrun. eapply Hflow; eauto.
  - unfold submitChain in Hrun. unfold try_catch at 1 in Hrun.
    unfold bind at 1 in Hrun. rewrite Hres in Hrun. discriminate.
Qed.

(** What [saveOrderToLocalStore] does with a [Store] that has [addOrder]:
    it calls it, once, with the order, and returns whether it returned. *)
Lemma save_calls_addOrder env order s store add :
  Store env = Some store -> Store_addOrder store = Some add ->
  exists e,
    saveOrderToLocalStore env order s
    = (Ok (add (history s) order),
       record e (record (StoreAddOrder order) s))
    /\ isAddOrder e = false.
Proof.
  intros HS HA. unfold saveOrderToLocalStore. rewrite HS, HA. run.
  destruct (add (history s) order); run; eexists; split; reflexivity.
Qed.

(** When the resolver yields no URL, or yields one and the submitter
    returns [false], the chain calls [saveOrderToLocalStore], which calls
    [Store.addOrder] (when there is one) with the order of the attempt,
    and passes what it returns to [done].  When [done] returns, the chain
    ends there: the local store was tried once, and the attempt ends in
    Success exactly when [saveOrderToLocalStore] returned [true] and in
    Failed exactly when it returned [false]. *)
Lemma fallback_decides_outcome env a s r1 s1 s2 :
  getOrdersApiUrlWhenReady env s = (r1, s1) ->
  (exists u, r1 = Ok u /\ truthyUrl u = false /\ s2 = record logNoUrl s1)
  \/ (exists u, r1 = Ok u /\ truthyUrl u = true
       /\ sendOrderToApi env u (orderData a) (record logResolved s1) = (Ok false, s2)) ->
  exists saved s3,
    saveOrderToLocalStore env (orderData a) s2 = (Ok saved, s3)
    /\ (forall store add,
          Store env = Some store -> Store_addOrder store = Some add ->
          saved = add (history s2) (orderData a)
          /\ In (StoreAddOrder (orderData a)) (history s3)
          /\ count isAddOrder (history s3) = S (count isAddOrder (history s)))
    /\ (forall s',
          done env a saved s3 = (Ok tt, s') ->
          submitChain env a s = (Ok tt, s')
          /\ count isFallbackAttempt (history s')
             = S (count isFallbackAttempt (history s))
          /\ count isAddOrder (history s') = count isAddOrder (history s3)
          /\ (saved = true <-> outcome (history s') = Some Success)
          /\ (saved = false <-> outcome (history s') = Some Failed)).
Proof.
  intros Hres Hcase.
  pose proof (resolver_quiet _ _ _ _ Hres) as Hq1.
  assert (Hq2 : quiet s s2).
  { destruct Hcase as [(u & -> & Hu & ->)|(u & -> & Hu & Hsend)].
    - eapply quiet_trans; [exact Hq1|]. now apply quiet_log_after.
    - apply submitter_quiet in Hsend as [Hq _].
      apply (quiet_record_log _ s1) in Hq; [|reflexivity].
      eapply quiet_trans; eauto. }
  destruct Hq2 as (_ & _ & _ & _ & Hf2 & Hadd2).
  destruct (save_spec env (orderData a) s2) as (saved & s3 & Hsave & _ & _ & _ & Hf3 & _).
  exists saved, s3. split; [exact Hsave|]. split.
  { intros store add HS HA.
    destruct (save_calls_addOrder env (orderData a) s2 store add HS HA) as (e & He & Hne).
    rewrite He in Hsave. injection Hsave as <- <-.
    split; [reflexivity|]. split; [right; left; reflexivity|].
    unfold count in *. cbn. rewrite Hne. cbn. now rewrite Hadd2. }
  intros s' Hdone.
  assert (Htail : fallbackAndDone env a s2 = (Ok tt, s')).
  { unfold fallbackAndDone, bind. now rewrite Hsave. }
  destruct (done_spec _ _ _ _ _ _ Hdone) as (_ & Hf' & Ha' & _ & Hend).
  destruct Hend as [(_ & _ & Hout) | ((? & [=]) & _)].
  split.
  { destruct Hcase as [(u & -> & Hu & ->)|(u & -> & Hu & Hsend)].
    - rewrite (chain_without_url _ _ _ _ _ Hres Hu). unfold try_catch.
      now rewrite Htail.
    - rewrite (chain_after_submitter _ _ _ _ _ _ _ Hres Hu Hsend). unfold try_catch.
      now rewrite Htail. }
  split; [lia|]. split; [exact Ha'|].
  rewrite Hout. destruct saved; split; intuition congruence.
Qed.

(** ** The synchronous part and the single-flight guard *)

Lemma handleSubmit_ignored env s :
  submitInProgress s = true -> handleSubmit env s = (Ok None, ignored s).
Proof.
  intros H. unfold handleSubmit, ignored. run. now rewrite H.
Qed.

Lemma validate_frame env s :
  exists b s', validateOrderForm env s = (Ok b, s')
    /\ submitInProgress s' = submitInProgress s
    /\ count isAlert (history s') <= S (count isAlert (history s))
    /\ (b = true -> s' = s).
Proof.
  unfold validateOrderForm. repeat case_match; run; repeat case_match;
    do 2 eexists; (split; [reflexivity|]); unfold count; cbn;
    repeat split; auto; try lia; discriminate.
Qed.

Lemma build_frame env s r s' :
  buildOrderPayload env s = (r, s') ->
  submitInProgress s' = submitInProgress s
  /\ submitBtn s' = submitBtn s
  /\ count isAlert (history s') = count isAlert (history s)
  /\ r <> Pending.
Proof.
  unfold buildOrderPayload. intros H. run.
  repeat (case_match; run; simplify_eq); unfold count; cbn; auto.
Qed.

(** [handleSubmit] from the point where the payload [o] has been built, in
    the state [s]: lines 256-264. *)
Lemma handleSubmit_start env o s r s' :
  (log "Submitting order" ;;
   btn <- gets submitBtn ;;
   (match btn with
    | Some _ =>
        set_disabled true ;;
        label <- lift (localized env "submitting" "Submitting...") ;;
        set_textContent label
    | None => ret tt
    end) ;;
   set_submitInProgress true ;;
   ret (Some {| orderData := o;
                hasSubmitBtn := bool_decide (is_Some btn);
                originalText := match btn with
                                | Some b => textContent b
                                | None => js "Confirm Order"
                                end |})) s = (r, s') ->
  count isAlert (history s') = count isAlert (history s)
  /\ checkoutCart s' = checkoutCart s
  /\ ((exists msg, r = Throw msg
         /\ submitInProgress s' = submitInProgress s
         /\ exists b, submitBtn s = Some b
              /\ submitBtn s' = Some {| disabled := true;
                                        textContent := textContent b |})
      \/ (r = Ok (Some {| orderData := o;
                          hasSubmitBtn := bool_decide (is_Some (submitBtn s));
                          originalText := match submitBtn s with
                                          | Some b => textContent b
                                          | None => js "Confirm Order"
                                          end |})
          /\ submitInProgress s' = true
          /\ submitBtn s'
             = match submitBtn s with
               | Some _ =>
                   Some {| disabled := true;
                           textContent := localize env "submitting" "Submitting..." |}
               | None => None
               end)).
Proof.
  unfold set_disabled, set_textContent, set_submitInProgress, localize.
  intros Hrun. run.
  destruct (submitBtn s) as [b|] eqn:Hb; run.
  - destruct (localized env "submitting" "Submitting...") as [label|msg|] eqn:Hl;
      run; simplify_eq; cbn; rewrite ?Hb; cbn.
    + unfold count. cbn. split; [reflexivity|]. split; [reflexivity|].
      right. repeat split.
    + unfold count. cbn. split; [reflexivity|]. split; [reflexivity|].
      left. eexists. split; [reflexivity|]. split; [reflexivity|]. eauto.
    + unfold localized, localizedValue, domString in Hl.
      repeat case_match; discriminate.
  - simplify_eq. cbn. rewrite ?Hb. unfold count. cbn.
    split; [reflexivity|]. split; [reflexivity|].
    right. rewrite ?Hb. repeat split.
Qed.

(** With no attempt in flight, [handleSubmit] starts none and leaves the
    guard clear, or starts one and sets the guard, or throws (the
    localisation of the button label failed) with the guard clear. *)
Lemma handleSubmit_spec env s r s' :
  submitInProgress s = false ->
  handleSubmit env s = (r, s') ->
  (r = Ok None /\ submitInProgress s' = false)
  \/ (exists a, r = Ok (Some a) /\ submitInProgress s' = true
       /\ count isAlert (history s') = count isAlert (history s))
  \/ (exists msg, r = Throw msg /\ submitInProgress s' = false
       /\ count isAlert (history s') = count isAlert (history s)).
Proof.
  intros Hg. unfold handleSubmit.
  unfold bind at 1, emit, modify. unfold bind at 1, gets at 1.
  cbn [submitInProgress record]. rewrite Hg. unfold bind at 1.
  destruct (validate_frame env (record PreventDefault s)) as (b & s1 & -> & Hg1 & _ & Hsame).
  destruct b; cbn [negb]; [|intros [= <- <-]; left; split; [auto|]; now rewrite Hg1].
  rewrite (Hsame eq_refl). clear Hsame Hg1 s1.
  unfold bind at 1, try_catch, bind at 1.
  destruct (buildOrderPayload env _) as [[o|msg|] s2] eqn:Hb;
    apply build_frame in Hb as (Hg2 & _ & Ha2 & Hnp).
  - intros Hrun. apply handleSubmit_start in Hrun as (Ha & _ & Hend).
    assert (Ha3 : count isAlert (history s') = count isAlert (history s)).
    { rewrite Ha, Ha2. reflexivity. }
    destruct Hend as [(msg & -> & Hg3 & _) | (-> & Hg3 & _)].
    + right. right. exists msg. repeat split; auto.
      rewrite Hg3, Hg2. exact Hg.
    + right. left. eexists. repeat split; auto.
  - run. intros [= <- <-]. left. split; [reflexivity|].
    cbn in *. congruence.
  - congruence.
Qed.

(** The guard is set exactly while an attempt is in flight, and there is
    never more than one. *)
Lemma guard_invariant env p :
  reachable env p ->
  (submitInProgress (script p) = false /\ inFlight p = [])
  \/ (submitInProgress (script p) = true /\ exists a stalled, inFlight p = [(a, stalled)]).
Proof.
  induction 1 as [s Hs | p p' Hreach IH Hstep].
  - left. auto.
  - assert (Hsettle : forall before a after r s',
              inFlight p = before ++ (a, false) :: after ->
              submitChain env a (script p) = (r, s') ->
              (r = Pending /\ submitInProgress s' = true
               /\ before = [] /\ after = [])
              \/ (r <> Pending /\ submitInProgress s' = false
                  /\ before = [] /\ after = [])).
    { intros before a after r s' Hin Hrun.
      destruct IH as [[Hg Hnone] | [Hg (a0 & st & Hone)]].
      - rewrite Hnone in Hin. now destruct before.
      - rewrite Hone in Hin.
        destruct before as [|? [|]]; [|discriminate..].
        cbn in Hin. injection Hin as -> -> <-.
        destruct (submitChain_spec _ _ _ _ _ Hrun) as [[-> Hq] | Hs].
        + left. destruct Hq as (Hg' & _). repeat split; congruence.
        + right. destruct Hs as (Hg' & _). repeat split; auto.
          intros ->. eapply settled_not_pending. split; eauto.
          destruct (submitChain_spec _ _ _ _ _ Hrun) as [[_ Hq] | (_ & Hend)];
            [destruct Hq as (Hq & _); congruence | exact Hend]. }
    inversion Hstep as [p0 o s' Hrun | p0 msg s' Hrun
                        | p0 before a after s' Hin Hrun
                        | p0 before a after msg s' Hin Hrun
                        | p0 before a after s' Hin Hrun]; subst; cbn.
    + destruct IH as [[Hg Hnone] | [Hg (a & st & Hone)]].
      * destruct (handleSubmit_spec _ _ _ _ Hg Hrun)
          as [[[= ->] Hg'] | [(a & [= ->] & Hg' & _) | (msg & [=] & _)]].
        -- left. auto.
        -- right. rewrite Hnone. eauto.
      * rewrite (handleSubmit_ignored _ _ Hg) in Hrun.
        injection Hrun as <- <-. right. cbn. eauto.
    + destruct IH as [[Hg Hnone] | [Hg (a & st & Hone)]].
      * destruct (handleSubmit_spec _ _ _ _ Hg Hrun)
          as [[[=] _] | [(a & [=] & _) | (msg' & _ & Hg' & _)]].
        left. auto.
      * rewrite (handleSubmit_ignored _ _ Hg) in Hrun. discriminate.
    + destruct (Hsettle _ _ _ _ _ Hin Hrun)
        as [([=] & _) | (_ & Hg' & -> & ->)]. left. auto.
    + destruct (Hsettle _ _ _ _ _ Hin Hrun)
        as [([=] & _) | (_ & Hg' & -> & ->)]. left. auto.
    + destruct (Hsettle _ _ _ _ _ Hin Hrun)
        as [(_ & Hg' & -> & ->) | (Hnp & _)]; [|congruence].
      right. cbn. eauto.
Qed.

(** The single-flight guard.  While an attempt is in flight the guard is
    set, there is no second attempt, and a submit event only cancels the
    default action and writes a console line: no alert, no request, no
    change to the button, no new attempt.  A promise chain that settles
    leaves the guard clear; it has shown exactly one notification when it
    is fulfilled and none when it is rejected, and it is never rejected
    when the localisation function and [clearCartAfterOrder] return.  A
    chain that has not settled has alerted nothing and left the guard
    set.  When building the payload throws, the guard stays clear and the
    single alert is the build failure. *)
Lemma single_flight_guard env :
  (forall p, reachable env p -> inFlight p <> [] ->
     submitInProgress (script p) = true
     /\ length (inFlight p) = 1
     /\ handleSubmit env (script p) = (Ok None, ignored (script p))
     /\ quiet (script p) (ignored (script p))
     /\ count isFetch (history (ignored (script p)))
        = count isFetch (history (script p)))
  /\ (forall a s r s', submitChain env a s = (r, s') ->
       (r = Pending /\ quiet s s') \/ settled s r s')
  /\ (collaboratorsReturn env ->
      forall a s r s', submitChain env a s = (r, s') -> forall msg, r <> Throw msg)
  /\ (forall s msg s2,
       submitInProgress s = false ->
       validateOrderForm env (record PreventDefault s)
         = (Ok true, record PreventDefault s) ->
       buildOrderPayload env (record PreventDefault s) = (Throw msg, s2) ->
       exists s', handleSubmit env s = (Ok None, s')
         /\ submitInProgress s' = false
         /\ count isAlert (history s') = S (count isAlert (history s))).
Proof.
  split; [|split; [|split]].
  - intros p Hreach Hin.
    destruct (guard_invariant env p Hreach) as [[_ Hnone] | [Hg (a & st & Hone)]];
      [contradiction|].
    split; [exact Hg|]. split; [now rewrite Hone|].
    split; [now apply handleSubmit_ignored|].
    split; [|reflexivity]. unfold quiet, ignored, count. cbn. tauto.
  - intros a s r s' Hrun. now apply submitChain_spec in Hrun.
  - intros Hc a s r s' Hrun. eapply submitChain_fulfilled; eauto.
  - intros s msg s2 Hg Hv Hb. unfold handleSubmit.
    unfold bind at 1, emit, modify. unfold bind at 1, gets at 1.
    cbn [submitInProgress record]. rewrite Hg. unfold bind at 1. rewrite Hv.
    cbn [negb]. unfold bind at 1, try_catch, bind at 1. rewrite Hb.
    apply build_frame in Hb as (Hg2 & _ & Ha2 & _).
    run. eexists. split; [reflexivity|]. cbn.
    split; [cbn in Hg2; congruence|]. unfold count in *. cbn in *. now rewrite Ha2.
Qed.

(** C1. On a page whose [clearCartAfterOrder] throws, the attempt whose
    order the remote endpoint accepts (201) ends without a notification.
    [done(true)] clears the guard, restores the button and throws in
    [finishOrderSuccess]; the [catch] of lines 301-305 takes that for a
    failure of the flow, stores the order with [Store.addOrder] and calls
    [done(true)] again, which throws again: the chain is rejected with
    nobody to catch it.  Nothing was alerted, the page has not navigated,
    the snapshot is still there, and the order was sent and also stored
    locally. *)
Theorem throwing_reset_loses_notification :
  handleSubmit Demo.brokenResetA Demo.idle = (Ok (Some Demo.attempt), Demo.submitted)
  /\ fst (sendOrderToApi Demo.brokenResetA (Some Demo.apiUrl) Demo.builtOrder
            (record logResolved
               (snd (getOrdersApiUrlWhenReady Demo.brokenResetA Demo.submitted))))
     = Ok true
  /\ submitChain Demo.brokenResetA Demo.attempt Demo.submitted
     = (Throw (js "clearCartAfterOrder failed"), Demo.endBrokenA)
  /\ submitInProgress Demo.endBrokenA = false
  /\ count isAlert (history Demo.endBrokenA) = 0
  /\ count isNavigation (history Demo.endBrokenA) = 0
  /\ outcome (history Demo.endBrokenA) = None
  /\ count isFetch (history Demo.endBrokenA) = 1
  /\ count isAddOrder (history Demo.endBrokenA) = 1
  /\ count isCartReset (history Demo.endBrokenA) = 2
  /\ checkoutCart Demo.endBrokenA = Some (js "CART")
  /\ submitBtn Demo.endBrokenA
     = Some {| disabled := false; textContent := js "Confirm Order" |}.
Proof. repeat apply conj; vm_compute; reflexivity. Qed.

(** C3. On a page whose [clearCartAfterOrder] throws, the fallback is not
    tried exactly once and does not decide the outcome.  When the
    resolver yields a URL and the submitter returns [false], the chain
    stores the order with [Store.addOrder], [done(true)] throws, and the
    [catch] of lines 301-305 stores the order a second time before
    [done(true)] throws again: two calls, no outcome.  When the resolver
    yields no URL, [saveOrderToLocalStore] returns [true], [done(true)]
    throws, and the [catch] of lines 296-299 calls [done(false)]: the
    attempt ends in Failed although the fallback returned [true]. *)
Theorem throwing_reset_repeats_fallback :
  fst (getOrdersApiUrlWhenReady Demo.brokenResetB Demo.submitted)
  = Ok (Some Demo.apiUrl)
  /\ fst (sendOrderToApi Demo.brokenResetB (Some Demo.apiUrl) Demo.builtOrder
            (record logResolved
               (snd (getOrdersApiUrlWhenReady Demo.brokenResetB Demo.submitted))))
     = Ok false
  /\ submitChain Demo.brokenResetB Demo.attempt Demo.submitted
     = (Throw (js "clearCartAfterOrder failed"), Demo.endBrokenB)
  /\ count isFallbackAttempt (history Demo.endBrokenB) = 2
  /\ count isAddOrder (history Demo.endBrokenB) = 2
  /\ count isAlert (history Demo.endBrokenB) = 0
  /\ outcome (history Demo.endBrokenB) = None
  /\ fst (getOrdersApiUrlWhenReady Demo.brokenResetLocal Demo.submitted) = Ok None
  /\ fst (saveOrderToLocalStore Demo.brokenResetLocal Demo.builtOrder
            (record logNoUrl
               (snd (getOrdersApiUrlWhenReady Demo.brokenResetLocal Demo.submitted))))
     = Ok true
  /\ submitChain Demo.brokenResetLocal Demo.attempt Demo.submitted
     = (Ok tt, Demo.endBrokenLocal)
  /\ count isFallbackAttempt (history Demo.endBrokenLocal) = 1
  /\ count isAddOrder (history Demo.endBrokenLocal) = 1
  /\ outcome (history Demo.endBrokenLocal) = Some Failed.
Proof. repeat apply conj; vm_compute; reflexivity. Qed.

(** C8. With an empty configuration and a refresh that rejects, the
    promise of the resolver rejects, although the page declares a
    fallback URL, which every other path of the resolver would return.
    The chain of the attempt then takes the [catch] of lines 301-305: the
    order is stored locally and the endpoint that the page declares, and
    that would have accepted the order, is never called. *)
Theorem rejecting_refresh_rejects_resolver :
  getFallbackOrdersApiUrl Demo.rejectingPage = Some Demo.apiUrl
  /\ Store_refreshFromRemote Demo.rejectingStore
     = Some (fun _ => Throw (js "Failed to fetch"))
  /\ fst (getOrdersApiUrlWhenReady Demo.rejectingPage Demo.idle)
     = Throw (js "Failed to fetch")
  /\ fst (sendOrderToApi Demo.rejectingPage (Some Demo.apiUrl) Demo.builtOrder
            Demo.submitted) = Ok true
  /\ submitChain Demo.rejectingPage Demo.attempt Demo.submitted
     = (Ok tt, Demo.endRejecting)
  /\ count isFetch (history Demo.endRejecting) = 0
  /\ count isAddOrder (history Demo.endRejecting) = 1.
Proof. repeat apply conj; vm_compute; reflexivity. Qed.

(** ** The theorems at concrete pages *)

Lemma single_flight_guard_witness :
  reachable Demo.pageB
    {| script := Demo.submitted; inFlight := [(Demo.attempt, false)] |}
  /\ handleSubmit Demo.pageB Demo.submitted = (Ok None, ignored Demo.submitted)
  /\ submitInProgress (snd (submitChain Demo.pageB Demo.attempt Demo.submitted)) = false
  /\ count isAlert (history (snd (submitChain Demo.pageB Demo.attempt Demo.submitted)))
     = 1
  /\ exists s', handleSubmit Demo.brokenTotalPage Demo.idle = (Ok None, s')
       /\ submitInProgress s' = false
       /\ count isAlert (history s') = 1.
Proof.
  destruct (single_flight_guard Demo.pageB) as (Hnoop & Hchain & _).
  destruct (single_flight_guard Demo.brokenTotalPage) as (_ & _ & _ & Hbuild).
  assert (Hreach : reachable Demo.pageB
            {| script := Demo.submitted; inFlight := [(Demo.attempt, false)] |}).
  { apply (reachable_step Demo.pageB {| script := Demo.idle; inFlight := [] |}).
    - apply reachable_init. reflexivity.
    - apply (step_submit Demo.pageB {| script := Demo.idle; inFlight := [] |}
               (Some Demo.attempt) Demo.submitted).
      reflexivity. }
  split; [exact Hreach|].
  destruct (Hnoop _ Hreach) as (_ & _ & Hignored & _); [discriminate|].
  split; [exact Hignored|].
  destruct (Hchain Demo.attempt Demo.submitted _ _ (surjective_pairing _))
    as [[Hpending _] | (Hguard & [(_ & Halerts & _) | ((msg & Hthrow) & _)])];
    [discriminate Hpending| |discriminate Hthrow].
  split; [exact Hguard|]. split; [exact Halerts|].
  apply (Hbuild Demo.idle (js "getCartTotal failed")
           (record GetCartTotal (record PreventDefault Demo.idle)));
    reflexivity.
Defined.

Lemma submitter_classifies_witness :
  validApiUrl (Some Demo.apiUrl) = true
  /\ fst (sendOrderToApi Demo.pageA (Some Demo.apiUrl) Demo.builtOrder Demo.idle)
     = Ok true
  /\ fst (sendOrderToApi Demo.pageB (Some Demo.apiUrl) Demo.builtOrder Demo.idle)
     = Ok false.
Proof.
  split; [reflexivity|]. split.
  - destruct (submitter_classifies Demo.pageA (Some Demo.apiUrl) Demo.builtOrder
                Demo.idle _ _ (surjective_pairing _))
      as (_ & _ & _ & _ & _ & _ & _ & Hok).
    apply (Hok (js "ORDER") 201%Z (js "Created") (js "not json")); reflexivity.
  - destruct (submitter_classifies Demo.pageB (Some Demo.apiUrl) Demo.builtOrder
                Demo.idle _ _ (surjective_pairing _))
      as (_ & _ & _ & _ & _ & _ & Hbad & _).
    apply (Hbad (js "ORDER") 500%Z (js "Internal Server Error") (js "{}"));
      [reflexivity | reflexivity | lia].
Defined.

Lemma fallback_decides_outcome_witness :
  getOrdersApiUrlWhenReady Demo.pageB Demo.submitted
    = (Ok (Some Demo.apiUrl), Demo.resolved)
  /\ sendOrderToApi Demo.pageB (Some Demo.apiUrl) Demo.builtOrder
       (record logResolved Demo.resolved) = (Ok false, Demo.refused)
  /\ exists s3 s',
       saveOrderToLocalStore Demo.pageB Demo.builtOrder Demo.refused = (Ok true, s3)
       /\ In (StoreAddOrder Demo.builtOrder) (history s3)
       /\ submitChain Demo.pageB Demo.attempt Demo.submitted = (Ok tt, s')
       /\ count isFallbackAttempt (history s')
          = S (count isFallbackAttempt (history Demo.submitted))
       /\ outcome (history s') = Some Success.
Proof.
  assert (Hres : getOrdersApiUrlWhenReady Demo.pageB Demo.submitted
                 = (Ok (Some Demo.apiUrl), Demo.resolved)) by reflexivity.
  assert (Hsend : sendOrderToApi Demo.pageB (Some Demo.apiUrl) Demo.builtOrder
                    (record logResolved Demo.resolved) = (Ok false, Demo.refused))
    by reflexivity.
  split; [exact Hres|]. split; [exact Hsend|].
  destruct (fallback_decides_outcome Demo.pageB Demo.attempt Demo.submitted
              (Ok (Some Demo.apiUrl)) Demo.resolved Demo.refused Hres)
    as (saved & s3 & Hsave & Hadd & Hdone).
  { right. exists (Some Demo.apiUrl). split; [reflexivity|].
    split; [reflexivity | exact Hsend]. }
  destruct (Hadd (Demo.lateStore true) (fun _ _ => true) eq_refl eq_refl)
    as (-> & Hin & _).
  destruct (Hdone (snd (done Demo.pageB Demo.attempt true s3)))
    as (Hchain & Hcount & _ & Hout & _).
  { injection Hsave as <-. reflexivity. }
  exists s3, (snd (done Demo.pageB Demo.attempt true s3)).
  split; [exact Hsave|]. split; [exact Hin|]. split; [exact Hchain|].
  split; [exact Hcount|]. now apply Hout.
Defined.

Lemma validation_short_circuits_witness :
  order_form Demo.badPhonePage = Some (Demo.form Demo.badPhone)
  /\ In 120%N (js Demo.badPhone) /\ phoneChar 120%N = false
  /\ exists m,
       validateOrderForm Demo.badPhonePage Demo.idle
       = (Ok false, record (Alert m) Demo.idle)
       /\ handleSubmit Demo.badPhonePage Demo.idle
          = (Ok None, record (Alert m) (record PreventDefault Demo.idle)).
Proof.
  assert (Hin : In 120%N (js Demo.badPhone)).
  { vm_compute. do 8 right. left. reflexivity. }
  split; [reflexivity|]. split; [exact Hin|]. split; [reflexivity|].
  destruct (validation_short_circuits Demo.badPhonePage (Demo.form Demo.badPhone)
              Demo.idle eq_refl)
    as (_ & _ & _ & _ & _ & _ & _ & Hphone).
  destruct (Hphone (js Demo.badPhone) 120%N eq_refl Hin eq_refl) as (m & Hv & Hs).
  exists m. split; [exact Hv | exact (Hs eq_refl)].
Defined.


Lemma resolver_relays_source_errors_witness :
  readiness Demo.rejectingStore Demo.idle = Ok tt
  /\ fst (getOrdersApiUrlWhenReady Demo.rejectingPage Demo.idle)
     = Throw (js "Failed to fetch")
  /\ exists o, fst (getOrdersApiUrlWhenReady Demo.pageA Demo.idle) = Ok o.
Proof.
  split; [reflexivity|]. split.
  - destruct (resolver_relays_source_errors Demo.rejectingPage Demo.idle _ _
                (surjective_pairing _)) as (_ & _ & Hrelay).
    apply (Hrelay Demo.rejectingStore _ _ eq_refl eq_refl).
    right. right. eexists. repeat split; reflexivity.
  - destruct (resolver_relays_source_errors Demo.pageA Demo.idle _ _
                (surjective_pairing _)) as (_ & Hwell & _).
    apply Hwell. intros store [= <-]. split; [|split].
    + intros ready h [= <-]. reflexivity.
    + intros getter h [= <-]. cbn. destruct (existsb isRefresh h); eexists; reflexivity.
    + intros refresh h [= <-]. reflexivity.
Defined.

End ClientProofs.

(** * More about the Orders API handler *)

Module ServerMore.
Import JSFacts JSMore Server Responses ServerProofs.

Ltac cors_headers :=
  unfold hasCors, corsHeaders;
  repeat match goal with
    | H : nonEmpty ?o = _ |- context [nonEmpty ?o] => rewrite H
    end;
  repeat constructor; cbn [fst snd];
  repeat (rewrite assoc_get_set_other by discriminate);
  apply assoc_get_set_same.

(** With an origin to echo, every path of the handler ends with one
    payload sent under the CORS headers, or waits for GitHub for ever. *)
Lemma handler_outcome env req origin s r s' :
  requestOrigin env req = Ok origin ->
  handler env req s = (r, s') ->
  (r = Ok tt /\ (exists p, res_sent s' = p :: res_sent s)
   /\ hasCors origin (res_headers s'))
  \/ (r = Pending /\ res_sent s' = res_sent s).
Proof.
  intros Ho Hrun. unfold handler in Hrun. rewrite Ho in Hrun.
  unfold saveOrder, putFile, getFile, response_json, await_fetch, fetch in Hrun.
  run.
  repeat (case_match; run; simplify_eq);
    first [ right; split; reflexivity
          | left; split; [reflexivity|]; split; [eexists; reflexivity|]; cors_headers ].
Qed.

Lemma requestOrigin_throws env req msg :
  requestOrigin env req = Throw msg <->
  truthyStr (hdr_origin req) = false /\ truthyStr (hdr_referer req) = true
  /\ URL_origin env (default [] (hdr_referer req)) = None /\ msg = js "Invalid URL".
Proof.
  unfold requestOrigin.
  destruct (truthyStr (hdr_origin req)), (truthyStr (hdr_referer req));
    try destruct (URL_origin env _); split; intros H;
    try discriminate; try (destruct H as (? & ? & ? & ?); discriminate).
  - injection H as <-. auto.
  - destruct H as (_ & _ & _ & ->). reflexivity.
Qed.

Lemma requestOrigin_settles env req : requestOrigin env req <> Pending.
Proof.
  unfold requestOrigin.
  destruct (truthyStr (hdr_origin req)), (truthyStr (hdr_referer req));
    try destruct (URL_origin env _); discriminate.
Qed.

(** X1. When the origin of the request can be computed, the handler never
    throws: every failure is answered.  If it returns it has sent exactly
    one payload, and if it never returns (a request to GitHub hangs) it
    has sent none. *)
Theorem handler_answers_once env req origin s r s' :
  requestOrigin env req = Ok origin ->
  handler env req s = (r, s') ->
  (forall msg, r <> Throw msg)
  /\ (r = Ok tt -> exists p, res_sent s' = p :: res_sent s)
  /\ (r = Pending -> res_sent s' = res_sent s).
Proof.
  intros Ho Hrun.
  destruct (handler_outcome _ _ _ _ _ _ Ho Hrun) as [(-> & Hp & _) | (-> & Hs)];
    repeat split; try discriminate; auto.
Qed.

(** X2. Every answer of the handler, the errors and the pre-flight answer
    included, carries the four CORS headers of [corsHeaders], with the
    origin of the request as allowed origin, or [*] when that is empty. *)
Theorem every_answer_has_cors env req origin s s' :
  requestOrigin env req = Ok origin ->
  handler env req s = (Ok tt, s') ->
  hasCors origin (res_headers s')
  /\ assoc_get (js "Access-Control-Allow-Origin") (res_headers s')
     = Some (if nonEmpty origin then origin else js "*")
  /\ assoc_get (js "Access-Control-Allow-Methods") (res_headers s')
     = Some (js "GET, POST, OPTIONS").
Proof.
  intros Ho Hrun.
  destruct (handler_outcome _ _ _ _ _ _ Ho Hrun) as [(_ & _ & Hc) | ([=] & _)].
  split; [exact Hc|].
  unfold hasCors, corsHeaders in Hc.
  inversion Hc as [|? ? H1 Hc1]; subst. inversion Hc1 as [|? ? H2 _]; subst.
  split; [exact H1 | exact H2].
Qed.

(** X3. The handler throws exactly when it has to parse the [Referer]
    header (there is no [Origin] header) and that header is not a URL.  It
    then throws before anything else: nothing is sent, logged or
    requested. *)
Theorem handler_throws_iff_referer env req s :
  (exists msg, fst (handler env req s) = Throw msg)
  <-> (truthyStr (hdr_origin req) = false /\ truthyStr (hdr_referer req) = true
       /\ URL_origin env (default [] (hdr_referer req)) = None).
Proof.
  split.
  - intros [msg Hthrow].
    destruct (requestOrigin env req) as [origin|m|] eqn:Ho.
    + destruct (handler env req s) as [r s'] eqn:Hrun. simpl in Hthrow. subst r.
      destruct (handler_outcome _ _ _ _ _ _ Ho Hrun) as [([=] & _) | ([=] & _)].
    + apply requestOrigin_throws in Ho. tauto.
    + now apply requestOrigin_settles in Ho.
  - intros (H1 & H2 & H3). exists (js "Invalid URL").
    unfold handler, requestOrigin. rewrite H1, H2, H3. reflexivity.
Qed.

(** X4. Before any other check: [OPTIONS] is answered 204 with an empty
    body, and a method other than [OPTIONS] and [POST] is answered 405,
    whatever the deployment and the body; neither logs nor calls GitHub. *)
Theorem method_dispatch env req origin s :
  requestOrigin env req = Ok origin ->
  (req_method req = js "OPTIONS" ->
   exists s', handler env req s = (Ok tt, s')
     /\ res_statusCode s' = 204%Z /\ res_sent s' = EmptyBody :: res_sent s
     /\ github_calls s' = github_calls s /\ console s' = console s)
  /\ (req_method req <> js "OPTIONS" -> req_method req <> js "POST" ->
      exists s', handler env req s = (Ok tt, s')
        /\ res_statusCode s' = 405%Z
        /\ res_sent s' = JsonBody (errorBody "Method not allowed") :: res_sent s
        /\ github_calls s' = github_calls s /\ console s' = console s).
Proof.
  intros Ho. split.
  - intros Hm. unfold handler. rewrite Ho, Hm. js_literals. run.
    eexists. split; [reflexivity|]. cbn. auto.
  - intros Hopt Hpost. unfold handler. rewrite Ho.
    rewrite !jsstring_eqb_neq by assumption. run.
    eexists. split; [reflexivity|]. cbn. auto.
Qed.

(** X5. On a configured deployment a POST is answered 400, without a call
    to GitHub: with 'Invalid JSON body' when the body is a string that
    [JSON.parse] rejects, and also when it is an array, a boolean or a
    number; with 'Request body must be a JSON object' when the body is
    missing or parses to a falsy value or a primitive; and with 'Order
    must include fullName and phone' when it is a blank string, which
    counts as the empty object. *)
Theorem body_shapes_rejected env req origin s :
  req_method req = js "POST" ->
  requestOrigin env req = Ok origin ->
  configured env = true ->
  (forall raw, req_body req = VStr raw -> nonEmpty (trim raw) = true ->
     JSON_parse env raw = None ->
     rejected400 env req s "Invalid JSON body")
  /\ ((exists l, req_body req = VArr l) \/ (exists b, req_body req = VBool b)
      \/ (exists z, req_body req = VNum z) ->
      rejected400 env req s "Invalid JSON body")
  /\ (req_body req = VUndef \/ req_body req = VNull ->
      rejected400 env req s "Request body must be a JSON object")
  /\ (forall raw v, req_body req = VStr raw -> nonEmpty (trim raw) = true ->
        JSON_parse env raw = Some v -> truthy v && typeofObject v = false ->
        rejected400 env req s "Request body must be a JSON object")
  /\ (forall raw, req_body req = VStr raw -> forallb isWhiteSpace raw = true ->
        rejected400 env req s "Order must include fullName and phone").
Proof.
  intros Hm Ho Hc.
  assert (Hthrow : forall msg, parseBody env req = Throw msg ->
            rejected400 env req s "Invalid JSON body").
  { intros msg Hp. unfold rejected400, handler. rewrite Hm, Ho, Hc, Hp. js_literals. run.
    eexists. split; [reflexivity|]. cbn. auto. }
  assert (Hobj : forall v, parseBody env req = Ok v ->
            truthy v && typeofObject v = false ->
            rejected400 env req s "Request body must be a JSON object").
  { intros v Hp Hv. unfold rejected400, handler. rewrite Hm, Ho, Hc, Hp. js_literals. run.
    rewrite <- negb_andb, Hv. run.
    eexists. split; [reflexivity|]. cbn. auto. }
  split; [|split; [|split; [|split]]].
  - intros raw Hb Hne Hparse. apply (Hthrow (js "Invalid JSON body")).
    unfold parseBody. now rewrite Hb, Hne, Hparse.
  - intros [[l Hb] | [[b Hb] | [z Hb]]];
      apply (Hthrow (js "Unsupported body type")); unfold parseBody; now rewrite Hb.
  - intros [Hb | Hb]; apply (Hobj VNull); try reflexivity;
      unfold parseBody; now rewrite Hb.
  - intros raw v Hb Hne Hparse Hv. apply (Hobj v); [|exact Hv].
    unfold parseBody. now rewrite Hb, Hne, Hparse.
  - intros raw Hb Hblank.
    assert (Hp : parseBody env req = Ok (VObj [])).
    { unfold parseBody. now rewrite Hb, (trim_blank _ Hblank). }
    unfold rejected400, handler. rewrite Hm, Ho, Hc, Hp. js_literals. run.
    eexists. split; [reflexivity|]. cbn. auto.
Qed.

(** X6. GitHub is contacted only for an accepted order: a request that
    fails one of the checks of lines 79-130 makes no request to the
    store. *)
Theorem github_only_for_accepted env req s r s' :
  acceptedOrder env req = None ->
  handler env req s = (r, s') ->
  github_calls s' = github_calls s.
Proof.
  unfold acceptedOrder, handler. intros Hacc Hrun.
  destruct (requestOrigin env req) as [origin|msg|] eqn:Ho; run;
    [|now simplify_eq..].
  destruct (jsstring_eqb (req_method req) (js "OPTIONS")) eqn:Hopt;
    [run; now simplify_eq|].
  destruct (jsstring_eqb (req_method req) (js "POST")) eqn:Hpost;
    [|run; now simplify_eq].
  destruct (configured env); [|run; now simplify_eq].
  destruct (parseBody env req) as [order|msg|]; run; [|now simplify_eq..].
  destruct (truthy order), (typeofObject order); run; try now simplify_eq.
  unfold field in *. rewrite <- negb_orb in Hrun.
  destruct (_ || _); [discriminate|]. run. now simplify_eq.
Qed.

(** X7. For an accepted order the handler makes one read and at most one
    write, never a retry, and it writes only after a read that gave a
    document to which the order could be added: when the read fails, the
    content cannot be decoded or parsed, or the document is [null] or a
    primitive, the store is left as it was. *)
Theorem write_needs_read env req origin order s r s' :
  acceptedOrder env req = Some (origin, order) ->
  handler env req s = (r, s') ->
  github_calls s' = readCall env :: github_calls s
  \/ (exists file data data',
        readDocument env (github_calls s) = Some (file, data)
        /\ prependOrder (assignIdentity env order) data = Ok data'
        /\ github_calls s'
           = writeCall env file data' (assignIdentity env order)
               :: readCall env :: github_calls s).
Proof.
  intros Hacc Hrun.
  pose proof (handler_read_modify_write _ _ _ _ _ _ _ Hacc Hrun) as H.
  cbv zeta in H.
  destruct (readDocument env (github_calls s)) as [[file data]|];
    [|left; tauto].
  destruct (prependOrder (assignIdentity env order) data) as [data'|msg|] eqn:Hp;
    [|left; tauto|contradiction].
  destruct (commitMessage env (assignIdentity env order)); [|left; tauto].
  right. exists file, data, data'. tauto.
Qed.

Lemma assigned_id_truthy env fs :
  truthy (field (js "id") (assignIdentity env (VObj fs))) = true.
Proof.
  destruct (assignIdentity_object env fs) as (fs' & -> & Hid & _).
  rewrite Hid. unfold or_else.
  destruct (truthy (field (js "id") (VObj fs))) eqn:E; [exact E|reflexivity].
Qed.

(** X8. When the commit message can be built and the store accepts the
    write with an answer that is JSON, the handler answers 200 with
    [success] and [ok] true and with the id under which the order was
    stored; that id is never missing or empty. *)
Theorem success_answer env req origin order s r s' file data data' message st text v :
  acceptedOrder env req = Some (origin, order) ->
  handler env req s = (r, s') ->
  readDocument env (github_calls s) = Some (file, data) ->
  prependOrder (assignIdentity env order) data = Ok data' ->
  commitMessage env (assignIdentity env order) = Some message ->
  github env (readCall env :: github_calls s)
    (writeCall env file data' (assignIdentity env order)) = HttpResponse st text ->
  ok st = true ->
  JSON_parse env text = Some v ->
  r = Ok tt
  /\ res_statusCode s' = 200%Z
  /\ res_sent s'
     = JsonBody (VObj [ (js "success", VBool true); (js "ok", VBool true);
                        (js "id", field (js "id") (assignIdentity env order)) ])
         :: res_sent s
  /\ truthy (field (js "id") (assignIdentity env order)) = true.
Proof.
  intros Hacc Hrun Hread Hprep Hm Hput Hok Hjson.
  pose proof (handler_read_modify_write _ _ _ _ _ _ _ Hacc Hrun) as H.
  cbv zeta in H. rewrite Hread, Hprep, Hm in H.
  destruct H as (_ & _ & Haccepted).
  destruct (Haccepted _ _ _ Hput Hok Hjson) as (Hr & Hst & Hsent).
  repeat split; try assumption.
  destruct (accepted_inv _ _ _ _ Hacc) as (_ & _ & _ & _ & fs & -> & _).
  apply assigned_id_truthy.
Qed.

(** X9. When the shared document is a JSON array and the commit message
    can be built, the handler writes that array back as it read it,
    without the order, and answers 200 when the store accepts the write
    with an answer that is JSON. *)
Theorem array_document_drops_order env req origin order s r s' file l message st text v :
  acceptedOrder env req = Some (origin, order) ->
  handler env req s = (r, s') ->
  readDocument env (github_calls s) = Some (file, VArr l) ->
  commitMessage env (assignIdentity env order) = Some message ->
  github env (readCall env :: github_calls s)
    (writeCall env file (VArr l) (assignIdentity env order)) = HttpResponse st text ->
  ok st = true ->
  JSON_parse env text = Some v ->
  github_calls s'
  = writeCall env file (VArr l) (assignIdentity env order)
      :: readCall env :: github_calls s
  /\ get_prop (js "content") (writeBody env file (VArr l) (assignIdentity env order))
     = Some (VStr (base64_encode env (JSON_stringify_indent2 env (VArr l))))
  /\ r = Ok tt /\ res_statusCode s' = 200%Z.
Proof.
  intros Hacc Hrun Hread Hm Hput Hok Hjson.
  pose proof (handler_read_modify_write _ _ _ _ _ _ _ Hacc Hrun) as H.
  cbv zeta in H. rewrite Hread in H. cbn [prependOrder] in H. rewrite Hm in H.
  destruct H as (Hcalls & _ & Haccepted).
  destruct (Haccepted _ _ _ Hput Hok Hjson) as (Hr & Hst & _).
  split; [exact Hcalls|]. split; [apply putBody_content|]. auto.
Qed.

Lemma assoc_set_same {V} k (v : V) fs :
  assoc_get k fs = Some v -> assoc_set k v fs = fs.
Proof.
  induction fs as [|[k' v'] fs IH]; simpl; [discriminate|].
  destruct (jsstring_eqb k k') eqn:E.
  - now intros [= ->].
  - intros H. now rewrite IH.
Qed.

Lemma field_truthy_get k fs :
  truthy (field k (VObj fs)) = true ->
  assoc_get k fs = Some (field k (VObj fs)).
Proof.
  unfold field. simpl. destruct (assoc_get k fs); [reflexivity|discriminate].
Qed.

(** X10. Identity is assigned once: an order that has gone through lines
    132-133 comes out of them unchanged when it goes through again, at
    whatever time. *)
Theorem identity_assigned_once env env' fs :
  assignIdentity env' (assignIdentity env (VObj fs)) = assignIdentity env (VObj fs).
Proof.
  destruct (assignIdentity_object env fs) as (fs' & Heq & Hid & Hst & _).
  rewrite Heq.
  assert (Tid : truthy (field (js "id") (VObj fs')) = true).
  { rewrite <- Heq. apply assigned_id_truthy. }
  assert (Tst : truthy (field (js "status") (VObj fs')) = true).
  { rewrite Hst. unfold or_else.
    destruct (truthy (field (js "status") (VObj fs))) eqn:E; [exact E|reflexivity]. }
  unfold assignIdentity, or_else. rewrite Tid.
  cbn [set_field]. rewrite (assoc_set_same _ _ _ (field_truthy_get _ _ Tid)).
  rewrite Tst. cbn [set_field].
  now rewrite (assoc_set_same _ _ _ (field_truthy_get _ _ Tst)).
Qed.

(** X11. The branch of the read is never empty and has no whitespace
    around it: it is [main] when [GITHUB_BRANCH] is missing or blank, and
    the trimmed variable otherwise. *)
Theorem branch_default env :
  nonEmpty (branchOf env) = true
  /\ (forall x l, branchOf env = x :: l -> isWhiteSpace x = false)
  /\ (forall l x, branchOf env = l ++ [x] -> isWhiteSpace x = false)
  /\ (GITHUB_BRANCH env = None -> branchOf env = js "main")
  /\ (forall b, GITHUB_BRANCH env = Some b -> forallb isWhiteSpace b = true ->
        branchOf env = js "main")
  /\ (forall b, GITHUB_BRANCH env = Some b -> nonEmpty (trim b) = true ->
        branchOf env = trim b).
Proof.
  unfold branchOf. cbv zeta.
  match goal with |- context [trim ?x] => set (b0 := x) end.
  split; [|split; [|split; [|split; [|split]]]].
  - destruct (nonEmpty (trim b0)) eqn:E; [exact E|reflexivity].
  - intros x l. destruct (nonEmpty (trim b0)).
    + apply trim_first.
    + now intros [= <- _].
  - intros l x. destruct (nonEmpty (trim b0)).
    + apply trim_last.
    + intros H. apply (f_equal (@rev jschar)) in H.
      rewrite rev_app_distr in H. now injection H as <- _.
  - intros Hb. subst b0. rewrite Hb. reflexivity.
  - intros b Hb Hblank. subst b0. rewrite Hb. cbn -[trim].
    destruct (nonEmpty b); [now rewrite (trim_blank _ Hblank)|reflexivity].
  - intros b Hb Hne. subst b0. rewrite Hb. cbn -[trim].
    destruct (nonEmpty b) eqn:E; [now rewrite Hne|].
    destruct b; [discriminate Hne|discriminate E].
Qed.

(** ** The theorems at concrete requests *)

Lemma handler_answers_once_witness :
  requestOrigin (Demo.serverEnv 200) Demo.orderRequest = Ok Demo.shopOrigin
  /\ exists p,
       res_sent (snd (handler (Demo.serverEnv 200) Demo.orderRequest init)) = [p].
Proof.
  split; [reflexivity|].
  destruct (handler_answers_once (Demo.serverEnv 200) Demo.orderRequest
              Demo.shopOrigin init _ _ eq_refl (surjective_pairing _))
    as (_ & Hok & _).
  apply Hok. reflexivity.
Defined.

Lemma every_answer_has_cors_witness :
  handler Demo.unconfiguredEnv Demo.orderRequest init
  = (Ok tt, snd (handler Demo.unconfiguredEnv Demo.orderRequest init))
  /\ res_statusCode (snd (handler Demo.unconfiguredEnv Demo.orderRequest init))
     = 500%Z
  /\ assoc_get (js "Access-Control-Allow-Origin")
       (res_headers (snd (handler Demo.unconfiguredEnv Demo.orderRequest init)))
     = Some Demo.shopOrigin.
Proof.
  assert (Hrun : handler Demo.unconfiguredEnv Demo.orderRequest init
                 = (Ok tt, snd (handler Demo.unconfiguredEnv Demo.orderRequest init)))
    by reflexivity.
  split; [exact Hrun|]. split; [reflexivity|].
  destruct (every_answer_has_cors Demo.unconfiguredEnv Demo.orderRequest
              Demo.shopOrigin init _ eq_refl Hrun) as (_ & Horigin & _).
  exact Horigin.
Defined.

Lemma handler_throws_iff_referer_witness :
  (exists msg,
     fst (handler (Demo.serverEnv 200) Demo.badRefererRequest init) = Throw msg)
  /\ ~ (exists msg,
          fst (handler (Demo.serverEnv 200) Demo.orderRequest init) = Throw msg).
Proof.
  split.
  - apply (handler_throws_iff_referer (Demo.serverEnv 200) Demo.badRefererRequest init).
    repeat split; reflexivity.
  - intros H.
    apply (handler_throws_iff_referer (Demo.serverEnv 200) Demo.orderRequest init) in H
      as (H & _).
    discriminate H.
Defined.

Lemma method_dispatch_witness :
  requestOrigin Demo.unconfiguredEnv Samples.preflight = Ok Demo.shopOrigin
  /\ requestOrigin Demo.unconfiguredEnv Samples.deleteRequest = Ok (js "*")
  /\ res_statusCode (snd (handler Demo.unconfiguredEnv Samples.preflight init))
     = 204%Z
  /\ res_sent (snd (handler Demo.unconfiguredEnv Samples.deleteRequest init))
     = [JsonBody (errorBody "Method not allowed")].
Proof.
  split; [reflexivity|]. split; [reflexivity|]. split.
  - destruct (method_dispatch Demo.unconfiguredEnv Samples.preflight
                Demo.shopOrigin init eq_refl) as (Hopt & _).
    destruct (Hopt eq_refl) as (s' & Hrun & Hst & _).
    rewrite Hrun. exact Hst.
  - destruct (method_dispatch Demo.unconfiguredEnv Samples.deleteRequest
                (js "*") init eq_refl) as (_ & Hother).
    destruct Hother as (s' & Hrun & _ & Hsent & _);
      [vm_compute; discriminate | vm_compute; discriminate |].
    rewrite Hrun. exact Hsent.
Defined.

Lemma body_shapes_rejected_witness :
  configured (Demo.serverEnv 200) = true
  /\ rejected400 (Demo.serverEnv 200) Samples.garbageBodyRequest init
       "Invalid JSON body"
  /\ rejected400 (Demo.serverEnv 200) Samples.arrayBodyRequest init
       "Invalid JSON body"
  /\ rejected400 (Demo.serverEnv 200) Samples.noBodyRequest init
       "Request body must be a JSON object"
  /\ rejected400 (Demo.serverEnv 200) Samples.blankBodyRequest init
       "Order must include fullName and phone".
Proof.
  split; [reflexivity|]. split; [|split; [|split]].
  - destruct (body_shapes_rejected (Demo.serverEnv 200) Samples.garbageBodyRequest
                Demo.shopOrigin init eq_refl eq_refl eq_refl) as (Hbad & _).
    apply (Hbad (js "{fullName")); reflexivity.
  - destruct (body_shapes_rejected (Demo.serverEnv 200) Samples.arrayBodyRequest
                Demo.shopOrigin init eq_refl eq_refl eq_refl) as (_ & Harr & _).
    apply Harr. left. eexists. reflexivity.
  - destruct (body_shapes_rejected (Demo.serverEnv 200) Samples.noBodyRequest
                Demo.shopOrigin init eq_refl eq_refl eq_refl) as (_ & _ & Hnone & _).
    apply Hnone. left. reflexivity.
  - destruct (body_shapes_rejected (Demo.serverEnv 200) Samples.blankBodyRequest
                Demo.shopOrigin init eq_refl eq_refl eq_refl)
      as (_ & _ & _ & _ & Hblank).
    apply (Hblank (js "  ")); reflexivity.
Defined.

Lemma github_only_for_accepted_witness :
  acceptedOrder Demo.unconfiguredEnv Demo.orderRequest = None
  /\ acceptedOrder (Demo.serverEnv 200) Demo.badRefererRequest = None
  /\ github_calls (snd (handler Demo.unconfiguredEnv Demo.orderRequest init)) = []
  /\ github_calls (snd (handler (Demo.serverEnv 200) Demo.badRefererRequest init))
     = [].
Proof.
  split; [reflexivity|]. split; [reflexivity|]. split.
  - exact (github_only_for_accepted Demo.unconfiguredEnv Demo.orderRequest init
             _ _ eq_refl (surjective_pairing _)).
  - exact (github_only_for_accepted (Demo.serverEnv 200) Demo.badRefererRequest init
             _ _ eq_refl (surjective_pairing _)).
Defined.

Lemma write_needs_read_witness :
  acceptedOrder Samples.missingFileEnv Demo.orderRequest
  = Some (Demo.shopOrigin, Demo.amalOrder)
  /\ readDocument Samples.missingFileEnv [] = None
  /\ github_calls (snd (handler Samples.missingFileEnv Demo.orderRequest init))
     = [readCall Samples.missingFileEnv].
Proof.
  assert (Hread : readDocument Samples.missingFileEnv (github_calls init) = None)
    by reflexivity.
  split; [reflexivity|]. split; [exact Hread|].
  destruct (write_needs_read Samples.missingFileEnv Demo.orderRequest
              Demo.shopOrigin Demo.amalOrder init _ _ eq_refl (surjective_pairing _))
    as [Hcalls | (file & data & data' & Hdoc & _)].
  - exact Hcalls.
  - rewrite Hread in Hdoc. discriminate Hdoc.
Defined.

Lemma success_answer_witness :
  acceptedOrder (Demo.serverEnv 200) Demo.orderRequest
  = Some (Demo.shopOrigin, Demo.amalOrder)
  /\ res_statusCode (snd (handler (Demo.serverEnv 200) Demo.orderRequest init))
     = 200%Z
  /\ res_sent (snd (handler (Demo.serverEnv 200) Demo.orderRequest init))
     = [ JsonBody (VObj [ (js "success", VBool true); (js "ok", VBool true);
                          (js "id", VStr (js "ord-1700000000000")) ]) ].
Proof.
  split; [reflexivity|].
  destruct (success_answer (Demo.serverEnv 200) Demo.orderRequest Demo.shopOrigin
              Demo.amalOrder init _ _ Demo.file Demo.document
              (Demo.documentAfter Demo.amalStored)
              (js "Add order ord-1700000000000") 200%Z (js "{}") (VObj [])
              eq_refl (surjective_pairing _) eq_refl eq_refl eq_refl eq_refl eq_refl
              eq_refl)
    as (_ & Hst & Hsent & _).
  split; [exact Hst | exact Hsent].
Defined.

Lemma array_document_drops_order_witness :
  readDocument Samples.arrayDocumentEnv [] = Some (Demo.file, VArr [Demo.oldOrder])
  /\ github_calls (snd (handler Samples.arrayDocumentEnv Demo.orderRequest init))
     = [ writeCall Samples.arrayDocumentEnv Demo.file (VArr [Demo.oldOrder])
           Demo.amalStored;
         readCall Samples.arrayDocumentEnv ]
  /\ get_prop (js "content")
       (writeBody Samples.arrayDocumentEnv Demo.file (VArr [Demo.oldOrder])
          Demo.amalStored)
     = Some (VStr (Demo.printJson (VArr [Demo.oldOrder])))
  /\ res_statusCode (snd (handler Samples.arrayDocumentEnv Demo.orderRequest init))
     = 200%Z.
Proof.
  assert (Hread : readDocument Samples.arrayDocumentEnv (github_calls init)
                  = Some (Demo.file, VArr [Demo.oldOrder])) by reflexivity.
  split; [exact Hread|].
  destruct (array_document_drops_order Samples.arrayDocumentEnv Demo.orderRequest
              Demo.shopOrigin Demo.amalOrder init _ _ Demo.file [Demo.oldOrder]
              (js "Add order ord-1700000000000") 200%Z (js "{}") (VObj [])
              eq_refl (surjective_pairing _) Hread eq_refl eq_refl eq_refl eq_refl)
    as (Hcalls & Hcontent & _ & Hst).
  split; [exact Hcalls|]. split; [exact Hcontent | exact Hst].
Defined.

Lemma branch_default_witness :
  branchOf Samples.arrayDocumentEnv = js "release"
  /\ branchOf (Demo.serverEnv 200) = js "main".
Proof.
  destruct (branch_default Samples.arrayDocumentEnv) as (_ & _ & _ & _ & _ & Hset).
  destruct (branch_default (Demo.serverEnv 200)) as (_ & _ & _ & Hnone & _).
  split.
  - rewrite (Hset (js " release ") eq_refl eq_refl). reflexivity.
  - apply Hnone. reflexivity.
Defined.

End ServerMore.

(** * More about the order form script *)

Module ClientMore.
Import JSFacts JSMore Client Observations Checkout ClientProofs.
Local Open Scope nat_scope.

(** ** The end of an attempt *)

Lemma untouched_refl s : untouched s s.
Proof. unfold untouched. tauto. Qed.

Lemma untouched_trans s1 s2 s3 : untouched s1 s2 -> untouched s2 s3 -> untouched s1 s3.
Proof. unfold untouched. intuition congruence. Qed.

Ltac untouched_leaf := unfold untouched, count; cbn; tauto.

Lemma untouched_log line s : untouched s (record (ConsoleLog line) s).
Proof. untouched_leaf. Qed.

Lemma untouched_logError line s : untouched s (record (ConsoleError line) s).
Proof. untouched_leaf. Qed.

Lemma resolver_untouched env s r s' :
  getOrdersApiUrlWhenReady env s = (r, s') -> untouched s s'.
Proof. intros Hrun. resolver_cases Hrun; untouched_leaf. Qed.

Lemma submitter_untouched env apiUrl order s r s' :
  sendOrderToApi env apiUrl order s = (r, s') -> untouched s s'.
Proof.
  intros Hrun. unfold sendOrderToApi, onResponse in Hrun.
  repeat (case_match; simplify_eq); run; simplify_eq;
    repeat (case_match; simplify_eq; run; simplify_eq); untouched_leaf.
Qed.

Lemma save_untouched env order s r s' :
  saveOrderToLocalStore env order s = (r, s') -> untouched s s'.
Proof.
  unfold saveOrderToLocalStore. intros Hrun.
  repeat (case_match; simplify_eq); run; simplify_eq;
    repeat (case_match; simplify_eq; run; simplify_eq); untouched_leaf.
Qed.

(** What [done(saved)] leaves behind when it returns. *)
Lemma done_state env a saved s s' :
  done env a saved s = (Ok tt, s') ->
  submitInProgress s' = false
  /\ checkoutCart s'
     = (if saved && sessionStorage_available env then None else checkoutCart s)
  /\ submitBtn s'
     = (if saved
        then (if hasSubmitBtn a then enabled (originalText a) (submitBtn s)
              else submitBtn s)
        else enabled (localize env "confirmOrder" "Confirm Order") (submitBtn s))
  /\ count isNavigation (history s')
     = (if saved then 1 else 0) + count isNavigation (history s)
  /\ count isCartReset (history s')
     = (if saved
        then match clearCartAfterOrder env with Some _ => 1 | None => 0 end
        else 0)
       + count isCartReset (history s)
  /\ outcome (history s') = Some (if saved then Success else Failed).
Proof.
  unfold done, finishOrderSuccess, finishOrderFailure, set_submitInProgress,
    set_button, set_disabled, set_textContent, removeCheckoutCart, enabled,
    localize, domString.
  intros Hrun. destruct saved; run;
    repeat (case_match; run; simplify_eq);
    unfold count; cbn; repeat split.
Qed.

(** With collaborators that return, a chain that settles ends in the one
    call of [done] it makes, in a state that the resolver, the submitter
    and the local store have left untouched. *)
Lemma submitChain_ends_in_done env a s s' :
  collaboratorsReturn env ->
  submitChain env a s = (Ok tt, s') ->
  exists s0 saved, untouched s s0 /\ done env a saved s0 = (Ok tt, s').
Proof.
  intros Hc.
  assert (Htail : forall s0 s1,
            untouched s s0 -> fallbackAndDone env a s0 = (Ok tt, s1) ->
            exists s2 saved, untouched s s2 /\ done env a saved s2 = (Ok tt, s1)).
  { intros s0 s1 Hu Hrun. unfold fallbackAndDone, bind in Hrun.
    destruct (saveOrderToLocalStore env (orderData a) s0) as [[saved|?|] s2] eqn:Hsave;
      try discriminate.
    exists s2, saved. split; [|exact Hrun].
    eapply untouched_trans; eauto using save_untouched. }
  assert (Hfall : forall s0 m s1, fallbackAndDone env a s0 <> (Throw m, s1)).
  { intros s0 m s1. unfold fallbackAndDone, bind.
    destruct (save_spec env (orderData a) s0) as (saved & s2 & -> & _).
    destruct (done_returns env a saved s2 Hc) as (s3 & ->). discriminate. }
  destruct (getOrdersApiUrlWhenReady env s) as [[u|m|] s1] eqn:Hres;
    pose proof (resolver_untouched _ _ _ _ Hres) as Hq1.
  - destruct (truthyUrl u) eqn:Hu.
    + destruct (sendOrderToApi env u (orderData a) (record logResolved s1))
        as [[apiOk|m|] s2] eqn:Hsend.
      * rewrite (chain_after_submitter _ _ _ _ _ _ _ Hres Hu Hsend).
        pose proof (submitter_untouched _ _ _ _ _ _ Hsend) as Hq2.
        assert (Hq : untouched s s2).
        { eapply untouched_trans; [exact Hq1|].
          eapply untouched_trans; [|exact Hq2]. apply untouched_log. }
        unfold try_catch. destruct apiOk.
        -- destruct (done_returns env a true s2 Hc) as (s3 & Hd).
           rewrite Hd. intros [= <-]. eauto.
        -- destruct (fallbackAndDone env a s2) as [[[]|m|] s3] eqn:Hf.
           ++ intros [= <-]. eauto.
           ++ exfalso. eapply Hfall; eauto.
           ++ discriminate.
      * apply submitter_quiet in Hsend as [_ Hnothrow].
        exfalso. eapply Hnothrow. reflexivity.
      * unfold submitChain. unfold try_catch at 1. unfold bind at 1.
        rewrite Hres, Hu. unfold bind at 1, log, emit, modify. unfold bind at 1.
        unfold logResolved in Hsend. rewrite Hsend. discriminate.
    + rewrite (chain_without_url _ _ _ _ _ Hres Hu). unfold try_catch.
      destruct (fallbackAndDone env a (record logNoUrl s1)) as [[[]|m|] s3] eqn:Hf.
      * intros [= <-]. eapply Htail; [|exact Hf].
        eapply untouched_trans; [exact Hq1|]. apply untouched_log.
      * exfalso. eapply Hfall; eauto.
      * discriminate.
  - rewrite (chain_after_rejection _ _ _ _ _ Hres).
    unfold onFlowError. unfold bind at 1, logError, emit, modify.
    intros Hrun. eapply Htail; [|exact Hrun].
    eapply untouched_trans; [exact Hq1|]. apply untouched_logError.
  - unfold submitChain. unfold try_catch at 1. unfold bind at 1. rewrite Hres.
    discriminate.
Qed.

(** X12. How an attempt leaves the page, when the localisation function
    and [clearCartAfterOrder] return.  Its chain is never rejected.  When
    it is fulfilled the guard is clear.  After Failed the cart snapshot is
    still in [sessionStorage], the button is enabled again under the label
    'Confirm Order' (the localised one when there is one, not the text it
    had before the attempt), and the page has not navigated, so that the
    user can submit again.  After Success the snapshot is removed (when
    storage can be reached), [clearCartAfterOrder] has been called once if
    it is defined, and the page has navigated once. *)
Theorem attempt_end_state env a s r s' :
  collaboratorsReturn env ->
  submitChain env a s = (r, s') ->
  (forall msg, r <> Throw msg)
  /\ (r = Ok tt ->
      submitInProgress s' = false
      /\ (outcome (history s') = Some Failed ->
          checkoutCart s' = checkoutCart s
          /\ submitBtn s'
             = enabled (localize env "confirmOrder" "Confirm Order") (submitBtn s)
          /\ count isNavigation (history s') = count isNavigation (history s)
          /\ count isCartReset (history s') = count isCartReset (history s))
      /\ (outcome (history s') = Some Success ->
          checkoutCart s'
          = (if sessionStorage_available env then None else checkoutCart s)
          /\ count isNavigation (history s') = S (count isNavigation (history s))
          /\ count isCartReset (history s')
             = match clearCartAfterOrder env with Some _ => 1 | None => 0 end
               + count isCartReset (history s))).
Proof.
  intros Hc Hrun. split; [eapply submitChain_fulfilled; eauto|].
  intros ->.
  destruct (submitChain_ends_in_done _ _ _ _ Hc Hrun) as (s0 & saved & Hq & Hd).
  destruct (done_state _ _ _ _ _ Hd) as (Hg & Hcart & Hbtn & Hnav & Hreset & Hout).
  destruct Hq as (_ & Hb0 & Hc0 & _ & Hn0 & Hr0).
  split; [exact Hg|]. rewrite Hout.
  split; intros Ho; destruct saved; try discriminate Ho; cbn in *.
  - rewrite Hcart, Hbtn, Hnav, Hreset, Hb0, Hc0, Hn0, Hr0. auto.
  - rewrite Hcart, Hnav, Hreset, Hc0, Hn0, Hr0. auto.
Qed.

(** X13. When the resolver yields a URL and the submitter returns [true],
    the chain calls [done(true)].  When that returns, the chain ends
    there: the attempt ends in Success and the local store is not tried.
    When it throws (in [clearCartAfterOrder], or in [t]), the [catch] of
    lines 301-305 runs: the order that the endpoint has accepted is also
    passed to [saveOrderToLocalStore]. *)
Theorem remote_success_skips_fallback env a s u s1 s2 r s3 :
  getOrdersApiUrlWhenReady env s = (Ok u, s1) ->
  truthyUrl u = true ->
  sendOrderToApi env u (orderData a) (record logResolved s1) = (Ok true, s2) ->
  done env a true s2 = (r, s3) ->
  (r = Ok tt ->
   submitChain env a s = (Ok tt, s3)
   /\ outcome (history s3) = Some Success
   /\ count isFallbackAttempt (history s3) = count isFallbackAttempt (history s)
   /\ count isAddOrder (history s3) = count isAddOrder (history s))
  /\ (forall msg, r = Throw msg ->
      submitChain env a s = onFlowError env a s3
      /\ count isFallbackAttempt (history (snd (submitChain env a s)))
         = S (count isFallbackAttempt (history s))).
Proof.
  intros Hres Hu Hsend Hd.
  pose proof (chain_after_submitter _ _ _ _ _ _ _ Hres Hu Hsend) as Hchain.
  unfold try_catch in Hchain. rewrite Hd in Hchain.
  destruct (done_spec _ _ _ _ _ _ Hd) as (_ & Hf & Ha & _ & Hend).
  apply resolver_quiet in Hres as (_ & _ & _ & _ & Hf1 & Ha1).
  apply submitter_quiet in Hsend as [(_ & _ & _ & _ & Hf2 & Ha2) _].
  assert (Hf3 : count isFallbackAttempt (history s3)
                = count isFallbackAttempt (history s)).
  { rewrite Hf, Hf2. exact Hf1. }
  assert (Ha3 : count isAddOrder (history s3) = count isAddOrder (history s)).
  { rewrite Ha, Ha2. exact Ha1. }
  split.
  - intros ->. split; [exact Hchain|].
    destruct Hend as [(_ & _ & Hout) | ((? & [=]) & _)].
    split; [exact Hout|]. split; assumption.
  - intros msg ->. split; [exact Hchain|]. rewrite Hchain.
    destruct (onFlowError env a s3) as [r' s4] eqn:Hflow.
    apply onFlowError_spec in Hflow as (_ & Hf4).
    cbn [snd]. rewrite Hf4, Hf3. reflexivity.
Qed.

(** X14. [sendOrderToApi] calls [fetch] at most once.  It does not call
    it when the URL fails the test of line 140 or the order cannot be
    serialised; otherwise it calls it exactly once, with the URL of lines
    139-148 and the serialised order. *)
Theorem submitter_requests_once env apiUrl order s r s' :
  sendOrderToApi env apiUrl order s = (r, s') ->
  count isFetch (history s') <= S (count isFetch (history s))
  /\ (validApiUrl apiUrl = false \/ JSON_stringify env order = None ->
      count isFetch (history s') = count isFetch (history s))
  /\ (forall body,
        validApiUrl apiUrl = true -> JSON_stringify env order = Some body ->
        count isFetch (history s') = S (count isFetch (history s))
        /\ In (FetchPOST (requestUrl env apiUrl) body) (history s')).
Proof.
  intros Hrun.
  unfold sendOrderToApi, validApiUrl, requestUrl, upgrades, onResponse in *.
  set (url := stripTrailingSlashes (default [] apiUrl)) in *.
  destruct (nonEmpty url) eqn:Hne, (re_https_opt url) eqn:Hre;
    cbn [negb orb andb] in *.
  2-4: run; simplify_eq; unfold count; cbn;
       (split; [lia|]); (split; [reflexivity|]); intros; discriminate.
  destruct (jsstring_eqb (location_protocol env) (js "https:") && re_http url);
    run;
    (destruct (JSON_stringify env order) as [body|];
     [|run; simplify_eq; unfold count; cbn;
       (split; [lia|]); (split; [reflexivity|]); intros; discriminate]);
    run;
    repeat (case_match; run; simplify_eq);
    unfold count; cbn;
    (split; [lia|]);
    (split; [intros [?|?]; discriminate|]);
    intros ? _ [= <-]; (split; [reflexivity|]); tauto.
Qed.

Lemma startsWithCI_app p r :
  forallb (fun c => (toLowerAscii c =? c)%N) p = true ->
  startsWithCI p (p ++ r) = true.
Proof.
  induction p as [|c p IH]; simpl; [reflexivity|].
  intros H. apply andb_true_iff in H as [Hc Hp]. now rewrite Hc, IH.
Qed.

(** X15. On a page served over HTTPS, a request that [sendOrderToApi]
    makes goes to an [https://] URL: a configured [http://] URL is
    upgraded, never the reverse.  On any other page the URL is the
    configured one without its trailing slashes.  The URL still passes
    the test of line 140. *)
Theorem request_url_secure env apiUrl :
  validApiUrl apiUrl = true ->
  re_https_opt (requestUrl env apiUrl) = true
  /\ (location_protocol env = js "https:" ->
      startsWithCI (js "https://") (requestUrl env apiUrl) = true)
  /\ (location_protocol env <> js "https:" ->
      requestUrl env apiUrl = stripTrailingSlashes (default [] apiUrl)).
Proof.
  unfold validApiUrl, requestUrl, upgrades.
  set (url := stripTrailingSlashes (default [] apiUrl)).
  intros Hv. apply andb_true_iff in Hv as [_ Hre].
  assert (Hup : re_http url = true ->
                startsWithCI (js "https://") (upgradeToHttps url) = true).
  { intros H. unfold upgradeToHttps. rewrite H. now apply startsWithCI_app. }
  split; [|split].
  - destruct (jsstring_eqb _ _ && re_http url) eqn:E; [|exact Hre].
    apply andb_true_iff in E as [_ E]. unfold re_https_opt.
    rewrite (Hup E). apply orb_true_r.
  - intros ->. rewrite jsstring_eqb_refl. cbn [andb].
    destruct (re_http url) eqn:E; [now apply Hup|].
    unfold re_https_opt in Hre. unfold re_http in E. now rewrite E in Hre.
  - intros Hp. now rewrite (jsstring_eqb_neq _ _ Hp).
Qed.

(** ** Validation and the payload *)

Lemma trimmedValue_blank v :
  v = None \/ (exists raw, v = Some raw /\ forallb isWhiteSpace raw = true) ->
  trimmedValue v = [].
Proof.
  intros [-> | (raw & -> & H)]; [reflexivity|].
  unfold trimmedValue. destruct (nonEmpty raw); [now apply trim_blank|reflexivity].
Qed.

Lemma trimmedValue_filled v :
  nonEmpty (trimmedValue v) = true ->
  exists raw, v = Some raw /\ trimmedValue v = trim raw.
Proof.
  destruct v as [raw|]; [|discriminate]. unfold trimmedValue.
  destruct (nonEmpty raw); [eauto|discriminate].
Qed.

(** X16. A required control that is missing from the form, or whose value
    is only whitespace, counts as not filled in: the rejection is the one
    for a missing value.  For the phone this holds although whitespace
    belongs to the character class of the pattern. *)
Theorem blank_fields_are_missing env form s :
  order_form env = Some form ->
  let blank v :=
    v = None \/ (exists raw, v = Some raw /\ forallb isWhiteSpace raw = true) in
  (blank (field_fullName form) ->
   validateOrderForm env s = (Ok false, record (Alert msgName) s))
  /\ (nonEmpty (trimmedValue (field_fullName form)) = true ->
      blank (field_phone form) ->
      validateOrderForm env s = (Ok false, record (Alert msgPhone) s))
  /\ (nonEmpty (trimmedValue (field_fullName form)) = true ->
      nonEmpty (trimmedValue (field_phone form)) = true ->
      re_phone (trimmedValue (field_phone form)) = true ->
      blank (field_city form) ->
      validateOrderForm env s = (Ok false, record (Alert msgCity) s)).
Proof.
  intros Hform blank. subst blank. cbv beta.
  split; [|split].
  - intros Hb. apply (validate_name env form s Hform).
    now rewrite (trimmedValue_blank _ Hb).
  - intros Hn Hb. apply (validate_phone_missing env form s Hform Hn).
    now rewrite (trimmedValue_blank _ Hb).
  - intros Hn Hp Hre Hb. apply (validate_city env form s Hform Hn Hp Hre).
    now rewrite (trimmedValue_blank _ Hb).
Qed.

(** What a passed validation has checked. *)
Lemma validate_passed env s s' :
  validateOrderForm env s = (Ok true, s') ->
  s' = s /\
  exists form,
    order_form env = Some form
    /\ nonEmpty (trimmedValue (field_fullName form)) = true
    /\ nonEmpty (trimmedValue (field_phone form)) = true
    /\ re_phone (trimmedValue (field_phone form)) = true
    /\ nonEmpty (trimmedValue (field_city form)) = true
    /\ cartIsEmpty (parseCart env (readCartRaw env s)) = false.
Proof.
  unfold validateOrderForm. destruct (order_form env) as [form|]; [|discriminate].
  destruct (nonEmpty (trimmedValue (field_fullName form))) eqn:E1; [|discriminate].
  destruct (nonEmpty (trimmedValue (field_phone form))) eqn:E2; [|discriminate].
  destruct (re_phone (trimmedValue (field_phone form))) eqn:E3; [|discriminate].
  destruct (nonEmpty (trimmedValue (field_city form))) eqn:E4; [|discriminate].
  run. destruct (cartIsEmpty _) eqn:E5; [discriminate|].
  intros [= <-]. split; [reflexivity|]. exists form. repeat split; assumption.
Qed.

(** X17. When [sessionStorage] cannot be reached (and [JSON.parse]
    rejects the empty string), validation fails whatever the form holds,
    and a submit event starts no attempt: the cart check reads an empty
    cart. *)
Theorem blocked_storage_blocks_submission env s :
  sessionStorage_available env = false ->
  JSON_parse env [] = None ->
  (exists s', validateOrderForm env s = (Ok false, s'))
  /\ (exists s', handleSubmit env s = (Ok None, s')).
Proof.
  intros Hst Hparse.
  assert (Hv : forall s0, exists s', validateOrderForm env s0 = (Ok false, s')).
  { intros s0.
    destruct (validate_frame env s0) as (b & s' & Hv & _).
    destruct b; [|eauto].
    apply validate_passed in Hv as (_ & form & _ & _ & _ & _ & _ & Hcart).
    unfold readCartRaw, parseCart in Hcart. rewrite Hst, Hparse in Hcart.
    discriminate. }
  split; [apply Hv|].
  destruct (submitInProgress s) eqn:Hg.
  - rewrite (handleSubmit_ignored _ _ Hg). eauto.
  - destruct (Hv (record PreventDefault s)) as (s' & Hs').
    unfold handleSubmit.
    unfold bind at 1, emit, modify. unfold bind at 1, gets at 1.
    cbn [submitInProgress record]. rewrite Hg. unfold bind at 1. rewrite Hs'.
    cbn. eauto.
Qed.

(** What [buildOrderPayload] puts in the payload. *)
Lemma build_payload env s o s' :
  buildOrderPayload env s = (Ok o, s') ->
  items o = parseCart env (readCartRaw env s)
  /\ (forall form, order_form env = Some form ->
        fullName o = entry_fullName form
        /\ phone o = entry_phone form
        /\ city o = entry_city form
        /\ notes o = or_else (entry_notes form) (VStr []))
  /\ (truthy (total o) = true \/ total o = VNum 0)
  /\ checkoutCart s' = checkoutCart s
  /\ submitBtn s' = submitBtn s.
Proof.
  unfold buildOrderPayload. intros H. run.
  repeat (case_match; run; simplify_eq); cbn;
    (split; [reflexivity|]);
    (split; [intros ? [= <-]; auto|]);
    (split; [|split; reflexivity]);
    unfold or_else;
    try match goal with
      |- context [if truthy ?v then _ else _] => destruct (truthy v) eqn:?
    end; auto.
Qed.

(** What [handleSubmit] has done when it has started an attempt. *)
Lemma handleSubmit_started env s a s' :
  handleSubmit env s = (Ok (Some a), s') ->
  submitInProgress s = false
  /\ validateOrderForm env (record PreventDefault s)
     = (Ok true, record PreventDefault s)
  /\ exists s1,
       buildOrderPayload env (record PreventDefault s) = (Ok (orderData a), s1)
       /\ submitInProgress s' = true
       /\ checkoutCart s' = checkoutCart s1
       /\ submitBtn s'
          = (match submitBtn s1 with
             | Some _ =>
                 Some {| disabled := true;
                         textContent := localize env "submitting" "Submitting..." |}
             | None => None
             end)
       /\ hasSubmitBtn a = bool_decide (is_Some (submitBtn s1))
       /\ originalText a
          = (match submitBtn s1 with
             | Some b => textContent b
             | None => js "Confirm Order"
             end).
Proof.
  unfold handleSubmit.
  unfold bind at 1, emit, modify. unfold bind at 1, gets at 1.
  cbn [submitInProgress record].
  destruct (submitInProgress s) eqn:Hg; [run; discriminate|].
  unfold bind at 1.
  destruct (validate_frame env (record PreventDefault s)) as (b & s0 & Hv & _ & _ & Hsame).
  rewrite Hv. destruct b; cbn [negb]; [|run; discriminate].
  rewrite (Hsame eq_refl) in *. clear Hsame.
  unfold bind at 1, try_catch, bind at 1.
  destruct (buildOrderPayload env _) as [[o|msg|] s1] eqn:Hb;
    [|run; discriminate..].
  intros Hrun. apply handleSubmit_start in Hrun as (_ & Hcart & Hend).
  destruct Hend as [(msg & [=] & _) | ([= ->] & Hg' & Hbtn)].
  split; [reflexivity|]. split; [reflexivity|].
  exists s1. cbn. repeat split; assumption.
Qed.

(** X18. Every attempt that [handleSubmit] starts has passed validation,
    which reads the [value] of the controls: name, phone and city are not
    blank and the trimmed phone matches the pattern.  Its payload carries
    what [FormData] gives under the same names, as typed (not trimmed),
    with [notes] defaulting to the empty string; where the entry of a
    name is the value of its control, the payload field is the validated
    value.  Its items are the parsed cart snapshot, which the cart check
    has found non-empty. *)
Theorem attempt_payload_sources env s a s' :
  handleSubmit env s = (Ok (Some a), s') ->
  exists form n p c,
    order_form env = Some form
    /\ field_fullName form = Some n /\ nonEmpty (trim n) = true
    /\ field_phone form = Some p /\ re_phone (trim p) = true
    /\ field_city form = Some c /\ nonEmpty (trim c) = true
    /\ fullName (orderData a) = entry_fullName form
    /\ phone (orderData a) = entry_phone form
    /\ city (orderData a) = entry_city form
    /\ notes (orderData a) = or_else (entry_notes form) (VStr [])
    /\ (entry_fullName form = VStr n -> fullName (orderData a) = VStr n)
    /\ (entry_phone form = VStr p -> phone (orderData a) = VStr p)
    /\ (entry_city form = VStr c -> city (orderData a) = VStr c)
    /\ items (orderData a) = parseCart env (readCartRaw env s)
    /\ cartIsEmpty (items (orderData a)) = false.
Proof.
  intros Hrun.
  destruct (handleSubmit_started _ _ _ _ Hrun) as (_ & Hv & s1 & Hb & _).
  apply validate_passed in Hv as (_ & form & Hform & Hn & Hp & Hre & Hc & Hcart).
  apply build_payload in Hb as (Hitems & Hfields & _).
  destruct (Hfields form Hform) as (Fn & Fp & Fc & Fo).
  destruct (trimmedValue_filled _ Hn) as (n & En & Tn).
  destruct (trimmedValue_filled _ Hp) as (p & Ep & Tp).
  destruct (trimmedValue_filled _ Hc) as (c & Ec & Tc).
  exists form, n, p, c.
  rewrite Fn, Fp, Fc, Fo, En, Ep, Ec, Hitems. rewrite <- Tn, <- Tp, <- Tc.
  change (readCartRaw env (record PreventDefault s)) with (readCartRaw env s) in *.
  repeat split; auto.
Qed.

(** X19. When [handleSubmit] starts an attempt, the guard is set and the
    button, if there is one, is disabled under the label 'Submitting...'
    (the localised one when there is one); the attempt remembers the text
    the button had, or 'Confirm Order' without a button.  The cart
    snapshot is left in place. *)
Theorem attempt_start_state env s a s' :
  handleSubmit env s = (Ok (Some a), s') ->
  submitInProgress s = false
  /\ submitInProgress s' = true
  /\ checkoutCart s' = checkoutCart s
  /\ submitBtn s'
     = (match submitBtn s with
        | Some _ =>
            Some {| disabled := true;
                    textContent := localize env "submitting" "Submitting..." |}
        | None => None
        end)
  /\ hasSubmitBtn a = bool_decide (is_Some (submitBtn s))
  /\ originalText a
     = (match submitBtn s with
        | Some b => textContent b
        | None => js "Confirm Order"
        end).
Proof.
  intros Hrun.
  destruct (handleSubmit_started _ _ _ _ Hrun)
    as (Hg & _ & s1 & Hb & Hg' & Hcart & Hbtn & Hhas & Horig).
  apply build_payload in Hb as (_ & _ & _ & Hc1 & Hb1).
  cbn in Hc1, Hb1. rewrite Hb1 in *. rewrite Hc1 in *.
  repeat split; assumption.
Qed.

(** ** The local store, the fallback URL and the resolver *)

(** X20. [saveOrderToLocalStore] never throws.  It returns [true] exactly
    when [Store.addOrder] exists and returns normally; without a [Store] or
    without [addOrder] it returns [false] and calls nothing; with
    [addOrder] it calls it once, with the order it was given. *)
Theorem local_save_result env order s r s' :
  saveOrderToLocalStore env order s = (r, s') ->
  (exists saved, r = Ok saved)
  /\ (r = Ok true <->
      exists store add,
        Store env = Some store /\ Store_addOrder store = Some add
        /\ add (history s) order = true)
  /\ (Store env = None
      \/ (exists store, Store env = Some store /\ Store_addOrder store = None) ->
      r = Ok false /\ count isAddOrder (history s') = count isAddOrder (history s))
  /\ (forall store add,
        Store env = Some store -> Store_addOrder store = Some add ->
        exists e, history s' = e :: StoreAddOrder order :: history s
                  /\ isAddOrder e = false).
Proof.
  unfold saveOrderToLocalStore. intros Hrun.
  destruct (Store env) as [store|] eqn:HS;
    [destruct (Store_addOrder store) as [add|] eqn:HA|]; run.
  - destruct (add (history s) order) eqn:Hadd; run; simplify_eq.
    + split; [eauto|]. split; [split; eauto|].
      split; [intros [[=] | (? & [= <-] & ?)]; congruence|].
      intros ? ? _ _. eexists. split; reflexivity.
    + split; [eauto|]. split.
      { split; [discriminate|]. intros (? & ? & [= <-] & Ha & Ht).
        rewrite HA in Ha. injection Ha as <-. congruence. }
      split; [intros [[=] | (? & [= <-] & ?)]; congruence|].
      intros ? ? _ _. eexists. split; reflexivity.
  - simplify_eq. split; [eauto|]. split.
    { split; [discriminate|]. intros (? & ? & [= <-] & Ha & _). congruence. }
    split; [intros _; split; reflexivity|].
    intros ? ? [= <-] Ha. congruence.
  - simplify_eq. split; [eauto|]. split.
    { split; [discriminate|]. intros (? & ? & [=] & _). }
    split; [intros _; split; reflexivity|].
    intros ? ? [=].
Qed.

(** X21. The page-declared URL comes from the [meta] element whenever the
    trimmed [content] is not empty, and then the form attribute is not
    looked at: a [content] that is not an http(s) URL gives no fallback
    even when the form declares a valid one.  The form attribute is used
    when there is no [meta] content, or only whitespace. *)
Theorem fallback_url_precedence env :
  (forall c, meta_orders_api_url env = Some c -> nonEmpty (trim c) = true ->
     getFallbackOrdersApiUrl env
     = (if re_https_opt (trim c) then Some (trim c) else None))
  /\ (forall form a,
        meta_orders_api_url env = None
        \/ (exists c, meta_orders_api_url env = Some c
                      /\ forallb isWhiteSpace c = true) ->
        order_form env = Some form -> data_orders_api_url form = Some a ->
        getFallbackOrdersApiUrl env
        = (if nonEmpty (trim a) && re_https_opt (trim a) then Some (trim a) else None))
  /\ (meta_orders_api_url env = None ->
      order_form env = None
      \/ (exists form, order_form env = Some form /\ data_orders_api_url form = None) ->
      getFallbackOrdersApiUrl env = None).
Proof.
  unfold getFallbackOrdersApiUrl. split; [|split].
  - intros c -> Hne.
    assert (Hc : nonEmpty c = true).
    { destruct c; [discriminate Hne|reflexivity]. }
    rewrite Hc, Hne. cbn [negb andb]. now rewrite Hne.
  - intros form a Hmeta -> ->.
    assert (Hraw : (match meta_orders_api_url env with
                    | Some c => if nonEmpty c then trim c else []
                    | None => []
                    end) = []).
    { destruct Hmeta as [-> | (c & -> & Hc)]; [reflexivity|].
      destruct (nonEmpty c); [now apply trim_blank|reflexivity]. }
    rewrite Hraw. cbn [nonEmpty negb].
    destruct (nonEmpty a) eqn:Ha; [reflexivity|].
    destruct a; [reflexivity|discriminate Ha].
  - intros -> [-> | (form & -> & ->)]; reflexivity.
Qed.

(** X22. The resolver does not always go through the store.  Without a
    [Store], or without its getter, it returns the page-declared URL and
    calls nothing.  When the first read after the readiness wait gives a
    usable URL it returns that URL at once: one read, no refresh.  When
    the store cannot be refreshed, an unusable first read gives the
    page-declared URL. *)
Theorem resolver_shortcuts env s :
  (Store env = None
   \/ (exists store, Store env = Some store /\ Store_getOrdersApiUrl store = None) ->
   getOrdersApiUrlWhenReady env s = (Ok (getFallbackOrdersApiUrl env), s))
  /\ (forall store getter u,
        Store env = Some store -> Store_getOrdersApiUrl store = Some getter ->
        readiness store s = Ok tt ->
        usableUrl (getter (history (readyWaited store s))) = Ok (Some u) ->
        getOrdersApiUrlWhenReady env s
        = (Ok (Some u), record StoreGetOrdersApiUrl (readyWaited store s)))
  /\ (forall store getter,
        Store env = Some store -> Store_getOrdersApiUrl store = Some getter ->
        Store_refreshFromRemote store = None ->
        readiness store s = Ok tt ->
        usableUrl (getter (history (readyWaited store s))) = Ok None ->
        getOrdersApiUrlWhenReady env s
        = (Ok (getFallbackOrdersApiUrl env),
           record StoreGetOrdersApiUrl (readyWaited store s))).
Proof.
  unfold getOrdersApiUrlWhenReady, tryGet, readiness, readyWaited.
  split; [|split].
  - intros [-> | (store & -> & ->)]; reflexivity.
  - intros store getter u -> -> Hready Hu.
    destruct (Store_ready store) as [ready|]; run;
      rewrite ?Hready; run; rewrite Hu; reflexivity.
  - intros store getter -> -> -> Hready Hu.
    destruct (Store_ready store) as [ready|]; run;
      rewrite ?Hready; run; rewrite Hu; reflexivity.
Qed.

(** ** Checkout and page load *)

(** X23. [proceedToCheckout] leaves the page only with a cart.  Without
    [getCartData], or when it returns a falsy value or something of length
    0, it alerts 'Your cart is empty' and does nothing else.  Otherwise it
    navigates to the order page, having stored the serialised cart as the
    snapshot when storage can be reached and the cart serialises; when
    not, it navigates all the same, with the snapshot as it was. *)
Theorem checkout_needs_cart env s :
  let cart := match getCartData env with
              | Some f => f (history s)
              | None => VUndef
              end in
  (cartIsEmpty cart = true ->
   proceedToCheckout env s = (Ok tt, record (Alert (js "Your cart is empty")) s))
  /\ (cartIsEmpty cart = false ->
      exists s',
        proceedToCheckout env s = (Ok tt, s')
        /\ count isNavigation (history s') = S (count isNavigation (history s))
        /\ (exists before, history s' = SetLocation (js "./order.html") :: before)
        /\ count isAlert (history s') = count isAlert (history s)
        /\ (forall raw,
              sessionStorage_available (page env) = true ->
              stringifyCart env cart = Some raw ->
              checkoutCart s' = Some raw)
        /\ (sessionStorage_available (page env) = false
            \/ stringifyCart env cart = None ->
            checkoutCart s' = checkoutCart s)).
Proof.
  intros cart. subst cart. unfold proceedToCheckout. split.
  - intros Hc. destruct (getCartData env); run; [now rewrite Hc|reflexivity].
  - intros Hc.
    destruct (getCartData env); run; [|discriminate Hc]. rewrite Hc.
    destruct (sessionStorage_available (page env));
      try destruct (stringifyCart env _) eqn:Hs;
      unfold set_checkoutCart; run;
      eexists; (split; [reflexivity|]); unfold count; cbn;
      (split; [reflexivity|]); (split; [eauto|]); (split; [reflexivity|]);
      (split; [intros; congruence|]); intros [?|?]; congruence.
Qed.

(** X24. The snapshot that [proceedToCheckout] stores is the cart that the
    order page reads back (when parsing undoes serialising): the cart
    check of [validateOrderForm] passes on it, and on the order page the
    [DOMContentLoaded] listener goes on to render it when it is an
    array. *)
Theorem checkout_snapshot_round_trip env s f raw s' :
  getCartData env = Some f ->
  cartIsEmpty (f (history s)) = false ->
  sessionStorage_available (page env) = true ->
  stringifyCart env (f (history s)) = Some raw ->
  nonEmpty raw = true ->
  JSON_parse (page env) raw = Some (f (history s)) ->
  proceedToCheckout env s = (Ok tt, s') ->
  parseCart (page env) (readCartRaw (page env) s') = f (history s)
  /\ cartIsEmpty (parseCart (page env) (readCartRaw (page env) s')) = false
  /\ (forall l, f (history s) = VArr l -> isOrderPage env = true ->
      onDOMContentLoaded env s' = (Ok (Some (VArr l)), s')).
Proof.
  intros Hf Hc Hst Hstr Hne Hparse Hrun.
  unfold proceedToCheckout in Hrun. rewrite Hf in Hrun. run.
  rewrite Hc, Hst, Hstr in Hrun. unfold set_checkoutCart in Hrun. run.
  injection Hrun as <-.
  assert (Hraw : forall s0, checkoutCart s0 = Some raw ->
                           readCartRaw (page env) s0 = raw).
  { intros s0 Hs0. unfold readCartRaw. now rewrite Hst, Hs0, Hne. }
  rewrite Hraw by reflexivity. unfold parseCart. rewrite Hparse.
  split; [reflexivity|]. split; [exact Hc|].
  intros l Hl Hpage. unfold onDOMContentLoaded. rewrite Hpage. run.
  rewrite Hraw by reflexivity. unfold parseCart. rewrite Hparse, Hl in *. cbn.
  destruct l; [discriminate Hc|reflexivity].
Qed.

(** X25. On the order page, the [DOMContentLoaded] listener reads the
    snapshot: an array of length 0 (also what an unreadable or unparsable
    snapshot counts as) is alerted and sent to the products page, and a
    non-empty array is passed on to be rendered.  For a snapshot that is
    an array the listener passes it on exactly when the cart check of
    [validateOrderForm] would pass.  On another page it does nothing. *)
Theorem order_page_needs_cart env s :
  (isOrderPage env = false -> onDOMContentLoaded env s = (Ok None, s))
  /\ (forall l,
        isOrderPage env = true ->
        parseCart (page env) (readCartRaw (page env) s) = VArr l ->
        (l = [] ->
         onDOMContentLoaded env s
         = (Ok None,
            record (SetLocation (js "./products.html"))
              (record (Alert (js "Your cart is empty. Redirecting to products...")) s)))
        /\ (l <> [] -> onDOMContentLoaded env s = (Ok (Some (VArr l)), s))
        /\ (fst (onDOMContentLoaded env s) = Ok (Some (VArr l))
            <-> cartIsEmpty (VArr l) = false))
  /\ (isOrderPage env = true ->
      sessionStorage_available (page env) = false ->
      JSON_parse (page env) [] = None ->
      parseCart (page env) (readCartRaw (page env) s) = VArr []).
Proof.
  unfold onDOMContentLoaded. split; [|split].
  - now intros ->.
  - intros l -> Hl. run. rewrite Hl. run.
    destruct l as [|x l]; cbn.
    + split; [reflexivity|]. split; [congruence|]. split; discriminate.
    + split; [discriminate|]. split; [reflexivity|]. split; reflexivity.
  - intros _ Hst Hp. unfold readCartRaw, parseCart. now rewrite Hst, Hp.
Qed.

(** ** Entry points and the payload *)

Lemma build_effects env s r s1 :
  buildOrderPayload env s = (r, s1) ->
  untouched s s1
  /\ count isFetch (history s1) = count isFetch (history s)
  /\ count isAddOrder (history s1) = count isAddOrder (history s)
  /\ (getCartTotal env = None -> exists o, r = Ok o /\ total o = VNum 0)
  /\ (forall msg, r = Throw msg ->
       exists f h, getCartTotal env = Some f /\ f h = None).
Proof.
  unfold buildOrderPayload, untouched. intros H. run.
  repeat (case_match; run; simplify_eq); unfold count; cbn;
    repeat split; auto; try discriminate; eauto.
Qed.

(** X26. Both entry points are behind the guard.  While a submission is
    in flight, [window.submitOrder()] and the [submit] listener of the form
    start no attempt: they validate nothing, alert nothing, leave the
    button and the snapshot alone, and call neither [fetch] nor
    [Store.addOrder]. *)
Theorem entry_points_share_guard env s :
  submitInProgress s = true ->
  exists s1 s2,
    submitOrder env s = (Ok None, s1)
    /\ submitListener env s = (Ok None, s2)
    /\ untouched s s1 /\ untouched s s2
    /\ count isFetch (history s1) = count isFetch (history s)
    /\ count isFetch (history s2) = count isFetch (history s)
    /\ count isAddOrder (history s1) = count isAddOrder (history s)
    /\ count isAddOrder (history s2) = count isAddOrder (history s).
Proof.
  intros Hg. unfold submitOrder, submitListener.
  exists (ignored s), (ignored (record PreventDefault s)).
  split; [now apply handleSubmit_ignored|].
  split.
  { unfold bind, emit, modify. now rewrite handleSubmit_ignored. }
  unfold untouched, ignored, count. cbn. repeat split.
Qed.

(** X27. [buildOrderPayload] shows nothing to the user and changes nothing
    on the page.  Without [window.getCartTotal] it returns, with total 0;
    it throws only when [getCartTotal] does. *)
Theorem payload_build_outcome env s r s1 :
  buildOrderPayload env s = (r, s1) ->
  untouched s s1
  /\ r <> Pending
  /\ (getCartTotal env = None -> exists o, r = Ok o /\ total o = VNum 0)
  /\ (forall msg, r = Throw msg ->
       exists f h, getCartTotal env = Some f /\ f h = None).
Proof.
  intros H. destruct (build_effects _ _ _ _ H) as (Hu & _ & _ & H0 & Ht).
  apply build_frame in H as (_ & _ & _ & Hp). auto.
Qed.

(** X28. When the form is valid and [buildOrderPayload] throws,
    [handleSubmit] reports it with one alert, 'Unable to build order.
    Please try again.', and starts no attempt: the guard stays clear, the
    button and the snapshot are as they were, and nothing is sent or
    stored. *)
Theorem build_failure_is_reported env s msg s1 :
  submitInProgress s = false ->
  validateOrderForm env (record PreventDefault s)
  = (Ok true, record PreventDefault s) ->
  buildOrderPayload env (record PreventDefault s) = (Throw msg, s1) ->
  exists s',
    handleSubmit env s = (Ok None, s')
    /\ submitInProgress s' = false
    /\ submitBtn s' = submitBtn s
    /\ checkoutCart s' = checkoutCart s
    /\ (exists before,
          history s'
          = Alert (js "Unable to build order. Please try again.") :: before)
    /\ count isAlert (history s') = S (count isAlert (history s))
    /\ count isFetch (history s') = count isFetch (history s)
    /\ count isAddOrder (history s') = count isAddOrder (history s).
Proof.
  intros Hg Hv Hb. unfold handleSubmit.
  unfold bind at 1, emit, modify. unfold bind at 1, gets at 1.
  cbn [submitInProgress record]. rewrite Hg. unfold bind at 1.
  rewrite Hv. cbn [negb].
  unfold bind at 1, try_catch, bind at 1. rewrite Hb.
  destruct (build_effects _ _ _ _ Hb) as ((Hg1 & Hbtn & Hcart & Hal & _) & Hf & Ha & _).
  run. eexists. split; [reflexivity|]. unfold count in *. cbn in *.
  repeat split; try congruence; eauto.
Qed.

(** ** The theorems at concrete pages *)

Lemma collaborators_return_demo :
  collaboratorsReturn Demo.pageB /\ collaboratorsReturn Pages.failingPage.
Proof.
  split; (split; [intros f key [=] | intros f h [= <-]; reflexivity]).
Defined.

Lemma attempt_end_state_witness :
  collaboratorsReturn Demo.pageB
  /\ outcome (history (snd (submitChain Demo.pageB Demo.attempt Demo.submitted)))
     = Some Success
  /\ checkoutCart (snd (submitChain Demo.pageB Demo.attempt Demo.submitted)) = None
  /\ outcome
       (history (snd (submitChain Pages.failingPage Demo.attempt Demo.submitted)))
     = Some Failed
  /\ checkoutCart (snd (submitChain Pages.failingPage Demo.attempt Demo.submitted))
     = Some (js "CART")
  /\ submitBtn (snd (submitChain Pages.failingPage Demo.attempt Demo.submitted))
     = Some {| disabled := false; textContent := js "Confirm Order" |}.
Proof.
  destruct collaborators_return_demo as (HB & HF).
  destruct (attempt_end_state Demo.pageB Demo.attempt Demo.submitted _ _ HB
              (surjective_pairing _)) as (_ & Hok).
  destruct (Hok eq_refl) as (_ & _ & Hsuccess).
  destruct (attempt_end_state Pages.failingPage Demo.attempt Demo.submitted _ _ HF
              (surjective_pairing _)) as (_ & Hok').
  destruct (Hok' eq_refl) as (_ & Hfailed & _).
  destruct (Hsuccess eq_refl) as (Hcart & _).
  destruct (Hfailed eq_refl) as (Hkept & Hbtn & _).
  split; [exact HB|]. split; [reflexivity|]. split; [exact Hcart|].
  split; [reflexivity|]. split; [exact Hkept | exact Hbtn].
Defined.

Lemma remote_success_skips_fallback_witness :
  fst (getOrdersApiUrlWhenReady Demo.pageA Demo.submitted) = Ok (Some Demo.apiUrl)
  /\ (exists s',
        submitChain Demo.pageA Demo.attempt Demo.submitted = (Ok tt, s')
        /\ outcome (history s') = Some Success
        /\ count isAddOrder (history s') = 0)
  /\ count isFallbackAttempt
       (history (snd (submitChain Demo.brokenResetA Demo.attempt Demo.submitted)))
     = 1.
Proof.
  split; [reflexivity|]. split.
  - destruct (remote_success_skips_fallback Demo.pageA Demo.attempt Demo.submitted
                (Some Demo.apiUrl) _ _ _ _ (surjective_pairing _) eq_refl
                (surjective_pairing _) (surjective_pairing _))
      as (Hreturns & _).
    destruct (Hreturns eq_refl) as (Hchain & Hout & _ & Hadd).
    eexists. split; [exact Hchain|]. split; [exact Hout | exact Hadd].
  - destruct (remote_success_skips_fallback Demo.brokenResetA Demo.attempt
                Demo.submitted (Some Demo.apiUrl) _ _ _ _ (surjective_pairing _)
                eq_refl (surjective_pairing _) (surjective_pairing _))
      as (_ & Hthrows).
    destruct (Hthrows (js "clearCartAfterOrder failed") eq_refl) as (_ & Hcount).
    exact Hcount.
Defined.

Lemma submitter_requests_once_witness :
  validApiUrl (Some Demo.apiUrl) = true
  /\ count isFetch
       (history (snd (sendOrderToApi Demo.pageA (Some Demo.apiUrl) Demo.builtOrder
                        Demo.idle))) = 1
  /\ In (FetchPOST (js "https://api.example/orders") (js "ORDER"))
       (history (snd (sendOrderToApi Demo.pageA (Some Demo.apiUrl) Demo.builtOrder
                        Demo.idle)))
  /\ count isFetch
       (history (snd (sendOrderToApi Demo.pageA (Some (js "orders")) Demo.builtOrder
                        Demo.idle))) = 0.
Proof.
  destruct (submitter_requests_once Demo.pageA (Some Demo.apiUrl) Demo.builtOrder
              Demo.idle _ _ (surjective_pairing _)) as (_ & _ & Hsent).
  destruct (submitter_requests_once Demo.pageA (Some (js "orders")) Demo.builtOrder
              Demo.idle _ _ (surjective_pairing _)) as (_ & Hnot & _).
  destruct (Hsent (js "ORDER") eq_refl eq_refl) as (Hone & Hin).
  split; [reflexivity|]. split; [exact Hone|]. split; [exact Hin|].
  apply Hnot. left. reflexivity.
Defined.

Lemma request_url_secure_witness :
  validApiUrl (Some Demo.apiUrl) = true
  /\ requestUrl Demo.pageA (Some Demo.apiUrl) = js "https://api.example/orders"
  /\ startsWithCI (js "https://") (requestUrl Demo.pageA (Some Demo.apiUrl)) = true.
Proof.
  destruct (request_url_secure Demo.pageA (Some Demo.apiUrl) eq_refl)
    as (_ & Hsecure & _).
  split; [reflexivity|]. split; [reflexivity|]. apply Hsecure. reflexivity.
Defined.

Lemma blank_fields_are_missing_witness :
  validateOrderForm Pages.blankNamePage Demo.idle
  = (Ok false, record (Alert msgName) Demo.idle)
  /\ validateOrderForm Pages.maskedPage Demo.idle
     = (Ok false, record (Alert msgCity) Demo.idle).
Proof.
  destruct (blank_fields_are_missing Pages.blankNamePage Pages.blankNameForm
              Demo.idle eq_refl) as (Hname & _).
  destruct (blank_fields_are_missing Pages.maskedPage Pages.noCityForm
              Demo.idle eq_refl) as (_ & _ & Hcity).
  split.
  - apply Hname. right. exists (js "  "). split; reflexivity.
  - apply Hcity; [reflexivity | reflexivity | reflexivity |]. left. reflexivity.
Defined.

Lemma blocked_storage_blocks_submission_witness :
  sessionStorage_available Pages.blockedStoragePage = false
  /\ validateOrderForm Demo.pageA Demo.idle = (Ok true, Demo.idle)
  /\ (exists s', validateOrderForm Pages.blockedStoragePage Demo.idle = (Ok false, s'))
  /\ (exists s', handleSubmit Pages.blockedStoragePage Demo.idle = (Ok None, s')).
Proof.
  split; [reflexivity|]. split; [reflexivity|].
  exact (blocked_storage_blocks_submission Pages.blockedStoragePage Demo.idle
           eq_refl eq_refl).
Defined.

Lemma attempt_payload_sources_witness :
  handleSubmit Demo.pageB Demo.idle = (Ok (Some Demo.attempt), Demo.submitted)
  /\ city Demo.builtOrder = VStr (js "Casablanca")
  /\ cartIsEmpty (items Demo.builtOrder) = false
  /\ handleSubmit Pages.disabledCityPage Demo.idle
     = (Ok (Some Pages.disabledCityAttempt), Demo.submitted)
  /\ field_city Pages.disabledCityForm = Some (js "Casablanca")
  /\ city (orderData Pages.disabledCityAttempt) = VNull.
Proof.
  destruct (attempt_payload_sources Demo.pageB Demo.idle Demo.attempt Demo.submitted
              eq_refl)
    as (form & n & p & c & Hform & _ & _ & _ & _ & Hc & _ & _ & _ & _ & _ & _ & _
        & Hcity & _ & Hcart).
  injection Hform as <-. injection Hc as <-.
  destruct (attempt_payload_sources Pages.disabledCityPage Demo.idle
              Pages.disabledCityAttempt Demo.submitted eq_refl)
    as (form' & n' & p' & c' & Hform' & _ & _ & _ & _ & Hc' & _ & _ & _ & Hcity'
        & _).
  injection Hform' as <-.
  split; [reflexivity|]. split; [exact (Hcity eq_refl)|]. split; [exact Hcart|].
  split; [reflexivity|]. split; [reflexivity | exact Hcity'].
Defined.

Lemma attempt_start_state_witness :
  submitInProgress Demo.submitted = true
  /\ checkoutCart Demo.submitted = Some (js "CART")
  /\ submitBtn Demo.submitted
     = Some {| disabled := true; textContent := js "Submitting..." |}
  /\ originalText Demo.attempt = js "Confirm Order".
Proof.
  destruct (attempt_start_state Demo.pageB Demo.idle Demo.attempt Demo.submitted
              eq_refl) as (_ & Hg & Hcart & Hbtn & _ & Horig).
  split; [exact Hg|]. split; [exact Hcart|]. split; [exact Hbtn | exact Horig].
Defined.

Lemma local_save_result_witness :
  fst (saveOrderToLocalStore Demo.pageB Demo.builtOrder Demo.idle) = Ok true
  /\ fst (saveOrderToLocalStore Pages.failingPage Demo.builtOrder Demo.idle)
     = Ok false
  /\ fst (saveOrderToLocalStore Pages.readyPage Demo.builtOrder Demo.idle)
     = Ok false
  /\ history (snd (saveOrderToLocalStore Pages.readyPage Demo.builtOrder Demo.idle))
     = [ConsoleLog "Store not available (store.js not loaded?)"].
Proof.
  destruct (local_save_result Demo.pageB Demo.builtOrder Demo.idle _ _
              (surjective_pairing _)) as (_ & Htrue & _).
  destruct (local_save_result Pages.readyPage Demo.builtOrder Demo.idle _ _
              (surjective_pairing _)) as (_ & _ & Hnone & _).
  split.
  - apply Htrue. exists (Demo.lateStore true), (fun _ _ => true).
    repeat split; reflexivity.
  - split; [reflexivity|].
    destruct Hnone as (Hfalse & _).
    + right. exists Pages.readyStore. split; reflexivity.
    + split; [exact Hfalse | reflexivity].
Defined.

Lemma fallback_url_precedence_witness :
  data_orders_api_url Pages.noCityForm = Some (js " https://api.example/orders ")
  /\ getFallbackOrdersApiUrl Pages.maskedPage = None
  /\ getFallbackOrdersApiUrl Pages.declaredPage
     = Some (js "https://api.example/orders").
Proof.
  destruct (fallback_url_precedence Pages.maskedPage) as (Hmeta & _).
  destruct (fallback_url_precedence Pages.declaredPage) as (_ & Hform & _).
  split; [reflexivity|]. split.
  - rewrite (Hmeta (js " orders ") eq_refl eq_refl). reflexivity.
  - rewrite (Hform Pages.noCityForm (js " https://api.example/orders ")
               (or_intror (ex_intro _ (js "  ") (conj eq_refl eq_refl)))
               eq_refl eq_refl).
    reflexivity.
Defined.

Lemma resolver_shortcuts_witness :
  getOrdersApiUrlWhenReady Pages.declaredPage Demo.idle
  = (Ok (Some (js "https://api.example/orders")), Demo.idle)
  /\ getOrdersApiUrlWhenReady Pages.readyPage Demo.idle
     = (Ok (Some Demo.apiUrl),
        record StoreGetOrdersApiUrl (record StoreReady Demo.idle)).
Proof.
  destruct (resolver_shortcuts Pages.declaredPage Demo.idle) as (Hnone & _).
  destruct (resolver_shortcuts Pages.readyPage Demo.idle) as (_ & Hfirst & _).
  split.
  - rewrite (Hnone (or_introl eq_refl)). reflexivity.
  - exact (Hfirst Pages.readyStore _ Demo.apiUrl eq_refl eq_refl eq_refl eq_refl).
Defined.

Lemma checkout_needs_cart_witness :
  proceedToCheckout (Pages.shop (VArr []) false) Pages.fresh
  = (Ok tt, record (Alert (js "Your cart is empty")) Pages.fresh)
  /\ exists s',
       proceedToCheckout (Pages.shop Demo.cart false) Pages.fresh = (Ok tt, s')
       /\ checkoutCart s' = Some (js "CART")
       /\ history s' = [SetLocation (js "./order.html")].
Proof.
  destruct (checkout_needs_cart (Pages.shop (VArr []) false) Pages.fresh)
    as (Hempty & _).
  destruct (checkout_needs_cart (Pages.shop Demo.cart false) Pages.fresh)
    as (_ & Hcart).
  split; [exact (Hempty eq_refl)|].
  destruct (Hcart eq_refl) as (s' & Hrun & _ & _ & _ & Hstored & _).
  exists s'. split; [exact Hrun|]. split; [exact (Hstored _ eq_refl eq_refl)|].
  injection Hrun as <-. reflexivity.
Defined.

Lemma checkout_snapshot_round_trip_witness :
  JSON_parse Demo.pageA (js "CART") = Some Demo.cart
  /\ parseCart Demo.pageA
       (readCartRaw Demo.pageA
          (snd (proceedToCheckout (Pages.shop Demo.cart true) Pages.fresh)))
     = Demo.cart
  /\ fst (onDOMContentLoaded (Pages.shop Demo.cart true)
            (snd (proceedToCheckout (Pages.shop Demo.cart true) Pages.fresh)))
     = Ok (Some Demo.cart).
Proof.
  split; [reflexivity|].
  destruct (checkout_snapshot_round_trip (Pages.shop Demo.cart true) Pages.fresh
              (fun _ => Demo.cart) (js "CART") _
              eq_refl eq_refl eq_refl eq_refl eq_refl eq_refl (surjective_pairing _))
    as (Hparsed & _ & Hload).
  split; [exact Hparsed|].
  rewrite (Hload _ eq_refl eq_refl). reflexivity.
Defined.

Lemma order_page_needs_cart_witness :
  onDOMContentLoaded (Pages.shop Demo.cart false) Pages.fresh = (Ok None, Pages.fresh)
  /\ onDOMContentLoaded (Pages.shop Demo.cart true) Pages.fresh
     = (Ok None,
        record (SetLocation (js "./products.html"))
          (record (Alert (js "Your cart is empty. Redirecting to products..."))
             Pages.fresh))
  /\ onDOMContentLoaded (Pages.shop Demo.cart true) Demo.idle
     = (Ok (Some Demo.cart), Demo.idle).
Proof.
  destruct (order_page_needs_cart (Pages.shop Demo.cart false) Pages.fresh)
    as (Hother & _).
  destruct (order_page_needs_cart (Pages.shop Demo.cart true) Pages.fresh)
    as (_ & Hnone & _).
  destruct (order_page_needs_cart (Pages.shop Demo.cart true) Demo.idle)
    as (_ & Hsome & _).
  split; [exact (Hother eq_refl)|]. split.
  - destruct (Hnone [] eq_refl eq_refl) as (Hempty & _). exact (Hempty eq_refl).
  - destruct (Hsome _ eq_refl eq_refl) as (_ & Hfilled & _).
    apply Hfilled. discriminate.
Defined.

Lemma entry_points_share_guard_witness :
  submitInProgress Demo.submitted = true
  /\ exists s1 s2,
       submitOrder (Pages.shop Demo.cart true) Demo.submitted = (Ok None, s1)
       /\ submitListener (Pages.shop Demo.cart true) Demo.submitted = (Ok None, s2)
       /\ count isFetch (history s2) = 0 /\ count isAlert (history s2) = 0.
Proof.
  split; [reflexivity|].
  destruct (entry_points_share_guard (Pages.shop Demo.cart true) Demo.submitted
              eq_refl)
    as (s1 & s2 & H1 & H2 & _ & (_ & _ & _ & Halert & _) & _ & Hfetch & _).
  exists s1, s2. split; [exact H1|]. split; [exact H2|].
  split; [exact Hfetch | exact Halert].
Defined.

Lemma payload_build_outcome_witness :
  (exists o, fst (buildOrderPayload Pages.plainPage Demo.idle) = Ok o
             /\ total o = VNum 0)
  /\ fst (buildOrderPayload Demo.brokenTotalPage Demo.idle)
     = Throw (js "getCartTotal failed")
  /\ exists f h, getCartTotal Demo.brokenTotalPage = Some f /\ f h = None.
Proof.
  destruct (payload_build_outcome Pages.plainPage Demo.idle _ _
              (surjective_pairing _)) as (_ & _ & Hzero & _).
  destruct (payload_build_outcome Demo.brokenTotalPage Demo.idle _ _
              (surjective_pairing _)) as (_ & _ & _ & Hthrow).
  split; [exact (Hzero eq_refl)|]. split; [reflexivity|].
  apply (Hthrow (js "getCartTotal failed")). reflexivity.
Defined.

Lemma build_failure_is_reported_witness :
  exists s',
    handleSubmit Demo.brokenTotalPage Demo.idle = (Ok None, s')
    /\ submitInProgress s' = false
    /\ count isAlert (history s') = 1
    /\ count isFetch (history s') = 0.
Proof.
  destruct (build_failure_is_reported Demo.brokenTotalPage Demo.idle
              (js "getCartTotal failed") _ eq_refl eq_refl (surjective_pairing _))
    as (s' & Hrun & Hg & _ & _ & _ & Halert & Hfetch & _).
  exists s'. split; [exact Hrun|]. split; [exact Hg|].
  split; [exact Halert | exact Hfetch].
Defined.

End ClientMore.
